(** * Hall booking system: server actions over a relational store

    A shallow embedding of the server actions of the hall booking backend
    (app/actions/bookings.ts, halls.ts, food-items.ts, themes.ts, test.ts and
    lib/validations/booking.ts), followed by the properties established
    about them.

    Conventions of the embedding.
    - A JavaScript [Date] is its time value, an integer number of
      milliseconds since the epoch.  Local time is the time value shifted by
      the host's zone offset, taken constant ([tzOffset]).
    - A JavaScript number is kept by its value when that value is whole:
      amounts, capacities and counts are integers ([Z]).  The operators
      [+] and [*] of the language round their result to the nearest
      binary64 value ([JS.add], [JS.mul]); fractions, infinities and NaN
      have no counterpart here.
    - An [async] action is a computation in a state-and-exception monad over
      the world [W] of its collaborators; [await] is the monad's bind, a
      rejected promise is a thrown value.
    - The data store client and the framework calls are interfaces (type
      classes); the actions are written against the interfaces, and a
      reference in-memory store implements them.
    - [console.error] is not observable by the caller and is left out. *)

From Stdlib Require Import ZArith List Ascii String Bool Lia DecimalString.
From Stdlib Require Import PrimFloat Uint63.
From Stdlib Require Import Sorted Permutation.
Import ListNotations.

Open Scope string_scope.
Open Scope Z_scope.

Set Implicit Arguments.

(* ================================================================== *)
(** ** JavaScript values used by the actions *)

Module JS.

(** A thrown value: an [Error] instance carrying its [message], or any
    other value (for which [instanceof Error] is false). *)
Inductive Thrown : Type :=
| ThrownError (message : string)
| ThrownOther.

(** The nearest binary64 value of a whole number, ties to the even
    significand (53 bits); the overflow to an infinity above 2^1024 is not
    covered. *)
Definition roundToDouble (x : Z) : Z :=
  let a := Z.abs x in
  let e := Z.log2 a - 52 in
  if e <=? 0 then x
  else
    let q := a / 2 ^ e in
    let r := a mod 2 ^ e in
    let half := 2 ^ (e - 1) in
    let q' :=
      if r <? half then q
      else if half <? r then q + 1
      else if Z.even q then q else q + 1 in
    Z.sgn x * (q' * 2 ^ e).

(** [a + b] and [a * b] on numbers with whole values. *)
Definition add (a b : Z) : Z := roundToDouble (a + b).
Definition mul (a b : Z) : Z := roundToDouble (a * b).

Definition msPerDay : Z := 86400000.
Definition msPerHour : Z := 3600000.
Definition msPerMinute : Z := 60000.
Definition msPerSecond : Z := 1000.

(** [Day(t)] and [TimeWithinDay(t)] of the language specification. *)
Definition Day (t : Z) : Z := t / msPerDay.
Definition TimeWithinDay (t : Z) : Z := t mod msPerDay.

Definition MakeTime (h m s ms : Z) : Z :=
  h * msPerHour + m * msPerMinute + s * msPerSecond + ms.

Definition MakeDate (day time : Z) : Z := day * msPerDay + time.

(** Proleptic Gregorian date (year, month 1..12, day 1..31) of a day
    number counted from 1970-01-01. *)
Definition civilFromDays (days : Z) : Z * Z * Z :=
  let z := days + 719468 in
  let era := z / 146097 in
  let doe := z - era * 146097 in
  let yoe := (doe - doe / 1460 + doe / 36524 - doe / 146096) / 365 in
  let doy := doe - (365 * yoe + yoe / 4 - yoe / 100) in
  let mp := (5 * doy + 2) / 153 in
  let d := doy - (153 * mp + 2) / 5 + 1 in
  let m := if mp <? 10 then mp + 3 else mp - 9 in
  let y := yoe + era * 400 + (if m <=? 2 then 1 else 0) in
  (y, m, d).

(** [String(n)] for an integer [n]. *)
Definition toString (n : Z) : string := NilZero.string_of_int (Z.to_int n).

Fixpoint repeatString (pad : string) (n : nat) : string :=
  match n with
  | O => ""
  | S k => pad ++ repeatString pad k
  end.

(** [s.padStart(n, pad)] for a one-character [pad]. *)
Definition padStart (s : string) (n : nat) (pad : string) : string :=
  repeatString pad (n - String.length s) ++ s.

Section LocalTime.
(** Offset of local time from UTC, in milliseconds. *)
Variable tzOffset : Z.

Definition LocalTime (t : Z) : Z := t + tzOffset.
Definition UTC (t : Z) : Z := t - tzOffset.

(** [d.setHours(h, m, s, ms)]: the new time value of [d]; the call
    stores it in [d] and returns it. *)
Definition setHours (t h m s ms : Z) : Z :=
  UTC (MakeDate (Day (LocalTime t)) (MakeTime h m s ms)).

Definition getFullYear (t : Z) : Z :=
  let '(y, _, _) := civilFromDays (Day (LocalTime t)) in y.
(** Months are numbered from 0. *)
Definition getMonth (t : Z) : Z :=
  let '(_, m, _) := civilFromDays (Day (LocalTime t)) in m - 1.
Definition getDate (t : Z) : Z :=
  let '(_, _, d) := civilFromDays (Day (LocalTime t)) in d.
End LocalTime.

End JS.

(* ================================================================== *)
(** ** Asynchronous computations *)

Section Monad.
Variable W : Type.

(** A computation over the world [W]: returns a value or throws, and
    leaves a new world either way. *)
Definition M (A : Type) : Type := W -> (A + JS.Thrown) * W.

Definition ret {A} (a : A) : M A := fun w => (inl a, w).

Definition throw {A} (e : JS.Thrown) : M A := fun w => (inr e, w).

Definition bind {A B} (m : M A) (k : A -> M B) : M B :=
  fun w =>
    match m w with
    | (inl a, w') => k a w'
    | (inr e, w') => (inr e, w')
    end.

(** [try { body } catch (error) { handler }]. *)
Definition tryCatch {A} (body : M A) (handler : JS.Thrown -> M A) : M A :=
  fun w =>
    match body w with
    | (inl a, w') => (inl a, w')
    | (inr e, w') => handler e w'
    end.

(** Runs [m] to its end whatever it does, keeping its outcome. *)
Definition settle {A} (m : M A) : M (A + JS.Thrown) :=
  fun w => let '(r, w') := m w in (inl r, w').

Definition ofSettled {A} (r : A + JS.Thrown) : M A :=
  match r with
  | inl a => ret a
  | inr e => throw e
  end.
End Monad.

Arguments ret {W A} a.
Arguments throw {W A} e.
Arguments bind {W A B} m k.
Arguments tryCatch {W A} body handler.
Arguments settle {W A} m.
Arguments ofSettled {W A} r.

Declare Scope action_scope.
Delimit Scope action_scope with action.
Notation "x <- m ;; k" := (bind m (fun x => k))
  (at level 61, m at next level, right associativity) : action_scope.
Notation "' pat <- m ;; k" := (bind m (fun x => match x with pat => k end))
  (at level 61, pat pattern, m at next level, right associativity)
  : action_scope.
Notation "m ;;; k" := (bind m (fun _ => k))
  (at level 61, right associativity) : action_scope.
Open Scope action_scope.

(** [Promise.all([a, b, c, d])]: the four promises are all started; the
    result is the four values, or the first rejection in array order of
    settlement (here: in array order). *)
Definition promiseAll4 {W A B C D}
    (a : M W A) (b : M W B) (c : M W C) (d : M W D) : M W (A * B * C * D) :=
  ra <- settle a ;;
  rb <- settle b ;;
  rc <- settle c ;;
  rd <- settle d ;;
  va <- ofSettled ra ;;
  vb <- ofSettled rb ;;
  vc <- ofSettled rc ;;
  vd <- ofSettled rd ;;
  ret (va, vb, vc, vd).

(** The result envelope returned by the actions. *)
Inductive Envelope (T : Type) : Type :=
| Success (data : T)                              (* { success: true, data } *)
| SuccessMessage (message : string)               (* { success: true, message } *)
| SuccessAvailability (isAvailable : bool) (message : string)
                                      (* { success: true, isAvailable, message } *)
| Failure (error : string).                       (* { success: false, error } *)

Arguments Success {T} data.
Arguments SuccessMessage {T} message.
Arguments SuccessAvailability {T} isAvailable message.
Arguments Failure {T} error.

(* ================================================================== *)
(** ** Data model *)

Inductive TimeSlot : Type := Morning | Evening | FullDay.

Definition timeSlotName (s : TimeSlot) : string :=
  match s with
  | Morning => "Morning"
  | Evening => "Evening"
  | FullDay => "Full Day"
  end.

Inductive BookingStatus : Type := PENDING | CONFIRMED | COMPLETED | CANCELLED.

Inductive PaymentStatus : Type :=
  PaymentPENDING | PAID | PARTIAL | FAILED | REFUNDED.

Inductive FoodCategory : Type := Appetizer | MainCourse | Dessert | Beverage.

Definition categoryName (c : FoodCategory) : string :=
  match c with
  | Appetizer => "Appetizer"
  | MainCourse => "Main Course"
  | Dessert => "Dessert"
  | Beverage => "Beverage"
  end.

Definition BookingStatus_eqb (a b : BookingStatus) : bool :=
  match a, b with
  | PENDING, PENDING | CONFIRMED, CONFIRMED
  | COMPLETED, COMPLETED | CANCELLED, CANCELLED => true
  | _, _ => false
  end.

Definition PaymentStatus_eqb (a b : PaymentStatus) : bool :=
  match a, b with
  | PaymentPENDING, PaymentPENDING | PAID, PAID | PARTIAL, PARTIAL
  | FAILED, FAILED | REFUNDED, REFUNDED => true
  | _, _ => false
  end.

Inductive SortOrder : Type := asc | desc.

(** A [select] of a joined relation: the whole row ([true]) or the listed
    columns. *)
Inductive Select : Type :=
| SelectAll
| SelectOnly (columns : list string).

Definition selects (s : Select) (column : string) : bool :=
  match s with
  | SelectAll => true
  | SelectOnly columns => existsb (String.eqb column) columns
  end.

(** The value of a column in a selected row: absent unless selected. *)
Definition pick {A} (s : Select) (column : string) (v : A) : option A :=
  if selects s column then Some v else None.

(** When present, the filter field constrains the column. *)
Definition holds {A} (f : option A) (p : A -> bool) : bool :=
  match f with
  | None => true
  | Some a => p a
  end.

(** A field of an update: [undefined] leaves the column as it is. *)
Definition assign {A} (f : option A) (old : A) : A :=
  match f with
  | None => old
  | Some a => a
  end.

Module User.
Record t : Type := mk {
  id : string;
  name : string;
  email : string;
  phone : string
}.

(** A user row as a [select] returns it. *)
Record View : Type := mkView {
  v_id : option string;
  v_name : option string;
  v_email : option string;
  v_phone : option string
}.

Definition select (s : Select) (u : t) : View :=
  mkView (pick s "id" (id u)) (pick s "name" (name u))
         (pick s "email" (email u)) (pick s "phone" (phone u)).
End User.

Module Hall.
Record t : Type := mk {
  id : string;
  name : string;
  description : option string;
  capacity : Z;
  basePrice : Z;
  images : list string;
  amenities : list string;
  isActive : bool;
  createdAt : Z
}.

(** A hall row as a [select] returns it; [true] returns every column. *)
Record View : Type := mkView {
  v_id : option string;
  v_name : option string;
  v_description : option (option string);
  v_capacity : option Z;
  v_basePrice : option Z;
  v_images : option (list string);
  v_amenities : option (list string);
  v_isActive : option bool;
  v_createdAt : option Z
}.

Definition select (s : Select) (h : t) : View :=
  mkView (pick s "id" (id h)) (pick s "name" (name h))
         (pick s "description" (description h))
         (pick s "capacity" (capacity h))
         (pick s "basePrice" (basePrice h))
         (pick s "images" (images h))
         (pick s "amenities" (amenities h))
         (pick s "isActive" (isActive h))
         (pick s "createdAt" (createdAt h)).

(** The [data] of [hall.create]: a validated hall input. *)
Record Input : Type := mkInput {
  i_name : string;
  i_description : option string;
  i_capacity : Z;
  i_basePrice : Z;
  i_images : list string;
  i_amenities : list string;
  i_isActive : bool
}.

(** The [data] of [hall.update], also the type [Partial<HallInput>]. *)
Record Patch : Type := mkPatch {
  p_name : option string;
  p_description : option string;
  p_capacity : option Z;
  p_basePrice : option Z;
  p_images : option (list string);
  p_amenities : option (list string);
  p_isActive : option bool
}.

Definition apply (p : Patch) (h : t) : t :=
  mk (id h)
     (assign (p_name p) (name h))
     (match p_description p with Some d => Some d | None => description h end)
     (assign (p_capacity p) (capacity h))
     (assign (p_basePrice p) (basePrice h))
     (assign (p_images p) (images h))
     (assign (p_amenities p) (amenities h))
     (assign (p_isActive p) (isActive h))
     (createdAt h).

Record Where : Type := mkWhere { w_isActive : option bool }.

Definition matches (q : Where) (h : t) : bool :=
  holds (w_isActive q) (Bool.eqb (isActive h)).

Inductive Column : Type := c_createdAt.
Definition OrderBy : Type := list (Column * SortOrder).

Definition compareColumn (c : Column) (a b : t) : comparison :=
  match c with
  | c_createdAt => Z.compare (createdAt a) (createdAt b)
  end.
End Hall.

Module FoodItem.
Record t : Type := mk {
  id : string;
  name : string;
  category : FoodCategory;
  price : Z;
  isVeg : bool;
  description : option string;
  image : option string;
  isAvailable : bool
}.

Record Input : Type := mkInput {
  i_name : string;
  i_category : FoodCategory;
  i_price : Z;
  i_isVeg : bool;
  i_description : option string;
  i_image : option string;
  i_isAvailable : bool
}.

Record Patch : Type := mkPatch {
  p_name : option string;
  p_category : option FoodCategory;
  p_price : option Z;
  p_isVeg : option bool;
  p_description : option string;
  p_image : option string;
  p_isAvailable : option bool
}.

Definition apply (p : Patch) (f : t) : t :=
  mk (id f)
     (assign (p_name p) (name f))
     (assign (p_category p) (category f))
     (assign (p_price p) (price f))
     (assign (p_isVeg p) (isVeg f))
     (match p_description p with Some d => Some d | None => description f end)
     (match p_image p with Some d => Some d | None => image f end)
     (assign (p_isAvailable p) (isAvailable f)).

Record Where : Type := mkWhere {
  w_category : option string;
  w_isAvailable : option bool
}.

Definition matches (q : Where) (f : t) : bool :=
  holds (w_category q) (String.eqb (categoryName (category f)))
  && holds (w_isAvailable q) (Bool.eqb (isAvailable f)).

Inductive Column : Type := c_category | c_name.
Definition OrderBy : Type := list (Column * SortOrder).

Definition compareColumn (c : Column) (a b : t) : comparison :=
  match c with
  | c_category =>
      String.compare (categoryName (category a)) (categoryName (category b))
  | c_name => String.compare (name a) (name b)
  end.
End FoodItem.

Module Theme.
Record t : Type := mk {
  id : string;
  name : string;
  description : option string;
  price : Z;
  images : list string;
  isAvailable : bool
}.

Record Input : Type := mkInput {
  i_name : string;
  i_description : option string;
  i_price : Z;
  i_images : list string;
  i_isAvailable : bool
}.

Record Patch : Type := mkPatch {
  p_name : option string;
  p_description : option string;
  p_price : option Z;
  p_images : option (list string);
  p_isAvailable : option bool
}.

Definition apply (p : Patch) (x : t) : t :=
  mk (id x)
     (assign (p_name p) (name x))
     (match p_description p with Some d => Some d | None => description x end)
     (assign (p_price p) (price x))
     (assign (p_images p) (images x))
     (assign (p_isAvailable p) (isAvailable x)).

Record Where : Type := mkWhere { w_isAvailable : option bool }.

Definition matches (q : Where) (x : t) : bool :=
  holds (w_isAvailable q) (Bool.eqb (isAvailable x)).

Inductive Column : Type := c_name.
Definition OrderBy : Type := list (Column * SortOrder).

Definition compareColumn (c : Column) (a b : t) : comparison :=
  match c with
  | c_name => String.compare (name a) (name b)
  end.
End Theme.

Module Booking.
(** Snapshots embedded in a booking. *)
Record SelectedFood : Type := mkFood {
  f_id : string;
  f_name : string;
  f_quantity : Z;
  f_price : Z
}.

Record SelectedTheme : Type := mkTheme {
  t_id : string;
  t_name : string;
  t_price : Z
}.

Record CustomerDetails : Type := mkCustomer {
  c_name : string;
  c_email : string;
  c_phone : string;
  c_address : string
}.

(** [BookingInput], the argument of [createBooking]. *)
Record Input : Type := mkInput {
  i_hallId : string;
  i_eventDate : Z;
  i_timeSlot : TimeSlot;
  i_guestCount : Z;
  i_eventType : string;
  i_selectedFoods : list SelectedFood;
  i_selectedTheme : option SelectedTheme;
  i_customerDetails : CustomerDetails;
  i_specialRequests : option string
}.

(** The object is mutable: [eventDate] is a [Date] that [setHours]
    updates in place. *)
Definition set_eventDate (d : Z) (v : Input) : Input :=
  mkInput (i_hallId v) d (i_timeSlot v) (i_guestCount v) (i_eventType v)
          (i_selectedFoods v) (i_selectedTheme v) (i_customerDetails v)
          (i_specialRequests v).

(** The [data] of [booking.create]. *)
Record Data : Type := mkData {
  d_bookingNumber : string;
  d_userId : string;
  d_hallId : string;
  d_eventDate : Z;
  d_timeSlot : TimeSlot;
  d_guestCount : Z;
  d_eventType : string;
  d_selectedFoods : list SelectedFood;
  d_selectedTheme : option SelectedTheme;
  d_totalAmount : Z;
  d_customerDetails : CustomerDetails;
  d_specialRequests : option string;
  d_status : BookingStatus;
  d_paymentStatus : PaymentStatus
}.

Record t : Type := mk {
  id : string;
  bookingNumber : string;
  userId : string;
  hallId : string;
  eventDate : Z;
  timeSlot : TimeSlot;
  guestCount : Z;
  eventType : string;
  selectedFoods : list SelectedFood;
  selectedTheme : option SelectedTheme;
  totalAmount : Z;
  customerDetails : CustomerDetails;
  specialRequests : option string;
  status : BookingStatus;
  paymentStatus : PaymentStatus;
  paymentId : option string;
  createdAt : Z
}.

(** The [data] of [booking.update]. *)
Record Patch : Type := mkPatch {
  p_status : option BookingStatus;
  p_paymentStatus : option PaymentStatus;
  p_paymentId : option string;
  p_specialRequests : option string
}.

Definition apply (p : Patch) (b : t) : t :=
  mk (id b) (bookingNumber b) (userId b) (hallId b) (eventDate b)
     (timeSlot b) (guestCount b) (eventType b) (selectedFoods b)
     (selectedTheme b) (totalAmount b) (customerDetails b)
     (match p_specialRequests p with
      | Some s => Some s
      | None => specialRequests b
      end)
     (assign (p_status p) (status b))
     (assign (p_paymentStatus p) (paymentStatus b))
     (match p_paymentId p with Some s => Some s | None => paymentId b end)
     (createdAt b).

Inductive StatusFilter : Type :=
| StatusIs (s : BookingStatus)             (* status: s *)
| StatusIn (l : list BookingStatus).       (* status: { in: l } *)

(** A [where] object.  Each disjunct of [OR] is [{ timeSlot: name }]. *)
Record Where : Type := mkWhere {
  w_hallId : option string;
  w_userId : option string;
  w_eventDate_gte : option Z;
  w_eventDate_lte : option Z;
  w_status : option StatusFilter;
  w_paymentStatus : option PaymentStatus;
  w_OR : option (list string)
}.

Definition anyRow : Where := mkWhere None None None None None None None.

Definition statusMatches (f : StatusFilter) (s : BookingStatus) : bool :=
  match f with
  | StatusIs s' => BookingStatus_eqb s s'
  | StatusIn l => existsb (BookingStatus_eqb s) l
  end.

Definition matches (q : Where) (b : t) : bool :=
  holds (w_hallId q) (String.eqb (hallId b))
  && holds (w_userId q) (String.eqb (userId b))
  && holds (w_eventDate_gte q) (fun d => d <=? eventDate b)
  && holds (w_eventDate_lte q) (fun d => eventDate b <=? d)
  && holds (w_status q) (fun f => statusMatches f (status b))
  && holds (w_paymentStatus q) (PaymentStatus_eqb (paymentStatus b))
  && holds (w_OR q) (existsb (String.eqb (timeSlotName (timeSlot b)))).

Record Include : Type := mkInclude {
  inc_hall : option Select;
  inc_user : option Select
}.

(** A booking with its included relations, each with the columns its
    [select] names. *)
Record Joined : Type := mkJoined {
  row : t;
  hall : option Hall.View;
  user : option User.View
}.

Inductive Column : Type := c_createdAt.
Definition OrderBy : Type := list (Column * SortOrder).

Definition compareColumn (c : Column) (a b : t) : comparison :=
  match c with
  | c_createdAt => Z.compare (createdAt a) (createdAt b)
  end.
End Booking.

(** A hall with the [(eventDate, timeSlot)] of its selected bookings. *)
Record HallWithBookings : Type := mkHallWithBookings {
  hb_hall : Hall.t;
  hb_bookings : list (Z * TimeSlot)
}.

(* ================================================================== *)
(** ** Collaborators *)

(** The data store client ([prisma]): one operation per call shape used by
    the actions.  Any operation may throw. *)
Class PrismaClient (W : Type) : Type := {
  hall_findMany : Hall.Where -> Hall.OrderBy -> M W (list Hall.t);
  hall_findUnique : string -> M W (option Hall.t);
  hall_findUnique_bookings : string -> Booking.Where -> M W (option HallWithBookings);
  hall_create : Hall.Input -> M W Hall.t;
  hall_update : string -> Hall.Patch -> M W Hall.t;
  hall_delete : string -> M W Hall.t;

  foodItem_findMany : FoodItem.Where -> FoodItem.OrderBy -> M W (list FoodItem.t);
  foodItem_findUnique : string -> M W (option FoodItem.t);
  foodItem_create : FoodItem.Input -> M W FoodItem.t;
  foodItem_update : string -> FoodItem.Patch -> M W FoodItem.t;
  foodItem_delete : string -> M W FoodItem.t;

  theme_findMany : Theme.Where -> Theme.OrderBy -> M W (list Theme.t);
  theme_findUnique : string -> M W (option Theme.t);
  theme_create : Theme.Input -> M W Theme.t;
  theme_update : string -> Theme.Patch -> M W Theme.t;
  theme_delete : string -> M W Theme.t;

  booking_findFirst : Booking.Where -> M W (option Booking.t);
  booking_findMany :
    Booking.Where -> Booking.Include -> Booking.OrderBy -> M W (list Booking.Joined);
  booking_findUnique : string -> Booking.Include -> M W (option Booking.Joined);
  booking_create : Booking.Data -> Booking.Include -> M W Booking.Joined;
  booking_update : string -> Booking.Patch -> M W Booking.t;
  booking_count : Booking.Where -> M W Z;
  (** [aggregate({ where, _sum: { totalAmount: true } })._sum.totalAmount],
      [null] when no row matches. *)
  booking_sum_totalAmount : Booking.Where -> M W (option Z)
}.

(** The host: the framework's cache invalidation, the clock and the random
    source. *)
Class Host (W : Type) : Type := {
  revalidatePath : string -> M W unit;
  (** [new Date()], as a time value. *)
  dateNow : M W Z;
  (** [Math.floor(Math.random() * n)]: an integer of [0, n). *)
  randomBelow : Z -> M W Z
}.

(** The validation library and the process: pure parts of the runtime. *)
Record ZodIssue : Type := mkIssue {
  path : list string;
  (** The message given in the schema, if any; otherwise the library's. *)
  customMessage : option string
}.

Class Runtime : Type := {
  (** Offset of local time from UTC, in milliseconds. *)
  tzOffset : Z;
  (** [z.string().email()] and [z.string().url()]. *)
  isEmail : string -> bool;
  isUrl : string -> bool;
  (** The [message] of a [ZodError] with the given issues. *)
  zodMessage : list ZodIssue -> string;
  (** Value of [new Date()] when the schema module was loaded. *)
  schemaLoadedAt : Z
}.

(* ================================================================== *)
(** ** lib/validations/booking.ts *)

Module Validations.
Section Schemas.
Context {rt : Runtime}.

Definition check (ok : bool) (p : list string) (msg : option string)
  : list ZodIssue :=
  if ok then [] else [mkIssue p msg].

(** [z.string().min(n)] and [.max(n)]. *)
Definition minLength (n : nat) (s : string) : bool :=
  Nat.leb n (String.length s).
Definition maxLength (n : nat) (s : string) : bool :=
  Nat.leb (String.length s) n.

Definition indexed {A} (l : list A) : list (nat * A) :=
  combine (seq 0 (List.length l)) l.

Definition index (i : nat) : string := JS.toString (Z.of_nat i).

(** [z.array(z.string().url()).min(1, msg)] at field [field]. *)
Definition urlArray (field : string) (msg : string) (l : list string)
  : list ZodIssue :=
  check (Nat.leb 1 (List.length l)) [field] (Some msg)
  ++ flat_map (fun '(i, u) => check (isUrl u) [field; index i] None)
              (indexed l).

Definition whenPresent {A} (v : option A) (f : A -> list ZodIssue)
  : list ZodIssue :=
  match v with
  | None => []
  | Some a => f a
  end.

Definition hallSchema (i : Hall.Input) : list ZodIssue :=
  check (minLength 3 (Hall.i_name i)) ["name"]
        (Some "Name must be at least 3 characters")
  ++ check (50 <=? Hall.i_capacity i) ["capacity"]
           (Some "Capacity must be at least 50")
  ++ check (1000 <=? Hall.i_basePrice i) ["basePrice"]
           (Some "Price must be at least ₹1000")
  ++ urlArray "images" "At least one image required" (Hall.i_images i).

(** [hallSchema.partial()]: every field optional, checked when present. *)
Definition hallSchema_partial (p : Hall.Patch) : list ZodIssue :=
  whenPresent (Hall.p_name p) (fun v =>
    check (minLength 3 v) ["name"] (Some "Name must be at least 3 characters"))
  ++ whenPresent (Hall.p_capacity p) (fun v =>
    check (50 <=? v) ["capacity"] (Some "Capacity must be at least 50"))
  ++ whenPresent (Hall.p_basePrice p) (fun v =>
    check (1000 <=? v) ["basePrice"] (Some "Price must be at least ₹1000"))
  ++ whenPresent (Hall.p_images p)
       (urlArray "images" "At least one image required").

Definition foodItemSchema (i : FoodItem.Input) : list ZodIssue :=
  check (minLength 2 (FoodItem.i_name i)) ["name"]
        (Some "Name must be at least 2 characters")
  ++ check (1 <=? FoodItem.i_price i) ["price"] (Some "Price must be positive")
  ++ whenPresent (FoodItem.i_image i) (fun u => check (isUrl u) ["image"] None).

Definition foodItemSchema_partial (p : FoodItem.Patch) : list ZodIssue :=
  whenPresent (FoodItem.p_name p) (fun v =>
    check (minLength 2 v) ["name"] (Some "Name must be at least 2 characters"))
  ++ whenPresent (FoodItem.p_price p) (fun v =>
    check (1 <=? v) ["price"] (Some "Price must be positive"))
  ++ whenPresent (FoodItem.p_image p) (fun u => check (isUrl u) ["image"] None).

Definition themeSchema (i : Theme.Input) : list ZodIssue :=
  check (minLength 3 (Theme.i_name i)) ["name"]
        (Some "Name must be at least 3 characters")
  ++ check (1000 <=? Theme.i_price i) ["price"]
           (Some "Price must be at least ₹1000")
  ++ urlArray "images" "At least one image required" (Theme.i_images i).

Definition themeSchema_partial (p : Theme.Patch) : list ZodIssue :=
  whenPresent (Theme.p_name p) (fun v =>
    check (minLength 3 v) ["name"] (Some "Name must be at least 3 characters"))
  ++ whenPresent (Theme.p_price p) (fun v =>
    check (1000 <=? v) ["price"] (Some "Price must be at least ₹1000"))
  ++ whenPresent (Theme.p_images p)
       (urlArray "images" "At least one image required").

Definition customerDetailsSchema (c : Booking.CustomerDetails)
  : list ZodIssue :=
  check (minLength 2 (Booking.c_name c)) ["customerDetails"; "name"] None
  ++ check (isEmail (Booking.c_email c)) ["customerDetails"; "email"] None
  ++ check (minLength 10 (Booking.c_phone c)) ["customerDetails"; "phone"] None
  ++ check (maxLength 15 (Booking.c_phone c)) ["customerDetails"; "phone"] None
  ++ check (minLength 10 (Booking.c_address c))
           ["customerDetails"; "address"] None.

Definition bookingSchema (i : Booking.Input) : list ZodIssue :=
  check (minLength 1 (Booking.i_hallId i)) ["hallId"]
        (Some "Hall selection required")
  ++ check (schemaLoadedAt <=? Booking.i_eventDate i) ["eventDate"]
           (Some "Event date must be in future")
  ++ check (10 <=? Booking.i_guestCount i) ["guestCount"]
           (Some "Minimum 10 guests")
  ++ check (Booking.i_guestCount i <=? 2000) ["guestCount"] None
  ++ check (minLength 2 (Booking.i_eventType i)) ["eventType"]
           (Some "Event type required")
  ++ check (Nat.leb 1 (List.length (Booking.i_selectedFoods i)))
           ["selectedFoods"] (Some "Select at least one food item")
  ++ flat_map (fun '(k, f) =>
                 check (1 <=? Booking.f_quantity f)
                       ["selectedFoods"; index k; "quantity"] None)
              (indexed (Booking.i_selectedFoods i))
  ++ customerDetailsSchema (Booking.i_customerDetails i).

(** [schema.parse(input)]: the validated value, or a thrown [ZodError]. *)
Definition parse {W A} (schema : A -> list ZodIssue) (input : A) : M W A :=
  match schema input with
  | [] => ret input
  | issues => throw (JS.ThrownError (zodMessage issues))
  end.
End Schemas.
End Validations.

(* ================================================================== *)
(** ** Catch clauses shared by the actions *)

Section Catch.
Context {W : Type}.

(** [catch (error) { return { success: false, error: msg } }]. *)
Definition failWith {T} (msg : string) : JS.Thrown -> M W (Envelope T) :=
  fun _ => ret (Failure msg).

(** [catch (error) { if (error instanceof Error) return { success: false,
    error: error.message }; return { success: false, error: msg } }]. *)
Definition failWithMessageOr {T} (msg : string)
  : JS.Thrown -> M W (Envelope T) :=
  fun error =>
    match error with
    | JS.ThrownError m => ret (Failure m)
    | JS.ThrownOther => ret (Failure msg)
    end.
End Catch.

(** The statuses that count as active. *)
Definition activeStatuses : list BookingStatus := [CONFIRMED; PENDING].

(** [x || 0] for an optional number: [undefined] and [0] are falsy. *)
Definition orZero (x : option Z) : Z :=
  match x with
  | None => 0
  | Some v => if v =? 0 then 0 else v
  end.

(* ================================================================== *)
(** ** app/actions/bookings.ts *)

Module Bookings.

Definition calculateTotalAmount (hallBasePrice : Z)
    (selectedFoods : list Booking.SelectedFood)
    (selectedTheme : option Booking.SelectedTheme) : Z :=
  let foodTotal :=
    fold_left
      (fun sum item =>
         JS.add sum (JS.mul (Booking.f_quantity item) (Booking.f_price item)))
      selectedFoods 0 in
  let themePrice := orZero (option_map Booking.t_price selectedTheme) in
  JS.add (JS.add hallBasePrice foodTotal) themePrice.

Record Stats : Type := mkStats {
  totalBookings : Z;
  confirmedBookings : Z;
  pendingBookings : Z;
  totalRevenue : Z
}.

Section Actions.
Context {W : Type} {prisma : PrismaClient W} {host : Host W} {rt : Runtime}.

Definition generateBookingNumber : M W string :=
  date <- dateNow ;;
  let year := JS.getFullYear tzOffset date in
  let month := JS.padStart (JS.toString (JS.getMonth tzOffset date + 1)) 2 "0" in
  let day := JS.padStart (JS.toString (JS.getDate tzOffset date)) 2 "0" in
  r <- randomBelow 10000 ;;
  let random := JS.padStart (JS.toString r) 4 "0" in
  ret ("BK" ++ JS.toString year ++ month ++ day ++ random).

(** The [where] object of the availability query of [createBooking],
    together with [validated] as the two [setHours] calls leave it: the
    first call moves [validated.eventDate] to the start of its day, the
    second, applied to the moved date, to the end of that day. *)
Definition availabilityQuery (validated : Booking.Input)
  : Booking.Where * Booking.Input :=
  let hallId := Booking.i_hallId validated in
  let gte := JS.setHours tzOffset (Booking.i_eventDate validated) 0 0 0 0 in
  let validated := Booking.set_eventDate gte validated in
  let lte :=
    JS.setHours tzOffset (Booking.i_eventDate validated) 23 59 59 999 in
  let validated := Booking.set_eventDate lte validated in
  let timeSlot := timeSlotName (Booking.i_timeSlot validated) in
  (Booking.mkWhere
     (Some hallId) None (Some gte) (Some lte)
     (Some (Booking.StatusIn activeStatuses)) None
     (Some ([timeSlot; "Full Day"]
            ++ (if String.eqb timeSlot "Full Day"
                then ["Morning"; "Evening"]
                else []))%list),
   validated).

Definition createBooking (userId : string) (input : Booking.Input)
  : M W (Envelope Booking.Joined) :=
  tryCatch
    (validated <- Validations.parse Validations.bookingSchema input ;;
     let '(query, validated) := availabilityQuery validated in
     availability <- booking_findFirst query ;;
     match availability with
     | Some _ =>
         ret (Failure "Hall is not available for selected date and time")
     | None =>
         hall <- hall_findUnique (Booking.i_hallId validated) ;;
         match hall with
         | None => ret (Failure "Hall not found")
         | Some hall =>
             let totalAmount :=
               calculateTotalAmount (Hall.basePrice hall)
                 (Booking.i_selectedFoods validated)
                 (Booking.i_selectedTheme validated) in
             bookingNumber <- generateBookingNumber ;;
             booking <-
               booking_create
                 (Booking.mkData
                    bookingNumber
                    userId
                    (Booking.i_hallId validated)
                    (Booking.i_eventDate validated)
                    (Booking.i_timeSlot validated)
                    (Booking.i_guestCount validated)
                    (Booking.i_eventType validated)
                    (Booking.i_selectedFoods validated)
                    (Booking.i_selectedTheme validated)
                    totalAmount
                    (Booking.i_customerDetails validated)
                    (Booking.i_specialRequests validated)
                    PENDING
                    PaymentPENDING)
                 (Booking.mkInclude
                    (Some SelectAll)
                    (Some (SelectOnly ["id"; "name"; "email"]))) ;;
             revalidatePath "/my-bookings" ;;;
             revalidatePath "/admin/bookings" ;;;
             ret (Success booking)
         end
     end)
    (failWithMessageOr "Failed to create booking").

Definition getMyBookings (userId : string)
  : M W (Envelope (list Booking.Joined)) :=
  tryCatch
    (bookings <-
       booking_findMany
         (Booking.mkWhere None (Some userId) None None None None None)
         (Booking.mkInclude (Some (SelectOnly ["name"; "images"])) None)
         [(Booking.c_createdAt, desc)] ;;
     ret (Success bookings))
    (failWith "Failed to fetch bookings").

Definition getBookingById (id : string) : M W (Envelope Booking.Joined) :=
  tryCatch
    (booking <-
       booking_findUnique id
         (Booking.mkInclude
            (Some SelectAll)
            (Some (SelectOnly ["name"; "email"; "phone"]))) ;;
     match booking with
     | None => ret (Failure "Booking not found")
     | Some booking => ret (Success booking)
     end)
    (failWith "Failed to fetch booking").

Definition getAllBookings : M W (Envelope (list Booking.Joined)) :=
  tryCatch
    (bookings <-
       booking_findMany
         Booking.anyRow
         (Booking.mkInclude
            (Some (SelectOnly ["name"]))
            (Some (SelectOnly ["name"; "email"])))
         [(Booking.c_createdAt, desc)] ;;
     ret (Success bookings))
    (failWith "Failed to fetch bookings").

Definition updateBookingStatus (id : string) (status : BookingStatus)
  : M W (Envelope Booking.t) :=
  tryCatch
    (booking <-
       booking_update id (Booking.mkPatch (Some status) None None None) ;;
     revalidatePath "/admin/bookings" ;;;
     revalidatePath "/my-bookings" ;;;
     ret (Success booking))
    (failWith "Failed to update booking status").

Definition updatePaymentStatus (id : string) (paymentStatus : PaymentStatus)
    (paymentId : option string) : M W (Envelope Booking.t) :=
  tryCatch
    (booking <-
       booking_update id
         (Booking.mkPatch
            (* ...(paymentStatus === "PAID" && { status: "CONFIRMED" }) *)
            (if PaymentStatus_eqb paymentStatus PAID
             then Some CONFIRMED
             else None)
            (Some paymentStatus)
            paymentId
            None) ;;
     revalidatePath "/admin/bookings" ;;;
     revalidatePath "/my-bookings" ;;;
     ret (Success booking))
    (failWith "Failed to update payment status").

(** A string is truthy when it is not empty. *)
Definition cancellationNote (reason : option string) : string :=
  match reason with
  | None | Some "" => "Cancelled by user"
  | Some reason => reason ++ " (Cancellation reason)"
  end.

Definition cancelBooking (id : string) (reason : option string)
  : M W (Envelope Booking.t) :=
  tryCatch
    (booking <-
       booking_update id
         (Booking.mkPatch (Some CANCELLED) None None
                          (Some (cancellationNote reason))) ;;
     revalidatePath "/admin/bookings" ;;;
     revalidatePath "/my-bookings" ;;;
     ret (Success booking))
    (failWith "Failed to cancel booking").

Definition getBookingStats : M W (Envelope Stats) :=
  tryCatch
    ('(totalBookings, confirmedBookings, pendingBookings, totalRevenue) <-
       promiseAll4
         (booking_count Booking.anyRow)
         (booking_count
            (Booking.mkWhere None None None None
               (Some (Booking.StatusIs CONFIRMED)) None None))
         (booking_count
            (Booking.mkWhere None None None None
               (Some (Booking.StatusIs PENDING)) None None))
         (booking_sum_totalAmount
            (Booking.mkWhere None None None None None (Some PAID) None)) ;;
     ret (Success
            (mkStats totalBookings confirmedBookings pendingBookings
                     (orZero totalRevenue))))
    (failWith "Failed to fetch statistics").
End Actions.
End Bookings.

(* ================================================================== *)
(** ** app/actions/halls.ts *)

Module Halls.
Section Actions.
Context {W : Type} {prisma : PrismaClient W} {host : Host W} {rt : Runtime}.

Definition getActiveHalls : M W (Envelope (list Hall.t)) :=
  tryCatch
    (halls <- hall_findMany (Hall.mkWhere (Some true))
                            [(Hall.c_createdAt, desc)] ;;
     ret (Success halls))
    (failWith "Failed to fetch halls").

Definition getHallById (id : string) : M W (Envelope HallWithBookings) :=
  tryCatch
    (hall <-
       hall_findUnique_bookings id
         (Booking.mkWhere None None None None
            (Some (Booking.StatusIn activeStatuses)) None None) ;;
     match hall with
     | None => ret (Failure "Hall not found")
     | Some hall => ret (Success hall)
     end)
    (failWith "Failed to fetch hall details").

Definition getAllHalls : M W (Envelope (list Hall.t)) :=
  tryCatch
    (halls <- hall_findMany (Hall.mkWhere None) [(Hall.c_createdAt, desc)] ;;
     ret (Success halls))
    (failWith "Failed to fetch halls").

Definition createHall (input : Hall.Input) : M W (Envelope Hall.t) :=
  tryCatch
    (validated <- Validations.parse Validations.hallSchema input ;;
     hall <- hall_create validated ;;
     revalidatePath "/admin/halls" ;;;
     revalidatePath "/halls" ;;;
     ret (Success hall))
    (failWithMessageOr "Failed to create hall").

Definition updateHall (id : string) (input : Hall.Patch)
  : M W (Envelope Hall.t) :=
  tryCatch
    (validated <- Validations.parse Validations.hallSchema_partial input ;;
     hall <- hall_update id validated ;;
     revalidatePath "/admin/halls" ;;;
     revalidatePath "/halls" ;;;
     revalidatePath ("/halls/" ++ id) ;;;
     ret (Success hall))
    (failWithMessageOr "Failed to update hall").

Definition deleteHall (id : string) : M W (Envelope unit) :=
  tryCatch
    (bookingsCount <-
       booking_count
         (Booking.mkWhere (Some id) None None None
            (Some (Booking.StatusIn activeStatuses)) None None) ;;
     if 0 <? bookingsCount
     then
       ret (Failure
         "Cannot delete hall with active bookings. Mark as inactive instead.")
     else
       hall_delete id ;;;
       revalidatePath "/admin/halls" ;;;
       revalidatePath "/halls" ;;;
       ret (SuccessMessage "Hall deleted successfully"))
    (failWith "Failed to delete hall").

Definition toggleHallStatus (id : string) : M W (Envelope Hall.t) :=
  tryCatch
    (hall <- hall_findUnique id ;;
     match hall with
     | None => ret (Failure "Hall not found")
     | Some hall =>
         updated <-
           hall_update id
             (Hall.mkPatch None None None None None None
                           (Some (negb (Hall.isActive hall)))) ;;
         revalidatePath "/admin/halls" ;;;
         revalidatePath "/halls" ;;;
         ret (Success updated)
     end)
    (failWith "Failed to update hall status").

(** The [where] object of the query of [checkHallAvailability].  The two
    bounds are computed on two copies of [eventDate]. *)
Definition availabilityQuery (hallId : string) (eventDate : Z)
    (timeSlot : string) : Booking.Where :=
  let startOfDay := JS.setHours tzOffset eventDate 0 0 0 0 in
  let endOfDay := JS.setHours tzOffset eventDate 23 59 59 999 in
  Booking.mkWhere
    (Some hallId) None (Some startOfDay) (Some endOfDay)
    (Some (Booking.StatusIn activeStatuses)) None
    (Some ([timeSlot; "Full Day"]
           ++ (if String.eqb timeSlot "Full Day"
               then ["Morning"; "Evening"]
               else []))%list).

Definition checkHallAvailability (hallId : string) (eventDate : Z)
    (timeSlot : string) : M W (Envelope unit) :=
  tryCatch
    (existingBooking <-
       booking_findFirst (availabilityQuery hallId eventDate timeSlot) ;;
     ret (SuccessAvailability
            (match existingBooking with None => true | Some _ => false end)
            (match existingBooking with
             | Some _ => "Hall is already booked for this date and time"
             | None => "Hall is available"
             end)))
    (failWith "Failed to check availability").
End Actions.
End Halls.

(* ================================================================== *)
(** ** app/actions/food-items.ts *)

Module FoodItems.
Section Actions.
Context {W : Type} {prisma : PrismaClient W} {host : Host W} {rt : Runtime}.

Definition getAvailableFoodItems : M W (Envelope (list FoodItem.t)) :=
  tryCatch
    (items <-
       foodItem_findMany
         (FoodItem.mkWhere None (Some true))
         [(FoodItem.c_category, asc); (FoodItem.c_name, asc)] ;;
     ret (Success items))
    (failWith "Failed to fetch food items").

Definition getAllFoodItems : M W (Envelope (list FoodItem.t)) :=
  tryCatch
    (items <-
       foodItem_findMany
         (FoodItem.mkWhere None None)
         [(FoodItem.c_category, asc); (FoodItem.c_name, asc)] ;;
     ret (Success items))
    (failWith "Failed to fetch food items").

Definition getFoodItemsByCategory (category : string)
  : M W (Envelope (list FoodItem.t)) :=
  tryCatch
    (items <-
       foodItem_findMany
         (FoodItem.mkWhere (Some category) (Some true))
         [(FoodItem.c_name, asc)] ;;
     ret (Success items))
    (failWith "Failed to fetch food items").

Definition createFoodItem (input : FoodItem.Input)
  : M W (Envelope FoodItem.t) :=
  tryCatch
    (validated <- Validations.parse Validations.foodItemSchema input ;;
     item <- foodItem_create validated ;;
     revalidatePath "/admin/food-items" ;;;
     revalidatePath "/booking" ;;;
     ret (Success item))
    (failWithMessageOr "Failed to create food item").

Definition updateFoodItem (id : string) (input : FoodItem.Patch)
  : M W (Envelope FoodItem.t) :=
  tryCatch
    (validated <- Validations.parse Validations.foodItemSchema_partial input ;;
     item <- foodItem_update id validated ;;
     revalidatePath "/admin/food-items" ;;;
     revalidatePath "/booking" ;;;
     ret (Success item))
    (failWithMessageOr "Failed to update food item").

Definition deleteFoodItem (id : string) : M W (Envelope unit) :=
  tryCatch
    (foodItem_delete id ;;;
     revalidatePath "/admin/food-items" ;;;
     revalidatePath "/booking" ;;;
     ret (SuccessMessage "Food item deleted successfully"))
    (failWith "Failed to delete food item").

Definition toggleFoodItemAvailability (id : string)
  : M W (Envelope FoodItem.t) :=
  tryCatch
    (item <- foodItem_findUnique id ;;
     match item with
     | None => ret (Failure "Food item not found")
     | Some item =>
         updated <-
           foodItem_update id
             (FoodItem.mkPatch None None None None None None
                               (Some (negb (FoodItem.isAvailable item)))) ;;
         revalidatePath "/admin/food-items" ;;;
         revalidatePath "/booking" ;;;
         ret (Success updated)
     end)
    (failWith "Failed to update availability").
End Actions.
End FoodItems.

(* ================================================================== *)
(** ** app/actions/themes.ts *)

Module Themes.
Section Actions.
Context {W : Type} {prisma : PrismaClient W} {host : Host W} {rt : Runtime}.

Definition getAvailableThemes : M W (Envelope (list Theme.t)) :=
  tryCatch
    (themes <- theme_findMany (Theme.mkWhere (Some true))
                              [(Theme.c_name, asc)] ;;
     ret (Success themes))
    (failWith "Failed to fetch themes").

Definition getAllThemes : M W (Envelope (list Theme.t)) :=
  tryCatch
    (themes <- theme_findMany (Theme.mkWhere None) [(Theme.c_name, asc)] ;;
     ret (Success themes))
    (failWith "Failed to fetch themes").

Definition getThemeById (id : string) : M W (Envelope Theme.t) :=
  tryCatch
    (theme <- theme_findUnique id ;;
     match theme with
     | None => ret (Failure "Theme not found")
     | Some theme => ret (Success theme)
     end)
    (failWith "Failed to fetch theme").

Definition createTheme (input : Theme.Input) : M W (Envelope Theme.t) :=
  tryCatch
    (validated <- Validations.parse Validations.themeSchema input ;;
     theme <- theme_create validated ;;
     revalidatePath "/admin/themes" ;;;
     revalidatePath "/booking" ;;;
     ret (Success theme))
    (failWithMessageOr "Failed to create theme").

Definition updateTheme (id : string) (input : Theme.Patch)
  : M W (Envelope Theme.t) :=
  tryCatch
    (validated <- Validations.parse Validations.themeSchema_partial input ;;
     theme <- theme_update id validated ;;
     revalidatePath "/admin/themes" ;;;
     revalidatePath "/booking" ;;;
     ret (Success theme))
    (failWithMessageOr "Failed to update theme").

Definition deleteTheme (id : string) : M W (Envelope unit) :=
  tryCatch
    (theme_delete id ;;;
     revalidatePath "/admin/themes" ;;;
     revalidatePath "/booking" ;;;
     ret (SuccessMessage "Theme deleted successfully"))
    (failWith "Failed to delete theme").

Definition toggleThemeAvailability (id : string) : M W (Envelope Theme.t) :=
  tryCatch
    (theme <- theme_findUnique id ;;
     match theme with
     | None => ret (Failure "Theme not found")
     | Some theme =>
         updated <-
           theme_update id
             (Theme.mkPatch None None None None
                            (Some (negb (Theme.isAvailable theme)))) ;;
         revalidatePath "/admin/themes" ;;;
         revalidatePath "/booking" ;;;
         ret (Success updated)
     end)
    (failWith "Failed to update availability").
End Actions.
End Themes.

(* ================================================================== *)
(** ** app/actions/test.ts *)

Module TestActions.
Section Actions.
Context {W : Type} {prisma : PrismaClient W}.

(** No [try]: the created row is returned as it is. *)
Definition createTestHall : M W Hall.t :=
  hall <-
    hall_create
      (Hall.mkInput
         "Grand Ballroom"
         (Some "Spacious hall for 500+ guests")
         500
         50000
         ["https://example.com/image1.jpg"; "https://example.com/image2.jpg"]
         ["AC"; "Parking"; "Stage"; "Sound System"]
         true) ;;
  ret hall.

Definition getAllHalls : M W (list Hall.t) :=
  halls <- hall_findMany (Hall.mkWhere (Some true))
                         [(Hall.c_createdAt, desc)] ;;
  ret halls.
End Actions.
End TestActions.

(* ================================================================== *)
(** ** A reference store, in memory

    Tables are lists of rows in insertion order.  A row is addressed by its
    [id] the way a statement [... WHERE id = k] does: [update] rewrites and
    [delete] removes the rows whose id is [k], and both throw when there is
    none.  [create] draws a new id and stamps [createdAt] with the clock.
    No operation fails otherwise; referential constraints between tables are
    not enforced. *)

Module Mem.

Section Table.
Variables (A C : Type) (id : A -> string).
Variable compareColumn : C -> A -> A -> comparison.

Definition lookup (k : string) (rows : list A) : option A :=
  find (fun r => String.eqb (id r) k) rows.

Definition updateRows (k : string) (f : A -> A) (rows : list A) : list A :=
  map (fun r => if String.eqb (id r) k then f r else r) rows.

Definition deleteRows (k : string) (rows : list A) : list A :=
  filter (fun r => negb (String.eqb (id r) k)) rows.

Fixpoint compareBy (o : list (C * SortOrder)) (a b : A) : comparison :=
  match o with
  | [] => Eq
  | (c, d) :: o' =>
      match (match d with
             | asc => compareColumn c a b
             | desc => compareColumn c b a
             end) with
      | Eq => compareBy o' a b
      | r => r
      end
  end.

Fixpoint insertBy (o : list (C * SortOrder)) (a : A) (rows : list A)
  : list A :=
  match rows with
  | [] => [a]
  | b :: rest =>
      match compareBy o a b with
      | Gt => b :: insertBy o a rest
      | _ => a :: b :: rest
      end
  end.

Definition sortBy (o : list (C * SortOrder)) (rows : list A) : list A :=
  fold_right (insertBy o) [] rows.
End Table.

(** Modelled from the spec: the schema of the store (prisma/schema.prisma)
    is not among the sources.  The tables are the entities of the data
    model, with the columns the actions read and write. *)
Record World : Type := mk {
  halls : list Hall.t;
  foodItems : list FoodItem.t;
  themes : list Theme.t;
  bookings : list Booking.t;
  users : list User.t;
  (** The clock, the values the random source will give, the counter of
      generated ids and the paths marked stale so far. *)
  clock : Z;
  randoms : list Z;
  nextId : Z;
  stale : list string
}.

Definition with_halls (v : list Hall.t) (w : World) : World :=
  mk v (foodItems w) (themes w) (bookings w) (users w)
     (clock w) (randoms w) (nextId w) (stale w).
Definition with_foodItems (v : list FoodItem.t) (w : World) : World :=
  mk (halls w) v (themes w) (bookings w) (users w)
     (clock w) (randoms w) (nextId w) (stale w).
Definition with_themes (v : list Theme.t) (w : World) : World :=
  mk (halls w) (foodItems w) v (bookings w) (users w)
     (clock w) (randoms w) (nextId w) (stale w).
Definition with_bookings (v : list Booking.t) (w : World) : World :=
  mk (halls w) (foodItems w) (themes w) v (users w)
     (clock w) (randoms w) (nextId w) (stale w).
Definition with_randoms (v : list Z) (w : World) : World :=
  mk (halls w) (foodItems w) (themes w) (bookings w) (users w)
     (clock w) v (nextId w) (stale w).
Definition with_stale (v : list string) (w : World) : World :=
  mk (halls w) (foodItems w) (themes w) (bookings w) (users w)
     (clock w) (randoms w) (nextId w) v.

Definition freshId (w : World) : string := "c" ++ JS.toString (nextId w).

Definition bumpId (w : World) : World :=
  mk (halls w) (foodItems w) (themes w) (bookings w) (users w)
     (clock w) (randoms w) (nextId w + 1) (stale w).

Definition recordToUpdateNotFound : JS.Thrown :=
  JS.ThrownError "Record to update not found.".
Definition recordToDeleteNotFound : JS.Thrown :=
  JS.ThrownError "Record to delete does not exist.".

(** The common shape of [findMany], [update] and [delete] on a table. *)
Section Operations.
Variables (A C Q P : Type) (id : A -> string).
Variable rows : World -> list A.
Variable with_rows : list A -> World -> World.
Variable matches : Q -> A -> bool.
Variable compareColumn : C -> A -> A -> comparison.
Variable apply : P -> A -> A.

Definition findMany (q : Q) (o : list (C * SortOrder)) : M World (list A) :=
  fun w => (inl (sortBy compareColumn o (filter (matches q) (rows w))), w).

Definition findUnique (k : string) : M World (option A) :=
  fun w => (inl (lookup id k (rows w)), w).

Definition update (k : string) (p : P) : M World A :=
  fun w =>
    match lookup id k (rows w) with
    | None => (inr recordToUpdateNotFound, w)
    | Some r =>
        (inl (apply p r), with_rows (updateRows id k (apply p) (rows w)) w)
    end.

Definition delete (k : string) : M World A :=
  fun w =>
    match lookup id k (rows w) with
    | None => (inr recordToDeleteNotFound, w)
    | Some r => (inl r, with_rows (deleteRows id k (rows w)) w)
    end.
End Operations.

Definition newHall (w : World) (i : Hall.Input) : Hall.t :=
  Hall.mk (freshId w) (Hall.i_name i) (Hall.i_description i)
          (Hall.i_capacity i) (Hall.i_basePrice i) (Hall.i_images i)
          (Hall.i_amenities i) (Hall.i_isActive i) (clock w).

Definition newFoodItem (w : World) (i : FoodItem.Input) : FoodItem.t :=
  FoodItem.mk (freshId w) (FoodItem.i_name i) (FoodItem.i_category i)
              (FoodItem.i_price i) (FoodItem.i_isVeg i)
              (FoodItem.i_description i) (FoodItem.i_image i)
              (FoodItem.i_isAvailable i).

Definition newTheme (w : World) (i : Theme.Input) : Theme.t :=
  Theme.mk (freshId w) (Theme.i_name i) (Theme.i_description i)
           (Theme.i_price i) (Theme.i_images i) (Theme.i_isAvailable i).

(** A new booking row: [paymentId] starts [null]. *)
Definition newBooking (w : World) (d : Booking.Data) : Booking.t :=
  Booking.mk (freshId w) (Booking.d_bookingNumber d) (Booking.d_userId d)
             (Booking.d_hallId d) (Booking.d_eventDate d)
             (Booking.d_timeSlot d) (Booking.d_guestCount d)
             (Booking.d_eventType d) (Booking.d_selectedFoods d)
             (Booking.d_selectedTheme d) (Booking.d_totalAmount d)
             (Booking.d_customerDetails d) (Booking.d_specialRequests d)
             (Booking.d_status d) (Booking.d_paymentStatus d)
             None (clock w).

Definition join (w : World) (inc : Booking.Include) (b : Booking.t)
  : Booking.Joined :=
  Booking.mkJoined b
    (match Booking.inc_hall inc with
     | Some s =>
         option_map (Hall.select s) (lookup Hall.id (Booking.hallId b) (halls w))
     | None => None
     end)
    (match Booking.inc_user inc with
     | Some s =>
         option_map (User.select s) (lookup User.id (Booking.userId b) (users w))
     | None => None
     end).

Definition sumTotalAmount (rows : list Booking.t) : Z :=
  fold_right (fun b s => Booking.totalAmount b + s) 0 rows.

#[global] Instance prisma : PrismaClient World := {|
  hall_findMany := findMany halls Hall.matches Hall.compareColumn;
  hall_findUnique := findUnique Hall.id halls;
  hall_findUnique_bookings := fun k q w =>
    (inl (option_map
            (fun h =>
               mkHallWithBookings h
                 (map (fun b => (Booking.eventDate b, Booking.timeSlot b))
                      (filter (fun b => String.eqb (Booking.hallId b) k
                                        && Booking.matches q b)
                              (bookings w))))
            (lookup Hall.id k (halls w))), w);
  hall_create := fun i w =>
    let h := newHall w i in
    (inl h, bumpId (with_halls (halls w ++ [h]) w));
  hall_update := update Hall.id halls with_halls Hall.apply;
  hall_delete := delete Hall.id halls with_halls;

  foodItem_findMany :=
    findMany foodItems FoodItem.matches FoodItem.compareColumn;
  foodItem_findUnique := findUnique FoodItem.id foodItems;
  foodItem_create := fun i w =>
    let f := newFoodItem w i in
    (inl f, bumpId (with_foodItems (foodItems w ++ [f]) w));
  foodItem_update :=
    update FoodItem.id foodItems with_foodItems FoodItem.apply;
  foodItem_delete := delete FoodItem.id foodItems with_foodItems;

  theme_findMany := findMany themes Theme.matches Theme.compareColumn;
  theme_findUnique := findUnique Theme.id themes;
  theme_create := fun i w =>
    let x := newTheme w i in
    (inl x, bumpId (with_themes (themes w ++ [x]) w));
  theme_update := update Theme.id themes with_themes Theme.apply;
  theme_delete := delete Theme.id themes with_themes;

  booking_findFirst := fun q w =>
    (inl (find (Booking.matches q) (bookings w)), w);
  booking_findMany := fun q inc o w =>
    (inl (map (join w inc)
              (sortBy Booking.compareColumn o
                      (filter (Booking.matches q) (bookings w)))), w);
  booking_findUnique := fun k inc w =>
    (inl (option_map (join w inc) (lookup Booking.id k (bookings w))), w);
  booking_create := fun d inc w =>
    let b := newBooking w d in
    (inl (join w inc b), bumpId (with_bookings (bookings w ++ [b]) w));
  booking_update :=
    update Booking.id bookings with_bookings Booking.apply;
  booking_count := fun q w =>
    (inl (Z.of_nat (List.length (filter (Booking.matches q) (bookings w)))),
     w);
  booking_sum_totalAmount := fun q w =>
    (inl (match filter (Booking.matches q) (bookings w) with
          | [] => None
          | rows => Some (sumTotalAmount rows)
          end), w)
|}.

#[global] Instance host : Host World := {|
  revalidatePath := fun p w => (inl tt, with_stale (stale w ++ [p]) w);
  dateNow := fun w => (inl (clock w), w);
  randomBelow := fun n w =>
    match randoms w with
    | [] => (inl 0, w)
    | r :: rest => (inl (r mod n), with_randoms rest w)
    end
|}.
End Mem.

(* ================================================================== *)
(** ** A store that cannot be reached: every operation throws *)

Module Offline.

Definition unreachable : JS.Thrown :=
  JS.ThrownError "Can't reach database server".

Definition fails {A} : M unit A := throw unreachable.

#[global] Instance prisma : PrismaClient unit := {|
  hall_findMany := fun _ _ => fails;
  hall_findUnique := fun _ => fails;
  hall_findUnique_bookings := fun _ _ => fails;
  hall_create := fun _ => fails;
  hall_update := fun _ _ => fails;
  hall_delete := fun _ => fails;
  foodItem_findMany := fun _ _ => fails;
  foodItem_findUnique := fun _ => fails;
  foodItem_create := fun _ => fails;
  foodItem_update := fun _ _ => fails;
  foodItem_delete := fun _ => fails;
  theme_findMany := fun _ _ => fails;
  theme_findUnique := fun _ => fails;
  theme_create := fun _ => fails;
  theme_update := fun _ _ => fails;
  theme_delete := fun _ => fails;
  booking_findFirst := fun _ => fails;
  booking_findMany := fun _ _ _ => fails;
  booking_findUnique := fun _ _ => fails;
  booking_create := fun _ _ => fails;
  booking_update := fun _ _ => fails;
  booking_count := fun _ => fails;
  booking_sum_totalAmount := fun _ => fails
|}.

#[global] Instance host : Host unit := {|
  revalidatePath := fun _ => fails;
  dateNow := fails;
  randomBelow := fun _ => fails
|}.
End Offline.

(* ================================================================== *)
(** ** Vocabulary of the properties *)

(** A computation that returns a value from every world. *)
Definition neverThrows {W A} (m : M W A) : Prop :=
  forall w, exists a w', m w = (inl a, w').

(** An active booking: CONFIRMED or PENDING. *)
Definition isActiveBooking (b : Booking.t) : bool :=
  match Booking.status b with
  | CONFIRMED | PENDING => true
  | COMPLETED | CANCELLED => false
  end.

(** The overlap rule as the specification words it: "Full Day" conflicts
    with any slot that day; "Morning" and "Evening" conflict only with the
    same slot or "Full Day". *)
Definition slotsOverlap (a b : TimeSlot) : bool :=
  match a, b with
  | FullDay, _ | _, FullDay => true
  | Morning, Morning | Evening, Evening => true
  | Morning, Evening | Evening, Morning => false
  end.

(** Two dates on the same local calendar day. *)
Definition sameDate {rt : Runtime} (d1 d2 : Z) : bool :=
  JS.Day (JS.LocalTime tzOffset d1) =? JS.Day (JS.LocalTime tzOffset d2).

(** The request [(hallId, eventDate, timeSlot)] overlaps the active
    booking [b] of the same hall. *)
Definition overlaps {rt : Runtime} (hallId : string) (eventDate : Z)
    (timeSlot : TimeSlot) (b : Booking.t) : bool :=
  String.eqb (Booking.hallId b) hallId
  && isActiveBooking b
  && sameDate (Booking.eventDate b) eventDate
  && slotsOverlap timeSlot (Booking.timeSlot b).



(** The number that a string of decimal digits reads as; no number for
    the empty string or when another character occurs. *)
Definition digitValue (c : ascii) : option Z :=
  let n := Z.of_N (N_of_ascii c) in
  if (48 <=? n) && (n <=? 57) then Some (n - 48) else None.

Fixpoint decimalFrom (acc : Z) (s : string) : option Z :=
  match s with
  | EmptyString => Some acc
  | String c rest =>
      match digitValue c with
      | Some d => decimalFrom (10 * acc + d) rest
      | None => None
      end
  end.

Definition decimalValue (s : string) : option Z :=
  match s with
  | EmptyString => None
  | _ => decimalFrom 0 s
  end.


(** A whole number of magnitude below 2^63 as a binary64 value, and the
    comparison of [JS.add] and [JS.mul] with the binary64 operations. *)
Definition toBinary64 (z : Z) : float :=
  if z <? 0 then PrimFloat.opp (PrimFloat.of_uint63 (Uint63.of_Z (- z)))
  else PrimFloat.of_uint63 (Uint63.of_Z z).

Definition agreesWithBinary64 (operands : Z * Z) : bool :=
  let '(a, b) := operands in
  PrimFloat.eqb (toBinary64 (JS.add a b))
                (PrimFloat.add (toBinary64 a) (toBinary64 b))
  && PrimFloat.eqb (toBinary64 (JS.mul a b))
                   (PrimFloat.mul (toBinary64 a) (toBinary64 b)).



(** Counts and revenue over a list of bookings. *)
Definition countStatus (s : BookingStatus) (rows : list Booking.t) : Z :=
  Z.of_nat
    (List.length (filter (fun b => BookingStatus_eqb (Booking.status b) s) rows)).

Definition isPaid (b : Booking.t) : bool :=
  PaymentStatus_eqb (Booking.paymentStatus b) PAID.

Definition paidRevenue (rows : list Booking.t) : Z :=
  fold_right Z.add 0 (map Booking.totalAmount (filter isPaid rows)).

(** What [createBooking] does on the reference store, case by case. *)
Inductive CreateBookingOutcome {rt : Runtime} (w : Mem.World)
    (userId : string) (input : Booking.Input)
  : (Envelope Booking.Joined + JS.Thrown) * Mem.World -> Prop :=
| Rejected (issues : list ZodIssue) :
    Validations.bookingSchema input = issues ->
    issues <> [] ->
    CreateBookingOutcome w userId input
      (inl (Failure (zodMessage issues)), w)
| Unavailable (b : Booking.t) :
    Validations.bookingSchema input = [] ->
    find (Booking.matches (fst (Bookings.availabilityQuery input)))
         (Mem.bookings w) = Some b ->
    CreateBookingOutcome w userId input
      (inl (Failure "Hall is not available for selected date and time"), w)
| HallMissing :
    Validations.bookingSchema input = [] ->
    find (Booking.matches (fst (Bookings.availabilityQuery input)))
         (Mem.bookings w) = None ->
    Mem.lookup Hall.id (Booking.i_hallId input) (Mem.halls w) = None ->
    CreateBookingOutcome w userId input (inl (Failure "Hall not found"), w)
| Created (hall : Hall.t) (booking : Booking.Joined) (w' : Mem.World) :
    Validations.bookingSchema input = [] ->
    find (Booking.matches (fst (Bookings.availabilityQuery input)))
         (Mem.bookings w) = None ->
    Mem.lookup Hall.id (Booking.i_hallId input) (Mem.halls w) = Some hall ->
    Mem.bookings w' = (Mem.bookings w ++ [Booking.row booking])%list ->
    Mem.halls w' = Mem.halls w ->
    Booking.userId (Booking.row booking) = userId ->
    Booking.hallId (Booking.row booking) = Booking.i_hallId input ->
    Booking.timeSlot (Booking.row booking) = Booking.i_timeSlot input ->
    Booking.eventDate (Booking.row booking) =
      JS.setHours tzOffset
        (JS.setHours tzOffset (Booking.i_eventDate input) 0 0 0 0)
        23 59 59 999 ->
    Booking.totalAmount (Booking.row booking) =
      Bookings.calculateTotalAmount (Hall.basePrice hall)
        (Booking.i_selectedFoods input) (Booking.i_selectedTheme input) ->
    Booking.status (Booking.row booking) = PENDING ->
    Booking.paymentStatus (Booking.row booking) = PaymentPENDING ->
    CreateBookingOutcome w userId input (inl (Success booking), w').

(** Two bookings that cannot both stand: active bookings of the same hall,
    on the same local calendar day, in overlapping slots. *)
Definition doubleBooked {rt : Runtime} (a b : Booking.t) : bool :=
  String.eqb (Booking.hallId a) (Booking.hallId b)
  && isActiveBooking a
  && isActiveBooking b
  && sameDate (Booking.eventDate a) (Booking.eventDate b)
  && slotsOverlap (Booking.timeSlot a) (Booking.timeSlot b).

(** No two rows of the table are double booked. *)
Definition noDoubleBooking {rt : Runtime} (rows : list Booking.t) : Prop :=
  ForallOrdPairs (fun a b => doubleBooked a b = false) rows.

(** Rows in the order of their creation, the latest first. *)
Definition newestFirst {A} (createdAt : A -> Z) (rows : list A) : Prop :=
  StronglySorted (fun a b => createdAt b <= createdAt a) rows.

(** The text of a cancellation, spelled out. *)
Definition cancellationText (reason : option string) : string :=
  match reason with
  | None => "Cancelled by user"
  | Some r =>
      if String.eqb r "" then "Cancelled by user"
      else r ++ " (Cancellation reason)"
  end.

(** The names of the three time slots. *)
Definition isSlotName (s : string) : bool :=
  existsb (String.eqb s) (map timeSlotName [Morning; Evening; FullDay]).

(* ================================================================== *)
(** ** Sample data, for evaluating the actions *)

Module Sample.

(** A runtime at UTC+05:30 with simple stand-ins for the validation
    library's string formats and message. *)
Definition runtime : Runtime := {|
  tzOffset := 19800000;
  isEmail := fun s =>
    match String.index 0 "@" s with Some _ => true | None => false end;
  isUrl := String.prefix "http";
  zodMessage := fun issues =>
    String.concat "; "
      (map (fun i => match customMessage i with
                     | Some m => m
                     | None => "Invalid input"
                     end) issues);
  schemaLoadedAt := 1790000000000
|}.

Definition hallA : Hall.t :=
  Hall.mk "hall-a" "Hall A" None 500 50000
          ["https://example.com/a.jpg"] ["AC"] true 1780000000000.

Definition customer : Booking.CustomerDetails :=
  Booking.mkCustomer "Asha Rao" "asha@example.com" "9876543210"
                     "12 MG Road, Pune".

Definition paneer : Booking.SelectedFood :=
  Booking.mkFood "food-1" "Paneer" 2 200.

Definition royal : Booking.SelectedTheme :=
  Booking.mkTheme "theme-1" "Royal" 3000.

(** 2027-01-15, 13:30 local time. *)
Definition dateD : Z := 1800000000000.

Definition request (slot : TimeSlot) (guests : Z) : Booking.Input :=
  Booking.mkInput "hall-a" dateD slot guests "Wedding"
                  [paneer] (Some royal) customer None.

Definition world : Mem.World :=
  Mem.mk [hallA] [] [] []
         [User.mk "user-1" "Asha Rao" "asha@example.com" "9876543210"]
         1795000000000 [4711] 1 [].

(** A booking of Hall A for the whole of 2027-01-15, with the given
    statuses, as [createBooking] stores it. *)
Definition fullDayBooking (s : BookingStatus) (p : PaymentStatus)
  : Booking.t :=
  Booking.mk "b-1" "BK202611180042" "user-1" "hall-a" 1800037799999 FullDay
             100 "Wedding" [paneer] (Some royal) 53400 customer None s p None
             1795000000000.

Definition bookedWorld (s : BookingStatus) (p : PaymentStatus) : Mem.World :=
  Mem.with_bookings [fullDayBooking s p] world.

Definition food1 : FoodItem.t :=
  FoodItem.mk "food-1" "Paneer" MainCourse 200 true None None true.

Definition theme1 : Theme.t :=
  Theme.mk "theme-1" "Royal" None 3000 ["https://example.com/t.jpg"] false.

Definition catalogWorld : Mem.World :=
  Mem.with_themes [theme1] (Mem.with_foodItems [food1] world).



End Sample.

(* ================================================================== *)
(** * Properties *)

(** ** Dates *)

Section DateFacts.
Variable tz : Z.

Lemma Day_MakeDate (day time : Z) :
  0 <= time < JS.msPerDay -> JS.Day (JS.MakeDate day time) = day.
Proof.
  intros Htime. unfold JS.Day, JS.MakeDate.
  symmetry. apply Z.div_unique with (r := time); lia.
Qed.

Lemma LocalTime_UTC (t : Z) : JS.LocalTime tz (JS.UTC tz t) = t.
Proof. unfold JS.LocalTime, JS.UTC. lia. Qed.

(** [setHours] keeps the local calendar day. *)
Lemma Day_setHours (t h m s ms : Z) :
  0 <= JS.MakeTime h m s ms < JS.msPerDay ->
  JS.Day (JS.LocalTime tz (JS.setHours tz t h m s ms))
  = JS.Day (JS.LocalTime tz t).
Proof.
  intros Htime. unfold JS.setHours.
  rewrite LocalTime_UTC. now apply Day_MakeDate.
Qed.

Lemma TimeWithinDay_setHours (t h m s ms : Z) :
  0 <= JS.MakeTime h m s ms < JS.msPerDay ->
  JS.TimeWithinDay (JS.LocalTime tz (JS.setHours tz t h m s ms))
  = JS.MakeTime h m s ms.
Proof.
  intros Htime. unfold JS.setHours, JS.TimeWithinDay, JS.MakeDate.
  rewrite LocalTime_UTC.
  symmetry.
  apply Z.mod_unique with (q := JS.Day (JS.LocalTime tz t)); lia.
Qed.

(** Moving a date to the start of its day and then to the end of the day
    gives the end of the day of the original date. *)
Lemma setHours_after_setHours (t h m s ms h' m' s' ms' : Z) :
  0 <= JS.MakeTime h m s ms < JS.msPerDay ->
  JS.setHours tz (JS.setHours tz t h m s ms) h' m' s' ms'
  = JS.setHours tz t h' m' s' ms'.
Proof.
  intros Htime. unfold JS.setHours at 1.
  rewrite (Day_setHours t h m s ms Htime). reflexivity.
Qed.

Lemma startOfDay_time : 0 <= JS.MakeTime 0 0 0 0 < JS.msPerDay.
Proof. split; [discriminate | reflexivity]. Qed.

Lemma endOfDay_time : 0 <= JS.MakeTime 23 59 59 999 < JS.msPerDay.
Proof. split; [discriminate | reflexivity]. Qed.

(** A date lies between the start and the end of the day of [t] exactly
    when it falls on the local calendar day of [t]. *)
Lemma within_day (t x : Z) :
  (JS.setHours tz t 0 0 0 0 <=? x) && (x <=? JS.setHours tz t 23 59 59 999)
  = (JS.Day (JS.LocalTime tz x) =? JS.Day (JS.LocalTime tz t)).
Proof.
  unfold JS.setHours, JS.UTC, JS.MakeDate, JS.Day.
  change (JS.MakeTime 0 0 0 0) with 0.
  change (JS.MakeTime 23 59 59 999) with (JS.msPerDay - 1).
  set (d := JS.LocalTime tz t / JS.msPerDay).
  assert (HD : 0 < JS.msPerDay) by reflexivity.
  pose proof (Z.div_mod (JS.LocalTime tz x) JS.msPerDay ltac:(lia)) as Hx.
  pose proof (Z.mod_pos_bound (JS.LocalTime tz x) JS.msPerDay HD) as Hr.
  set (q := JS.LocalTime tz x / JS.msPerDay) in *.
  set (r := JS.LocalTime tz x mod JS.msPerDay) in *.
  unfold JS.LocalTime in Hx.
  destruct (Z.eqb_spec q d) as [Heq | Hne].
  - apply andb_true_iff. split; apply Z.leb_le; subst q; lia.
  - apply andb_false_iff.
    destruct (Z_lt_le_dec q d) as [Hlt | Hge].
    + left. apply Z.leb_gt. nia.
    + right. apply Z.leb_gt. nia.
Qed.
End DateFacts.

(** ** The availability queries *)

Section Availability.
Context {rt : Runtime}.

(** The query of [createBooking] written on the request. *)
Lemma createBooking_query (v : Booking.Input) :
  fst (Bookings.availabilityQuery v)
  = Halls.availabilityQuery (Booking.i_hallId v) (Booking.i_eventDate v)
      (timeSlotName (Booking.i_timeSlot v)).
Proof.
  unfold Bookings.availabilityQuery, Halls.availabilityQuery. cbn.
  rewrite (setHours_after_setHours tzOffset _ 0 0 0 0 23 59 59 999
             (startOfDay_time)).
  reflexivity.
Qed.

Lemma activeStatuses_spec (b : Booking.t) :
  existsb (BookingStatus_eqb (Booking.status b)) activeStatuses
  = isActiveBooking b.
Proof. unfold isActiveBooking. now destruct (Booking.status b). Qed.

Lemma slot_disjunction (a b : TimeSlot) :
  existsb (String.eqb (timeSlotName b))
    ([timeSlotName a; "Full Day"]
     ++ (if String.eqb (timeSlotName a) "Full Day"
         then ["Morning"; "Evening"] else []))%list
  = slotsOverlap a b.
Proof. now destruct a, b. Qed.

(** The query selects exactly the bookings that overlap the request in
    the words of the specification. *)
Lemma availabilityQuery_overlaps (hallId : string) (eventDate : Z)
    (slot : TimeSlot) (b : Booking.t) :
  Booking.matches (Halls.availabilityQuery hallId eventDate (timeSlotName slot)) b
  = overlaps hallId eventDate slot b.
Proof.
  unfold Booking.matches, Halls.availabilityQuery, overlaps, sameDate.
  cbn [Booking.w_hallId Booking.w_userId Booking.w_eventDate_gte
       Booking.w_eventDate_lte Booking.w_status Booking.w_paymentStatus
       Booking.w_OR holds Booking.statusMatches].
  rewrite activeStatuses_spec, slot_disjunction.
  rewrite <- (within_day tzOffset eventDate (Booking.eventDate b)).
  rewrite !andb_true_r.
  destruct (String.eqb (Booking.hallId b) hallId),
    (JS.setHours tzOffset eventDate 0 0 0 0 <=? Booking.eventDate b),
    (Booking.eventDate b <=? JS.setHours tzOffset eventDate 23 59 59 999),
    (isActiveBooking b);
    reflexivity.
Qed.
End Availability.

(** ** Tables of the reference store *)

Section TableFacts.
Variables (A : Type) (id : A -> string).

Lemma lookup_id (k : string) (rows : list A) (r : A) :
  Mem.lookup id k rows = Some r -> id r = k.
Proof.
  unfold Mem.lookup. intros H. apply find_some in H.
  now apply String.eqb_eq.
Qed.

Lemma lookup_updateRows (k k' : string) (f : A -> A) (rows : list A) :
  (forall r, id (f r) = id r) ->
  Mem.lookup id k' (Mem.updateRows id k f rows)
  = if String.eqb k' k
    then option_map f (Mem.lookup id k rows)
    else Mem.lookup id k' rows.
Proof.
  intros Hid. unfold Mem.lookup, Mem.updateRows.
  induction rows as [ | r rows IH]; cbn.
  - now destruct (String.eqb k' k).
  - destruct (String.eqb_spec (id r) k) as [Hr | Hr].
    + rewrite Hid, Hr. rewrite (String.eqb_sym k k').
      destruct (String.eqb_spec k' k) as [Hk | Hk]; [reflexivity | ].
      rewrite IH. destruct (String.eqb_spec k' k); [contradiction | reflexivity].
    + destruct (String.eqb_spec (id r) k') as [Hr' | Hr'].
      * destruct (String.eqb_spec k' k) as [Hk | Hk]; [congruence | reflexivity].
      * exact IH.
Qed.

Lemma lookup_deleteRows (k k' : string) (rows : list A) :
  Mem.lookup id k' (Mem.deleteRows id k rows)
  = if String.eqb k' k then None else Mem.lookup id k' rows.
Proof.
  unfold Mem.lookup, Mem.deleteRows.
  induction rows as [ | r rows IH]; cbn.
  - now destruct (String.eqb k' k).
  - destruct (String.eqb_spec (id r) k) as [Hr | Hr]; cbn.
    + rewrite IH. destruct (String.eqb_spec k' k) as [Hk | Hk]; [reflexivity | ].
      destruct (String.eqb_spec (id r) k'); [congruence | reflexivity].
    + destruct (String.eqb_spec (id r) k') as [Hr' | Hr'].
      * destruct (String.eqb_spec k' k) as [Hk | Hk]; [congruence | reflexivity].
      * exact IH.
Qed.
End TableFacts.

Lemma Hall_apply_id (p : Hall.Patch) (h : Hall.t) :
  Hall.id (Hall.apply p h) = Hall.id h.
Proof. reflexivity. Qed.

Lemma FoodItem_apply_id (p : FoodItem.Patch) (f : FoodItem.t) :
  FoodItem.id (FoodItem.apply p f) = FoodItem.id f.
Proof. reflexivity. Qed.

Lemma Theme_apply_id (p : Theme.Patch) (x : Theme.t) :
  Theme.id (Theme.apply p x) = Theme.id x.
Proof. reflexivity. Qed.

Lemma Booking_apply_id (p : Booking.Patch) (b : Booking.t) :
  Booking.id (Booking.apply p b) = Booking.id b.
Proof. reflexivity. Qed.

(** Unfolds an action down to the operations of the reference store. *)
Ltac run_action :=
  unfold tryCatch, bind, ret, failWith, failWithMessageOr;
  cbn [hall_findMany hall_findUnique hall_findUnique_bookings hall_create
       hall_update hall_delete foodItem_findMany foodItem_findUnique
       foodItem_create foodItem_update foodItem_delete theme_findMany
       theme_findUnique theme_create theme_update theme_delete
       booking_findFirst booking_findMany booking_findUnique booking_create
       booking_update booking_count booking_sum_totalAmount
       revalidatePath dateNow randomBelow Mem.prisma Mem.host];
  unfold Mem.update, Mem.delete, Mem.findUnique, Mem.findMany;
  lazy beta iota zeta.

(** Reads a table of a world built by the store's operations. *)
Ltac project :=
  cbn [Mem.halls Mem.foodItems Mem.themes Mem.bookings Mem.users Mem.clock
       Mem.randoms Mem.nextId Mem.stale Mem.with_halls Mem.with_foodItems
       Mem.with_themes Mem.with_bookings Mem.with_randoms Mem.with_stale
       Mem.bumpId].

(** Rewrites with the outcome of a lookup and resumes the evaluation. *)
Ltac resume H := rewrite ?H; lazy beta iota zeta; rewrite ?H.

(** ** Payment status *)

Lemma updatePaymentStatus_mem (w : Mem.World) (id : string)
    (p : PaymentStatus) (paymentId : option string) (b : Booking.t) :
  Mem.lookup Booking.id id (Mem.bookings w) = Some b ->
  let patch :=
    Booking.mkPatch (if PaymentStatus_eqb p PAID then Some CONFIRMED else None)
                    (Some p) paymentId None in
  exists w',
    Bookings.updatePaymentStatus id p paymentId w
    = (inl (Success (Booking.apply patch b)), w')
    /\ Mem.bookings w'
       = Mem.updateRows Booking.id id (Booking.apply patch) (Mem.bookings w)
    /\ Mem.halls w' = Mem.halls w
    /\ Mem.foodItems w' = Mem.foodItems w
    /\ Mem.themes w' = Mem.themes w
    /\ Mem.users w' = Mem.users w.
Proof.
  intros Hb patch.
  unfold Bookings.updatePaymentStatus. run_action. rewrite Hb.
  eexists. split; [reflexivity | ]. cbn. repeat split.
Qed.

(** C3.  On the reference store, [updatePaymentStatus(id, "PAID")] on an
    existing booking succeeds, and the stored booking then has payment
    status PAID and status CONFIRMED, whatever its status was before. *)
Theorem updatePaymentStatus_paid_confirms (w : Mem.World) (id : string)
    (paymentId : option string) (b : Booking.t) :
  Mem.lookup Booking.id id (Mem.bookings w) = Some b ->
  exists b' w',
    Bookings.updatePaymentStatus id PAID paymentId w = (inl (Success b'), w')
    /\ Mem.lookup Booking.id id (Mem.bookings w') = Some b'
    /\ Booking.paymentStatus b' = PAID
    /\ Booking.status b' = CONFIRMED.
Proof.
  intros Hb.
  destruct (updatePaymentStatus_mem w id PAID paymentId Hb)
    as (w' & Hrun & Hrows & _).
  eexists. exists w'. split; [exact Hrun | ].
  split; [ | split; reflexivity].
  rewrite Hrows, lookup_updateRows by apply Booking_apply_id.
  rewrite String.eqb_refl, Hb. reflexivity.
Qed.

Lemma updatePaymentStatus_paid_confirms_witness :
  exists b' w',
    Bookings.updatePaymentStatus "b-1" PAID (Some "pay_1")
      (Sample.bookedWorld CANCELLED PaymentPENDING)
    = (inl (Success b'), w')
    /\ Mem.lookup Booking.id "b-1" (Mem.bookings w') = Some b'
    /\ Booking.paymentStatus b' = PAID
    /\ Booking.status b' = CONFIRMED.
Proof.
  apply (updatePaymentStatus_paid_confirms
           (Sample.bookedWorld CANCELLED PaymentPENDING) "b-1" (Some "pay_1")
           (b := Sample.fullDayBooking CANCELLED PaymentPENDING)).
  reflexivity.
Defined.

(** C10.  On the reference store, [updatePaymentStatus(id, p, paymentId)]
    with [p] other than PAID on an existing booking rewrites that booking
    with [paymentStatus] set to [p] and [paymentId] set to the given value
    (kept when none is given), every other field as it was; bookings with
    another id and the other tables are unchanged. *)
Theorem updatePaymentStatus_frame (w : Mem.World) (id : string)
    (p : PaymentStatus) (paymentId : option string) (b : Booking.t) :
  p <> PAID ->
  Mem.lookup Booking.id id (Mem.bookings w) = Some b ->
  let b' :=
    Booking.mk (Booking.id b) (Booking.bookingNumber b) (Booking.userId b)
      (Booking.hallId b) (Booking.eventDate b) (Booking.timeSlot b)
      (Booking.guestCount b) (Booking.eventType b) (Booking.selectedFoods b)
      (Booking.selectedTheme b) (Booking.totalAmount b)
      (Booking.customerDetails b) (Booking.specialRequests b)
      (Booking.status b)
      p
      (match paymentId with Some i => Some i | None => Booking.paymentId b end)
      (Booking.createdAt b) in
  exists w',
    Bookings.updatePaymentStatus id p paymentId w = (inl (Success b'), w')
    /\ Mem.lookup Booking.id id (Mem.bookings w') = Some b'
    /\ (forall k, k <> id ->
          Mem.lookup Booking.id k (Mem.bookings w')
          = Mem.lookup Booking.id k (Mem.bookings w))
    /\ Mem.halls w' = Mem.halls w
    /\ Mem.foodItems w' = Mem.foodItems w
    /\ Mem.themes w' = Mem.themes w
    /\ Mem.users w' = Mem.users w.
Proof.
  intros Hp Hb b'.
  destruct (updatePaymentStatus_mem w id p paymentId Hb)
    as (w' & Hrun & Hrows & Hrest).
  assert (Hpatch : PaymentStatus_eqb p PAID = false)
    by (destruct p; try reflexivity; contradiction).
  rewrite Hpatch in Hrun, Hrows.
  exists w'. split; [exact Hrun | ].
  split; [ | split; [ | exact Hrest]].
  - rewrite Hrows, lookup_updateRows by apply Booking_apply_id.
    rewrite String.eqb_refl, Hb. reflexivity.
  - intros k Hk.
    rewrite Hrows, lookup_updateRows by apply Booking_apply_id.
    destruct (String.eqb_spec k id); [contradiction | reflexivity].
Qed.

Lemma updatePaymentStatus_frame_witness :
  exists w',
    Bookings.updatePaymentStatus "b-1" PARTIAL (Some "pay_2")
      (Sample.bookedWorld COMPLETED PaymentPENDING)
    = (inl (Success
              (Booking.mk "b-1" "BK202611180042" "user-1" "hall-a"
                 1800037799999 FullDay 100 "Wedding" [Sample.paneer]
                 (Some Sample.royal) 53400 Sample.customer None COMPLETED
                 PARTIAL (Some "pay_2") 1795000000000)), w')
    /\ Mem.bookings w'
       = [Booking.mk "b-1" "BK202611180042" "user-1" "hall-a"
            1800037799999 FullDay 100 "Wedding" [Sample.paneer]
            (Some Sample.royal) 53400 Sample.customer None COMPLETED
            PARTIAL (Some "pay_2") 1795000000000].
Proof.
  destruct (updatePaymentStatus_frame
              (Sample.bookedWorld COMPLETED PaymentPENDING) "b-1"
              (p := PARTIAL) (Some "pay_2")
              (b := Sample.fullDayBooking COMPLETED PaymentPENDING)
              ltac:(discriminate) eq_refl)
    as (w' & Hrun & _).
  exists w'. split; [exact Hrun | ].
  cbv in Hrun. injection Hrun as <-. reflexivity.
Defined.

(** ** Toggles *)

Lemma toggleHallStatus_mem (w : Mem.World) (id : string) (h : Hall.t) :
  Mem.lookup Hall.id id (Mem.halls w) = Some h ->
  exists h' w',
    Halls.toggleHallStatus id w = (inl (Success h'), w')
    /\ Mem.lookup Hall.id id (Mem.halls w') = Some h'
    /\ Hall.isActive h' = negb (Hall.isActive h).
Proof.
  intros Hh. unfold Halls.toggleHallStatus. run_action. resume Hh.
  do 2 eexists. split; [reflexivity | ]. project. split; [ | reflexivity].
  rewrite lookup_updateRows by apply Hall_apply_id.
  now rewrite String.eqb_refl, Hh.
Qed.

Lemma toggleFoodItemAvailability_mem (w : Mem.World) (id : string)
    (f : FoodItem.t) :
  Mem.lookup FoodItem.id id (Mem.foodItems w) = Some f ->
  exists f' w',
    FoodItems.toggleFoodItemAvailability id w = (inl (Success f'), w')
    /\ Mem.lookup FoodItem.id id (Mem.foodItems w') = Some f'
    /\ FoodItem.isAvailable f' = negb (FoodItem.isAvailable f).
Proof.
  intros Hf. unfold FoodItems.toggleFoodItemAvailability. run_action.
  resume Hf.
  do 2 eexists. split; [reflexivity | ]. project. split; [ | reflexivity].
  rewrite lookup_updateRows by apply FoodItem_apply_id.
  now rewrite String.eqb_refl, Hf.
Qed.

Lemma toggleThemeAvailability_mem (w : Mem.World) (id : string)
    (x : Theme.t) :
  Mem.lookup Theme.id id (Mem.themes w) = Some x ->
  exists x' w',
    Themes.toggleThemeAvailability id w = (inl (Success x'), w')
    /\ Mem.lookup Theme.id id (Mem.themes w') = Some x'
    /\ Theme.isAvailable x' = negb (Theme.isAvailable x).
Proof.
  intros Hx. unfold Themes.toggleThemeAvailability. run_action. resume Hx.
  do 2 eexists. split; [reflexivity | ]. project. split; [ | reflexivity].
  rewrite lookup_updateRows by apply Theme_apply_id.
  now rewrite String.eqb_refl, Hx.
Qed.

(** C7.  On the reference store, for every hall, food item and theme that
    exists, applying its toggle twice in succession succeeds both times and
    leaves the stored row with its flag ([isActive], [isAvailable]) at the
    original value. *)
Theorem toggle_twice_restores_flag (w : Mem.World) (id : string) :
  (forall h, Mem.lookup Hall.id id (Mem.halls w) = Some h ->
     exists h1 w1 h2 w2,
       Halls.toggleHallStatus id w = (inl (Success h1), w1)
       /\ Halls.toggleHallStatus id w1 = (inl (Success h2), w2)
       /\ Mem.lookup Hall.id id (Mem.halls w2) = Some h2
       /\ Hall.isActive h2 = Hall.isActive h)
  /\ (forall f, Mem.lookup FoodItem.id id (Mem.foodItems w) = Some f ->
     exists f1 w1 f2 w2,
       FoodItems.toggleFoodItemAvailability id w = (inl (Success f1), w1)
       /\ FoodItems.toggleFoodItemAvailability id w1 = (inl (Success f2), w2)
       /\ Mem.lookup FoodItem.id id (Mem.foodItems w2) = Some f2
       /\ FoodItem.isAvailable f2 = FoodItem.isAvailable f)
  /\ (forall x, Mem.lookup Theme.id id (Mem.themes w) = Some x ->
     exists x1 w1 x2 w2,
       Themes.toggleThemeAvailability id w = (inl (Success x1), w1)
       /\ Themes.toggleThemeAvailability id w1 = (inl (Success x2), w2)
       /\ Mem.lookup Theme.id id (Mem.themes w2) = Some x2
       /\ Theme.isAvailable x2 = Theme.isAvailable x).
Proof.
  split; [ | split].
  - intros h Hh.
    destruct (toggleHallStatus_mem w id Hh) as (h1 & w1 & Hrun1 & Hh1 & Hflag1).
    destruct (toggleHallStatus_mem w1 id Hh1) as (h2 & w2 & Hrun2 & Hh2 & Hflag2).
    exists h1, w1, h2, w2. repeat split; try assumption.
    rewrite Hflag2, Hflag1. apply negb_involutive.
  - intros f Hf.
    destruct (toggleFoodItemAvailability_mem w id Hf)
      as (f1 & w1 & Hrun1 & Hf1 & Hflag1).
    destruct (toggleFoodItemAvailability_mem w1 id Hf1)
      as (f2 & w2 & Hrun2 & Hf2 & Hflag2).
    exists f1, w1, f2, w2. repeat split; try assumption.
    rewrite Hflag2, Hflag1. apply negb_involutive.
  - intros x Hx.
    destruct (toggleThemeAvailability_mem w id Hx)
      as (x1 & w1 & Hrun1 & Hx1 & Hflag1).
    destruct (toggleThemeAvailability_mem w1 id Hx1)
      as (x2 & w2 & Hrun2 & Hx2 & Hflag2).
    exists x1, w1, x2, w2. repeat split; try assumption.
    rewrite Hflag2, Hflag1. apply negb_involutive.
Qed.

Lemma toggle_twice_restores_flag_witness :
  (exists h1 w1 h2 w2,
     Halls.toggleHallStatus "hall-a" Sample.catalogWorld = (inl (Success h1), w1)
     /\ Halls.toggleHallStatus "hall-a" w1 = (inl (Success h2), w2)
     /\ Mem.lookup Hall.id "hall-a" (Mem.halls w2) = Some h2
     /\ Hall.isActive h2 = true)
  /\ (exists f1 w1 f2 w2,
     FoodItems.toggleFoodItemAvailability "food-1" Sample.catalogWorld
     = (inl (Success f1), w1)
     /\ FoodItems.toggleFoodItemAvailability "food-1" w1 = (inl (Success f2), w2)
     /\ Mem.lookup FoodItem.id "food-1" (Mem.foodItems w2) = Some f2
     /\ FoodItem.isAvailable f2 = true)
  /\ (exists x1 w1 x2 w2,
     Themes.toggleThemeAvailability "theme-1" Sample.catalogWorld
     = (inl (Success x1), w1)
     /\ Themes.toggleThemeAvailability "theme-1" w1 = (inl (Success x2), w2)
     /\ Mem.lookup Theme.id "theme-1" (Mem.themes w2) = Some x2
     /\ Theme.isAvailable x2 = false).
Proof.
  split; [ | split].
  - exact (proj1 (toggle_twice_restores_flag Sample.catalogWorld "hall-a")
             Sample.hallA eq_refl).
  - exact (proj1 (proj2 (toggle_twice_restores_flag Sample.catalogWorld "food-1"))
             Sample.food1 eq_refl).
  - exact (proj2 (proj2 (toggle_twice_restores_flag Sample.catalogWorld "theme-1"))
             Sample.theme1 eq_refl).
Defined.

(** ** Deleting a hall *)

(** The count of the active bookings of a hall is positive exactly when
    there is one. *)
Lemma count_positive {A} (p : A -> bool) (rows : list A) :
  (0 <? Z.of_nat (List.length (filter p rows))) = existsb p rows.
Proof.
  induction rows as [ | r rows IH]; cbn [filter existsb]; [reflexivity | ].
  destruct (p r); cbn [orb]; [ | exact IH].
  apply Z.ltb_lt. cbn [List.length]. lia.
Qed.

Lemma activeOnHall_matches (id : string) (b : Booking.t) :
  Booking.matches
    (Booking.mkWhere (Some id) None None None
       (Some (Booking.StatusIn activeStatuses)) None None) b
  = String.eqb (Booking.hallId b) id && isActiveBooking b.
Proof.
  unfold Booking.matches.
  cbn [Booking.w_hallId Booking.w_userId Booking.w_eventDate_gte
       Booking.w_eventDate_lte Booking.w_status Booking.w_paymentStatus
       Booking.w_OR holds Booking.statusMatches].
  rewrite activeStatuses_spec, !andb_true_r. reflexivity.
Qed.

(** C4.  On the reference store: when a booking of the hall is CONFIRMED or
    PENDING, [deleteHall] fails with the message about active bookings and
    changes nothing; when there is none and the hall exists, it succeeds
    and the hall is no longer in the table, the other halls and the
    bookings being untouched. *)
Theorem deleteHall_guard (w : Mem.World) (id : string) :
  ((exists b, In b (Mem.bookings w)
              /\ Booking.hallId b = id /\ isActiveBooking b = true) ->
   Halls.deleteHall id w
   = (inl (Failure
        "Cannot delete hall with active bookings. Mark as inactive instead."),
      w))
  /\ ((forall b, In b (Mem.bookings w) ->
                 Booking.hallId b = id -> isActiveBooking b = false) ->
      forall h, Mem.lookup Hall.id id (Mem.halls w) = Some h ->
      exists w',
        Halls.deleteHall id w
        = (inl (SuccessMessage "Hall deleted successfully"), w')
        /\ Mem.lookup Hall.id id (Mem.halls w') = None
        /\ (forall k, k <> id ->
              Mem.lookup Hall.id k (Mem.halls w')
              = Mem.lookup Hall.id k (Mem.halls w))
        /\ Mem.bookings w' = Mem.bookings w).
Proof.
  split.
  - intros (b & Hin & Hhall & Hactive).
    unfold Halls.deleteHall. run_action.
    rewrite count_positive.
    replace (existsb _ (Mem.bookings w)) with true; [reflexivity | ].
    symmetry. apply existsb_exists. exists b. split; [exact Hin | ].
    rewrite activeOnHall_matches, Hactive, andb_true_r.
    now apply String.eqb_eq.
  - intros Hnone h Hh.
    unfold Halls.deleteHall. run_action.
    rewrite count_positive.
    replace (existsb _ (Mem.bookings w)) with false.
    + resume Hh. eexists. split; [reflexivity | ]. project.
      split; [ | split; [ | reflexivity]].
      * now rewrite lookup_deleteRows, String.eqb_refl.
      * intros k Hk. rewrite lookup_deleteRows.
        destruct (String.eqb_spec k id); [contradiction | reflexivity].
    + symmetry. apply not_true_is_false. intros Hex.
      apply existsb_exists in Hex. destruct Hex as (b & Hin & Hm).
      rewrite activeOnHall_matches in Hm.
      apply andb_true_iff in Hm. destruct Hm as [Hid Hactive].
      apply String.eqb_eq in Hid.
      rewrite (Hnone b Hin Hid) in Hactive. discriminate.
Qed.

Lemma deleteHall_guard_witness :
  Halls.deleteHall "hall-a" (Sample.bookedWorld PENDING PaymentPENDING)
  = (inl (Failure
       "Cannot delete hall with active bookings. Mark as inactive instead."),
     Sample.bookedWorld PENDING PaymentPENDING)
  /\ exists w',
       Halls.deleteHall "hall-a" (Sample.bookedWorld CANCELLED PaymentPENDING)
       = (inl (SuccessMessage "Hall deleted successfully"), w')
       /\ Mem.lookup Hall.id "hall-a" (Mem.halls w') = None.
Proof.
  split.
  - apply (proj1 (deleteHall_guard
                    (Sample.bookedWorld PENDING PaymentPENDING) "hall-a")).
    exists (Sample.fullDayBooking PENDING PaymentPENDING).
    split; [left; reflexivity | split; reflexivity].
  - destruct (proj2 (deleteHall_guard
                       (Sample.bookedWorld CANCELLED PaymentPENDING) "hall-a"))
      with (h := Sample.hallA) as (w' & Hrun & Hgone & _).
    + intros b [<- | []] _. reflexivity.
    + reflexivity.
    + exists w'. split; assumption.
Defined.

(** ** Statistics *)

Lemma orZero_Some (v : Z) : orZero (Some v) = v.
Proof.
  unfold orZero. destruct (Z.eqb_spec v 0) as [-> | _]; reflexivity.
Qed.

Lemma sumTotalAmount_map (rows : list Booking.t) :
  Mem.sumTotalAmount rows = fold_right Z.add 0 (map Booking.totalAmount rows).
Proof.
  induction rows as [ | b rows IH]; cbn; [reflexivity | now rewrite <- IH].
Qed.

Lemma filter_anyRow (rows : list Booking.t) :
  filter (Booking.matches Booking.anyRow) rows = rows.
Proof.
  induction rows as [ | b rows IH]; cbn; [reflexivity | now rewrite IH].
Qed.

Lemma count_by_status (s : BookingStatus) (rows : list Booking.t) :
  Z.of_nat
    (List.length
       (filter
          (Booking.matches
             (Booking.mkWhere None None None None
                (Some (Booking.StatusIs s)) None None)) rows))
  = countStatus s rows.
Proof.
  unfold countStatus. do 2 f_equal. apply filter_ext. intros b.
  unfold Booking.matches. cbn. now rewrite !andb_true_r.
Qed.

Lemma sum_paid (rows : list Booking.t) :
  orZero
    (match filter
             (Booking.matches
                (Booking.mkWhere None None None None None (Some PAID) None))
             rows with
     | [] => None
     | (_ :: _) as paid => Some (Mem.sumTotalAmount paid)
     end)
  = paidRevenue rows.
Proof.
  unfold paidRevenue.
  rewrite (filter_ext _ isPaid).
  - destruct (filter isPaid rows) as [ | b paid] eqn:Hpaid; [reflexivity | ].
    now rewrite orZero_Some, sumTotalAmount_map.
  - intros b. unfold Booking.matches, isPaid. cbn. now rewrite !andb_true_r.
Qed.

(** C8.  On the reference store, [getBookingStats] returns the number of
    bookings, the numbers of CONFIRMED and of PENDING bookings, and the sum
    of [totalAmount] over the bookings whose payment status is PAID; that
    sum is 0 when no booking is PAID. *)
Theorem getBookingStats_aggregates (w : Mem.World) :
  Bookings.getBookingStats w
  = (inl (Success
            (Bookings.mkStats
               (Z.of_nat (List.length (Mem.bookings w)))
               (countStatus CONFIRMED (Mem.bookings w))
               (countStatus PENDING (Mem.bookings w))
               (paidRevenue (Mem.bookings w)))), w)
  /\ ((forall b, In b (Mem.bookings w) -> Booking.paymentStatus b <> PAID) ->
      paidRevenue (Mem.bookings w) = 0).
Proof.
  split.
  - unfold Bookings.getBookingStats, promiseAll4, settle, ofSettled.
    run_action.
    rewrite filter_anyRow, !count_by_status, sum_paid. reflexivity.
  - intros Hnone. unfold paidRevenue.
    replace (filter isPaid (Mem.bookings w)) with (@nil Booking.t);
      [reflexivity | ].
    symmetry. induction (Mem.bookings w) as [ | b rows IH]; [reflexivity | ].
    cbn [filter].
    assert (Hb : isPaid b = false).
    { unfold isPaid. pose proof (Hnone b (or_introl eq_refl)) as Hne.
      destruct (Booking.paymentStatus b); try reflexivity. contradiction. }
    rewrite Hb. apply IH. intros b' Hin. apply Hnone. now right.
Qed.

Lemma getBookingStats_aggregates_witness :
  Bookings.getBookingStats (Sample.bookedWorld CONFIRMED PARTIAL)
  = (inl (Success (Bookings.mkStats 1 1 0 0)),
     Sample.bookedWorld CONFIRMED PARTIAL)
  /\ paidRevenue (Mem.bookings (Sample.bookedWorld CONFIRMED PARTIAL)) = 0.
Proof.
  pose proof (getBookingStats_aggregates (Sample.bookedWorld CONFIRMED PARTIAL))
    as [Hrun Hzero].
  split.
  - exact Hrun.
  - apply Hzero. intros b [<- | []]. discriminate.
Defined.

(** ** Creating a booking *)

Section CreateBooking.
Context {rt : Runtime}.

(** Every run of [createBooking] on the reference store is one of the four
    cases of [CreateBookingOutcome]. *)
Lemma createBooking_outcome (w : Mem.World) (userId : string)
    (input : Booking.Input) :
  CreateBookingOutcome w userId input (Bookings.createBooking userId input w).
Proof.
  unfold Bookings.createBooking, Validations.parse.
  destruct (Validations.bookingSchema input) as [ | issue issues] eqn:Hvalid.
  - run_action.
    destruct (find (Booking.matches (fst (Bookings.availabilityQuery input)))
                   (Mem.bookings w)) as [b | ] eqn:Hfind.
    + unfold Bookings.availabilityQuery in Hfind |- *.
      cbn [fst] in Hfind. lazy beta iota zeta. rewrite Hfind.
      lazy beta iota zeta.
      apply Unavailable with (b := b); [exact Hvalid | exact Hfind].
    + unfold Bookings.availabilityQuery in Hfind |- *.
      cbn [fst] in Hfind. lazy beta iota zeta. rewrite Hfind.
      lazy beta iota zeta.
      cbn [Booking.i_hallId Booking.set_eventDate].
      destruct (Mem.lookup Hall.id (Booking.i_hallId input) (Mem.halls w))
        as [hall | ] eqn:Hhall.
      * unfold Bookings.generateBookingNumber. run_action.
        destruct (Mem.randoms w) as [ | r rest] eqn:Hrandoms;
          lazy beta iota zeta;
          apply Created with (hall := hall);
          solve [ assumption | reflexivity ].
      * now apply HallMissing.
  - run_action. apply Rejected; [exact Hvalid | discriminate].
Qed.

(** The availability query of [createBooking] selects the bookings that
    overlap the request. *)
Lemma createBooking_query_overlaps (input : Booking.Input) (b : Booking.t) :
  Booking.matches (fst (Bookings.availabilityQuery input)) b
  = overlaps (Booking.i_hallId input) (Booking.i_eventDate input)
             (Booking.i_timeSlot input) b.
Proof. rewrite createBooking_query. apply availabilityQuery_overlaps. Qed.

Lemma find_overlapping (input : Booking.Input) (rows : list Booking.t)
    (b : Booking.t) :
  In b rows ->
  overlaps (Booking.i_hallId input) (Booking.i_eventDate input)
           (Booking.i_timeSlot input) b = true ->
  find (Booking.matches (fst (Bookings.availabilityQuery input))) rows
  <> None.
Proof.
  intros Hin Hover Hnone.
  pose proof (find_none _ _ Hnone b Hin) as Hb.
  rewrite createBooking_query_overlaps in Hb. congruence.
Qed.

Lemma find_not_overlapping (input : Booking.Input) (rows : list Booking.t) :
  (forall b, In b rows ->
     overlaps (Booking.i_hallId input) (Booking.i_eventDate input)
              (Booking.i_timeSlot input) b = false) ->
  find (Booking.matches (fst (Bookings.availabilityQuery input))) rows = None.
Proof.
  intros Hfree.
  destruct (find _ rows) as [b | ] eqn:Hfind; [ | reflexivity].
  apply find_some in Hfind. destruct Hfind as [Hin Hb].
  rewrite createBooking_query_overlaps, (Hfree b Hin) in Hb. discriminate.
Qed.

(** C1, as amended.  On the reference store, for a request that passes the
    schema: if an active booking of the hall overlaps its date and slot,
    [createBooking] fails with the availability error and changes nothing;
    if none does and the hall exists, it succeeds and adds the returned
    booking to the table. *)
Theorem createBooking_availability (w : Mem.World) (userId : string)
    (input : Booking.Input) :
  Validations.bookingSchema input = [] ->
  ((exists b, In b (Mem.bookings w)
              /\ overlaps (Booking.i_hallId input) (Booking.i_eventDate input)
                          (Booking.i_timeSlot input) b = true) ->
   Bookings.createBooking userId input w
   = (inl (Failure "Hall is not available for selected date and time"), w))
  /\ ((forall b, In b (Mem.bookings w) ->
         overlaps (Booking.i_hallId input) (Booking.i_eventDate input)
                  (Booking.i_timeSlot input) b = false) ->
      forall hall,
        Mem.lookup Hall.id (Booking.i_hallId input) (Mem.halls w) = Some hall ->
        exists booking w',
          Bookings.createBooking userId input w = (inl (Success booking), w')
          /\ Mem.bookings w'
             = (Mem.bookings w ++ [Booking.row booking])%list).
Proof.
  intros Hvalid. split.
  - intros (b & Hin & Hover).
    pose proof (find_overlapping input _ b Hin Hover) as Hfound.
    destruct (createBooking_outcome w userId input); congruence.
  - intros Hfree hall Hhall.
    pose proof (find_not_overlapping input _ Hfree) as Hnone.
    destruct (createBooking_outcome w userId input)
      as [issues Hissues Hne | b _ Hfind | _ _ Hmissing
          | hall' booking w' _ _ _ Hrows];
      try congruence.
    exists booking, w'. split; [reflexivity | exact Hrows].
Qed.
End CreateBooking.

Lemma createBooking_availability_witness :
  Bookings.createBooking (rt := Sample.runtime) "user-1"
    (Sample.request Morning 100) (Sample.bookedWorld PENDING PaymentPENDING)
  = (inl (Failure "Hall is not available for selected date and time"),
     Sample.bookedWorld PENDING PaymentPENDING)
  /\ exists booking w',
       Bookings.createBooking (rt := Sample.runtime) "user-1"
         (Sample.request Morning 100) Sample.world
       = (inl (Success booking), w')
       /\ Mem.bookings w' = [Booking.row booking].
Proof.
  split.
  - apply (proj1 (createBooking_availability (rt := Sample.runtime)
                    (Sample.bookedWorld PENDING PaymentPENDING) "user-1"
                    (Sample.request Morning 100) eq_refl)).
    exists (Sample.fullDayBooking PENDING PaymentPENDING).
    split; [left; reflexivity | reflexivity].
  - apply (proj2 (createBooking_availability (rt := Sample.runtime)
                    Sample.world "user-1"
                    (Sample.request Morning 100) eq_refl))
      with (hall := Sample.hallA).
    + intros b [].
    + reflexivity.
Defined.

(** The scenario of the specification: a "Full Day" booking of Hall A on a
    date, then a "Morning" request for the same hall and date. *)
Example fullDay_then_morning :
  match Bookings.createBooking (rt := Sample.runtime) "user-1"
          (Sample.request FullDay 100) Sample.world with
  | (inl (Success _), w1) =>
      Bookings.createBooking (rt := Sample.runtime) "user-1"
        (Sample.request Morning 100) w1
      = (inl (Failure "Hall is not available for selected date and time"), w1)
  | _ => False
  end.
Proof. vm_compute. reflexivity. Qed.

(** C1, as stated, fails: a request for an existing hall that overlaps no
    booking, but with 5 guests, is rejected by the schema and does not
    succeed. *)
Lemma createBooking_invalid_request_counterexample :
  Mem.lookup Hall.id (Booking.i_hallId (Sample.request Morning 5))
             (Mem.halls Sample.world) = Some Sample.hallA
  /\ (forall b, In b (Mem.bookings Sample.world) ->
        overlaps (rt := Sample.runtime) "hall-a" Sample.dateD Morning b = false)
  /\ Bookings.createBooking (rt := Sample.runtime) "user-1"
       (Sample.request Morning 5) Sample.world
     = (inl (Failure
               (zodMessage (Runtime := Sample.runtime)
                  [mkIssue ["guestCount"] (Some "Minimum 10 guests")])),
        Sample.world)
  /\ ~ (exists booking w',
          Bookings.createBooking (rt := Sample.runtime) "user-1"
            (Sample.request Morning 5) Sample.world
          = (inl (Success booking), w')).
Proof.
  split; [reflexivity | ].
  split; [intros b [] | ].
  split; [reflexivity | ].
  intros (booking & w' & Hrun). discriminate Hrun.
Qed.

(** ** The total amount *)


(** On operands around the end of the exact range, [JS.add] and [JS.mul]
    give what the binary64 operations give: exact sums and products, ties
    to the even neighbour, the nearest neighbour otherwise. *)
Lemma roundToDouble_agrees_with_binary64 :
  forallb agreesWithBinary64
    [(50000, 400); (9007199254740991, 1); (9007199254740992, 1);
     (9007199254740992, 2); (9007199254740992, 3); (9007199254740994, 1);
     (9007199254740994, 3); (-9007199254740992, -1); (-9007199254740994, -3);
     (94906267, 94906267); (94906265, 94906267); (3037000499, 3037000499);
     (18014398509481984, 2); (18014398509481984, 6); (18014398509481988, 2);
     (-94906267, 94906267); (9007199254740992, -1)]
  = true.
Proof. vm_compute. reflexivity. Qed.





Section CreatedBooking.
Context {rt : Runtime}.


(** C9.  On the reference store, every successful [createBooking] stores
    the returned booking with an [eventDate] on the local calendar day of
    the requested date and at 23:59:59.999 of that day: the end of the day
    that the availability check left in the validated date. *)
Theorem createBooking_eventDate_endOfDay (w w' : Mem.World)
    (userId : string) (input : Booking.Input) (booking : Booking.Joined) :
  Bookings.createBooking userId input w = (inl (Success booking), w') ->
  Mem.bookings w' = (Mem.bookings w ++ [Booking.row booking])%list
  /\ Booking.eventDate (Booking.row booking)
     = JS.setHours tzOffset (Booking.i_eventDate input) 23 59 59 999
  /\ JS.Day (JS.LocalTime tzOffset (Booking.eventDate (Booking.row booking)))
     = JS.Day (JS.LocalTime tzOffset (Booking.i_eventDate input))
  /\ JS.TimeWithinDay
       (JS.LocalTime tzOffset (Booking.eventDate (Booking.row booking)))
     = JS.MakeTime 23 59 59 999.
Proof.
  intros Hrun.
  destruct (createBooking_outcome w userId input)
    as [ | | | hall booking' w'' _ _ _ Hrows _ _ _ _ Hdate _ _ _];
    try discriminate Hrun.
  injection Hrun as -> ->.
  rewrite setHours_after_setHours in Hdate by apply startOfDay_time.
  split; [exact Hrows | split; [exact Hdate | ]].
  rewrite Hdate. split.
  - apply Day_setHours, endOfDay_time.
  - apply TimeWithinDay_setHours, endOfDay_time.
Qed.
End CreatedBooking.



Lemma createBooking_eventDate_endOfDay_witness :
  exists booking w',
    Bookings.createBooking (rt := Sample.runtime) "user-1"
      (Sample.request Morning 100) Sample.world
    = (inl (Success booking), w')
    /\ Booking.eventDate (Booking.row booking) = 1800037799999
    /\ JS.TimeWithinDay
         (JS.LocalTime 19800000 (Booking.eventDate (Booking.row booking)))
       = 86399999.
Proof.
  destruct (Bookings.createBooking (rt := Sample.runtime) "user-1"
              (Sample.request Morning 100) Sample.world)
    as [[[booking | | | ] | ] w'] eqn:Hrun; try discriminate Hrun.
  exists booking, w'. split; [reflexivity | ].
  destruct (createBooking_eventDate_endOfDay (rt := Sample.runtime)
              Sample.world "user-1" (Sample.request Morning 100) Hrun)
    as (_ & Hdate & _ & Htime).
  split; [exact Hdate | exact Htime].
Defined.

(** ** The two availability checks *)

Section SameRule.
Context {rt : Runtime}.

(** C5.  The availability query of [createBooking] and the query of
    [checkHallAvailability] for the same hall, date and slot are the same
    [where] object: same bounds on the date, same status filter, same
    disjunction of slots.  Hence every store answers both alike, and on
    the reference store [createBooking]'s query finds a booking exactly
    when [checkHallAvailability] reports [isAvailable = false]. *)
Theorem availability_queries_agree (v : Booking.Input) :
  let hallId := Booking.i_hallId v in
  let eventDate := Booking.i_eventDate v in
  let timeSlot := timeSlotName (Booking.i_timeSlot v) in
  fst (Bookings.availabilityQuery v)
  = Halls.availabilityQuery hallId eventDate timeSlot
  /\ (forall (W : Type) (prisma : PrismaClient W) (w : W),
        booking_findFirst (fst (Bookings.availabilityQuery v)) w
        = booking_findFirst (Halls.availabilityQuery hallId eventDate timeSlot) w)
  /\ (forall (w : Mem.World),
        (exists b,
           booking_findFirst (fst (Bookings.availabilityQuery v)) w
           = (inl (Some b), w))
        <-> (exists message,
               Halls.checkHallAvailability hallId eventDate timeSlot w
               = (inl (SuccessAvailability false message), w))).
Proof.
  intros hallId eventDate timeSlot.
  pose proof (createBooking_query v) as Hquery.
  fold hallId eventDate timeSlot in Hquery.
  split; [exact Hquery | split].
  - intros W prisma w. now rewrite Hquery.
  - intros w. rewrite Hquery.
    unfold Halls.checkHallAvailability. run_action.
    destruct (find (Booking.matches
                      (Halls.availabilityQuery hallId eventDate timeSlot))
                   (Mem.bookings w)) as [b | ].
    + split; intros _; eexists; reflexivity.
    + split; intros (x & Hx); discriminate Hx.
Qed.
End SameRule.

(** ** The actions as boundaries *)

Section Boundary.
Context {W : Type}.

Lemma tryCatch_neverThrows {A} (body : M W A) (handler : JS.Thrown -> M W A) :
  (forall e, neverThrows (handler e)) -> neverThrows (tryCatch body handler).
Proof.
  intros Hhandler w. unfold tryCatch.
  destruct (body w) as [[a | e] w'].
  - now exists a, w'.
  - apply Hhandler.
Qed.

Lemma failWith_neverThrows {T} (msg : string) (e : JS.Thrown) :
  neverThrows (failWith (W := W) (T := T) msg e).
Proof. intros w. now exists (Failure msg), w. Qed.

Lemma failWithMessageOr_neverThrows {T} (msg : string) (e : JS.Thrown) :
  neverThrows (failWithMessageOr (W := W) (T := T) msg e).
Proof.
  intros w. destruct e as [m | ].
  - now exists (Failure m), w.
  - now exists (Failure msg), w.
Qed.

(** A computation followed by [return] of its value is the computation. *)
Lemma bind_ret {A} (m : M W A) (w : W) : bind m (fun a => ret a) w = m w.
Proof. unfold bind, ret. now destruct (m w) as [[a | e] w']. Qed.
End Boundary.

(** An action whose body is one [try] with a catch clause that returns. *)
Ltac boundary :=
  intros;
  apply tryCatch_neverThrows;
  intros;
  first [ apply failWith_neverThrows | apply failWithMessageOr_neverThrows ].

Section Envelopes.
Context {W : Type} {prisma : PrismaClient W} {host : Host W} {rt : Runtime}.

(** C6, as amended.  Every exported action of bookings.ts, halls.ts,
    food-items.ts and themes.ts, for every input and every behaviour of the
    store and of the host (their operations may throw), returns a result
    envelope and does not throw.  The two actions of test.ts are the store
    call itself: they return what it returns and throw what it throws. *)
Theorem actions_return_envelopes :
  ((forall userId input, neverThrows (Bookings.createBooking userId input))
   /\ (forall userId, neverThrows (Bookings.getMyBookings userId))
   /\ (forall id, neverThrows (Bookings.getBookingById id))
   /\ neverThrows Bookings.getAllBookings
   /\ (forall id status, neverThrows (Bookings.updateBookingStatus id status))
   /\ (forall id paymentStatus paymentId,
         neverThrows (Bookings.updatePaymentStatus id paymentStatus paymentId))
   /\ (forall id reason, neverThrows (Bookings.cancelBooking id reason))
   /\ neverThrows Bookings.getBookingStats)
  /\ (neverThrows Halls.getActiveHalls
      /\ (forall id, neverThrows (Halls.getHallById id))
      /\ neverThrows Halls.getAllHalls
      /\ (forall input, neverThrows (Halls.createHall input))
      /\ (forall id input, neverThrows (Halls.updateHall id input))
      /\ (forall id, neverThrows (Halls.deleteHall id))
      /\ (forall id, neverThrows (Halls.toggleHallStatus id))
      /\ (forall hallId eventDate timeSlot,
            neverThrows (Halls.checkHallAvailability hallId eventDate timeSlot)))
  /\ (neverThrows FoodItems.getAvailableFoodItems
      /\ neverThrows FoodItems.getAllFoodItems
      /\ (forall category, neverThrows (FoodItems.getFoodItemsByCategory category))
      /\ (forall input, neverThrows (FoodItems.createFoodItem input))
      /\ (forall id input, neverThrows (FoodItems.updateFoodItem id input))
      /\ (forall id, neverThrows (FoodItems.deleteFoodItem id))
      /\ (forall id, neverThrows (FoodItems.toggleFoodItemAvailability id)))
  /\ (neverThrows Themes.getAvailableThemes
      /\ neverThrows Themes.getAllThemes
      /\ (forall id, neverThrows (Themes.getThemeById id))
      /\ (forall input, neverThrows (Themes.createTheme input))
      /\ (forall id input, neverThrows (Themes.updateTheme id input))
      /\ (forall id, neverThrows (Themes.deleteTheme id))
      /\ (forall id, neverThrows (Themes.toggleThemeAvailability id)))
  /\ ((forall w,
         TestActions.createTestHall w
         = hall_create
             (Hall.mkInput "Grand Ballroom"
                (Some "Spacious hall for 500+ guests") 500 50000
                ["https://example.com/image1.jpg";
                 "https://example.com/image2.jpg"]
                ["AC"; "Parking"; "Stage"; "Sound System"] true) w)
      /\ (forall w,
            TestActions.getAllHalls w
            = hall_findMany (Hall.mkWhere (Some true))
                            [(Hall.c_createdAt, desc)] w)).
Proof.
  repeat split; try (boundary; fail); intros w; apply bind_ret.
Qed.
End Envelopes.

(** C6, as stated, fails: [createTestHall] is an exported action, and when
    the store cannot be reached it throws the store's error to its
    caller. *)
Lemma createTestHall_propagates_counterexample :
  TestActions.createTestHall (prisma := Offline.prisma) tt
  = (inr (JS.ThrownError "Can't reach database server"), tt)
  /\ ~ neverThrows (TestActions.createTestHall (prisma := Offline.prisma)).
Proof.
  split; [reflexivity | ].
  intros Hnever. destruct (Hnever tt) as (hall & w' & Hrun).
  discriminate Hrun.
Qed.

(* ================================================================== *)
(** * Further properties of the actions *)

(** ** Changing a booking *)

Lemma cancellationNote_text (reason : option string) :
  Bookings.cancellationNote reason = cancellationText reason.
Proof.
  destruct reason as [[ | c r] | ]; reflexivity.
Qed.

Lemma booking_update_runs (w : Mem.World) (id : string)
    (patch : Booking.Patch) (b : Booking.t) :
  Mem.lookup Booking.id id (Mem.bookings w) = Some b ->
  exists w',
    bind (booking_update id patch)
         (fun booking =>
            bind (revalidatePath "/admin/bookings")
                 (fun _ => bind (revalidatePath "/my-bookings")
                                (fun _ => ret (Success booking)))) w
    = (inl (Success (Booking.apply patch b)), w')
    /\ Mem.bookings w'
       = Mem.updateRows Booking.id id (Booking.apply patch) (Mem.bookings w)
    /\ Mem.halls w' = Mem.halls w
    /\ Mem.foodItems w' = Mem.foodItems w
    /\ Mem.themes w' = Mem.themes w
    /\ Mem.users w' = Mem.users w.
Proof.
  intros Hb. run_action. rewrite Hb.
  eexists. split; [reflexivity | ]. project. repeat split.
Qed.

Lemma booking_update_missing (w : Mem.World) (id : string)
    (patch : Booking.Patch) (msg : string)
    (k : Booking.t -> M Mem.World (Envelope Booking.t)) :
  Mem.lookup Booking.id id (Mem.bookings w) = None ->
  tryCatch (bind (booking_update id patch) k) (failWith msg) w
  = (inl (Failure msg), w).
Proof.
  intros Hb. run_action. now rewrite Hb.
Qed.

(** The rows of a table after an update of the row [id]. *)
Lemma lookup_after_update {A} (rowId : A -> string) (f : A -> A)
    (id : string) (rows : list A) (r : A) :
  (forall x, rowId (f x) = rowId x) ->
  Mem.lookup rowId id rows = Some r ->
  Mem.lookup rowId id (Mem.updateRows rowId id f rows) = Some (f r)
  /\ (forall k, k <> id ->
        Mem.lookup rowId k (Mem.updateRows rowId id f rows)
        = Mem.lookup rowId k rows).
Proof.
  intros Hid Hr. split.
  - rewrite lookup_updateRows by exact Hid.
    now rewrite String.eqb_refl, Hr.
  - intros k Hk. rewrite lookup_updateRows by exact Hid.
    destruct (String.eqb_spec k id); [contradiction | reflexivity].
Qed.

(** X1.  On the reference store, [cancelBooking] on an existing booking
    stores it with status CANCELLED and with [specialRequests] replaced by
    the reason followed by " (Cancellation reason)", or by "Cancelled by
    user" when no reason or an empty one is given; the payment status and
    every other field stay as they were, and so do the other bookings and
    tables. *)
Theorem cancelBooking_effect (w : Mem.World) (id : string)
    (reason : option string) (b : Booking.t) :
  Mem.lookup Booking.id id (Mem.bookings w) = Some b ->
  let b' :=
    Booking.mk (Booking.id b) (Booking.bookingNumber b) (Booking.userId b)
      (Booking.hallId b) (Booking.eventDate b) (Booking.timeSlot b)
      (Booking.guestCount b) (Booking.eventType b) (Booking.selectedFoods b)
      (Booking.selectedTheme b) (Booking.totalAmount b)
      (Booking.customerDetails b)
      (Some (cancellationText reason))
      CANCELLED
      (Booking.paymentStatus b) (Booking.paymentId b) (Booking.createdAt b) in
  exists w',
    Bookings.cancelBooking id reason w = (inl (Success b'), w')
    /\ Mem.lookup Booking.id id (Mem.bookings w') = Some b'
    /\ (forall k, k <> id ->
          Mem.lookup Booking.id k (Mem.bookings w')
          = Mem.lookup Booking.id k (Mem.bookings w))
    /\ Mem.halls w' = Mem.halls w
    /\ Mem.foodItems w' = Mem.foodItems w
    /\ Mem.themes w' = Mem.themes w
    /\ Mem.users w' = Mem.users w.
Proof.
  intros Hb b'.
  destruct (booking_update_runs w id
              (Booking.mkPatch (Some CANCELLED) None None
                 (Some (Bookings.cancellationNote reason))) Hb)
    as (w' & Hrun & Hrows & Hrest).
  exists w'. unfold Bookings.cancelBooking, tryCatch.
  rewrite Hrun, Hrows.
  destruct (lookup_after_update Booking.id
              (Booking.apply
                 (Booking.mkPatch (Some CANCELLED) None None
                    (Some (Bookings.cancellationNote reason))))
              id (Mem.bookings w) (Booking_apply_id _) Hb)
    as [Hsame Hother].
  unfold b'. rewrite <- cancellationNote_text.
  split; [reflexivity | split; [exact Hsame | split; [exact Hother | exact Hrest]]].
Qed.

Lemma cancelBooking_effect_witness :
  exists w',
    Bookings.cancelBooking "b-1" (Some "Venue changed")
      (Sample.bookedWorld CONFIRMED PAID)
    = (inl (Success
              (Booking.mk "b-1" "BK202611180042" "user-1" "hall-a"
                 1800037799999 FullDay 100 "Wedding" [Sample.paneer]
                 (Some Sample.royal) 53400 Sample.customer
                 (Some "Venue changed (Cancellation reason)") CANCELLED
                 PAID None 1795000000000)), w').
Proof.
  destruct (cancelBooking_effect (Sample.bookedWorld CONFIRMED PAID) "b-1"
              (Some "Venue changed")
              (b := Sample.fullDayBooking CONFIRMED PAID) eq_refl)
    as (w' & Hrun & _).
  exists w'. exact Hrun.
Defined.

(** X2.  On the reference store, [updateBookingStatus],
    [updatePaymentStatus] and [cancelBooking] on an id that names no booking
    return their own fixed failure message and change nothing. *)
Theorem booking_updates_missing_id (w : Mem.World) (id : string) :
  Mem.lookup Booking.id id (Mem.bookings w) = None ->
  (forall status,
     Bookings.updateBookingStatus id status w
     = (inl (Failure "Failed to update booking status"), w))
  /\ (forall paymentStatus paymentId,
        Bookings.updatePaymentStatus id paymentStatus paymentId w
        = (inl (Failure "Failed to update payment status"), w))
  /\ (forall reason,
        Bookings.cancelBooking id reason w
        = (inl (Failure "Failed to cancel booking"), w)).
Proof.
  intros Hb. repeat split; intros;
    [ unfold Bookings.updateBookingStatus
    | unfold Bookings.updatePaymentStatus
    | unfold Bookings.cancelBooking ];
    now apply booking_update_missing.
Qed.

Lemma booking_updates_missing_id_witness :
  Bookings.cancelBooking "b-404" None Sample.world
  = (inl (Failure "Failed to cancel booking"), Sample.world).
Proof.
  apply (booking_updates_missing_id Sample.world "b-404" eq_refl).
Defined.

(** X3.  On the reference store, [updateBookingStatus] on an existing
    booking stores it with the given status and nothing else changed: in
    particular the payment status is not touched, whatever the status. *)
Theorem updateBookingStatus_frame (w : Mem.World) (id : string)
    (status : BookingStatus) (b : Booking.t) :
  Mem.lookup Booking.id id (Mem.bookings w) = Some b ->
  let b' :=
    Booking.mk (Booking.id b) (Booking.bookingNumber b) (Booking.userId b)
      (Booking.hallId b) (Booking.eventDate b) (Booking.timeSlot b)
      (Booking.guestCount b) (Booking.eventType b) (Booking.selectedFoods b)
      (Booking.selectedTheme b) (Booking.totalAmount b)
      (Booking.customerDetails b) (Booking.specialRequests b)
      status
      (Booking.paymentStatus b) (Booking.paymentId b) (Booking.createdAt b) in
  exists w',
    Bookings.updateBookingStatus id status w = (inl (Success b'), w')
    /\ Mem.lookup Booking.id id (Mem.bookings w') = Some b'
    /\ (forall k, k <> id ->
          Mem.lookup Booking.id k (Mem.bookings w')
          = Mem.lookup Booking.id k (Mem.bookings w))
    /\ Mem.halls w' = Mem.halls w
    /\ Mem.foodItems w' = Mem.foodItems w
    /\ Mem.themes w' = Mem.themes w
    /\ Mem.users w' = Mem.users w.
Proof.
  intros Hb b'.
  destruct (booking_update_runs w id
              (Booking.mkPatch (Some status) None None None) Hb)
    as (w' & Hrun & Hrows & Hrest).
  exists w'. unfold Bookings.updateBookingStatus, tryCatch.
  rewrite Hrun, Hrows.
  destruct (lookup_after_update Booking.id
              (Booking.apply (Booking.mkPatch (Some status) None None None))
              id (Mem.bookings w) (Booking_apply_id _) Hb)
    as [Hsame Hother].
  split; [reflexivity | split; [exact Hsame | split; [exact Hother | exact Hrest]]].
Qed.

Lemma updateBookingStatus_frame_witness :
  exists w',
    Bookings.updateBookingStatus "b-1" COMPLETED
      (Sample.bookedWorld CONFIRMED PARTIAL)
    = (inl (Success (Sample.fullDayBooking COMPLETED PARTIAL)), w').
Proof.
  destruct (updateBookingStatus_frame (Sample.bookedWorld CONFIRMED PARTIAL)
              "b-1" COMPLETED
              (b := Sample.fullDayBooking CONFIRMED PARTIAL) eq_refl)
    as (w' & Hrun & _).
  exists w'. exact Hrun.
Defined.

(** ** Double booking *)

Lemma slotsOverlap_sym (a b : TimeSlot) : slotsOverlap a b = slotsOverlap b a.
Proof. now destruct a, b. Qed.

Lemma ForallOrdPairs_snoc {A} (R : A -> A -> Prop) (l : list A) (x : A) :
  ForallOrdPairs R l -> Forall (fun a => R a x) l ->
  ForallOrdPairs R (l ++ [x]).
Proof.
  intros Hl Hx. induction Hl as [ | a l Ha Hl IH]; cbn.
  - constructor; constructor.
  - inversion Hx as [ | a' l' Hax Hlx]; subst.
    constructor.
    + apply Forall_app. split; [exact Ha | now constructor].
    + now apply IH.
Qed.

Lemma ForallOrdPairs_In {A} (R : A -> A -> Prop) (l : list A) (a b : A) :
  ForallOrdPairs R l -> In a l -> In b l -> a <> b -> R a b \/ R b a.
Proof.
  intros Hl. induction Hl as [ | x l Hx Hl IH]; intros Ha Hb Hne.
  - destruct Ha.
  - rewrite Forall_forall in Hx.
    destruct Ha as [-> | Ha], Hb as [-> | Hb].
    + contradiction.
    + left. now apply Hx.
    + right. now apply Hx.
    + now apply IH.
Qed.

Section DoubleBooking.
Context {rt : Runtime}.

Lemma sameDate_sym (d1 d2 : Z) : sameDate d1 d2 = sameDate d2 d1.
Proof. unfold sameDate. apply Z.eqb_sym. Qed.

Lemma doubleBooked_sym (a b : Booking.t) : doubleBooked a b = doubleBooked b a.
Proof.
  unfold doubleBooked.
  rewrite (String.eqb_sym (Booking.hallId a)), (sameDate_sym (Booking.eventDate a)),
    (slotsOverlap_sym (Booking.timeSlot a)).
  now destruct (isActiveBooking a), (isActiveBooking b),
    (String.eqb (Booking.hallId b) (Booking.hallId a)).
Qed.

(** The end of the day of a date is on the day of the date. *)
Lemma sameDate_endOfDay (x d : Z) :
  sameDate x (JS.setHours tzOffset d 23 59 59 999) = sameDate x d.
Proof.
  unfold sameDate. now rewrite Day_setHours by apply endOfDay_time.
Qed.

(** A stored booking against a created one, in terms of the request. *)
Lemma doubleBooked_created (input : Booking.Input) (row a : Booking.t) :
  Booking.hallId row = Booking.i_hallId input ->
  Booking.timeSlot row = Booking.i_timeSlot input ->
  Booking.eventDate row
  = JS.setHours tzOffset
      (JS.setHours tzOffset (Booking.i_eventDate input) 0 0 0 0) 23 59 59 999 ->
  Booking.status row = PENDING ->
  doubleBooked a row
  = overlaps (Booking.i_hallId input) (Booking.i_eventDate input)
             (Booking.i_timeSlot input) a.
Proof.
  intros Hhall Hslot Hdate Hstatus.
  unfold doubleBooked, overlaps, isActiveBooking at 2.
  rewrite Hhall, Hslot, Hdate, Hstatus.
  rewrite setHours_after_setHours by apply startOfDay_time.
  rewrite sameDate_endOfDay, (slotsOverlap_sym (Booking.timeSlot a)).
  now rewrite andb_true_r.
Qed.

(** X4.  On the reference store, [createBooking] keeps the table free of
    double bookings: if no two stored bookings are active on the same hall
    and day in overlapping slots before the call, none are after it,
    whatever the call returns. *)
Theorem createBooking_keeps_noDoubleBooking (w w' : Mem.World)
    (userId : string) (input : Booking.Input)
    (r : Envelope Booking.Joined + JS.Thrown) :
  noDoubleBooking (Mem.bookings w) ->
  Bookings.createBooking userId input w = (r, w') ->
  noDoubleBooking (Mem.bookings w').
Proof.
  intros Hfree Hrun.
  destruct (createBooking_outcome w userId input)
    as [ | | | hall booking w'' _ Hfind _ Hrows _ _ Hhall Hslot Hdate _
               Hstatus _];
    try (injection Hrun as _ <-; exact Hfree).
  injection Hrun as _ <-. rewrite Hrows.
  apply ForallOrdPairs_snoc; [exact Hfree | ].
  apply Forall_forall. intros a Ha.
  rewrite (doubleBooked_created input _ a Hhall Hslot Hdate Hstatus).
  rewrite <- createBooking_query_overlaps.
  exact (find_none _ _ Hfind a Ha).
Qed.

Lemma In_updateRows_other {A} (rowId : A -> string) (f : A -> A)
    (id : string) (rows : list A) (x : A) :
  In x rows -> rowId x <> id -> In x (Mem.updateRows rowId id f rows).
Proof.
  intros Hin Hne. unfold Mem.updateRows.
  apply in_map_iff. exists x. split; [ | exact Hin].
  destruct (String.eqb_spec (rowId x) id); [contradiction | reflexivity].
Qed.

Lemma In_updateRows_same {A} (rowId : A -> string) (f : A -> A)
    (id : string) (rows : list A) (r : A) :
  Mem.lookup rowId id rows = Some r ->
  In (f r) (Mem.updateRows rowId id f rows).
Proof.
  intros Hr. unfold Mem.lookup in Hr. apply find_some in Hr.
  destruct Hr as [Hin Hid]. unfold Mem.updateRows.
  apply in_map_iff. exists r. now rewrite Hid.
Qed.

(** X5.  Neither [updateBookingStatus] nor [updatePaymentStatus] looks at
    availability.  On the reference store, when an active booking [other]
    of the same hall overlaps the day and slot of the booking [b], setting
    [b] to CONFIRMED or PENDING, or marking it PAID, succeeds and leaves the
    table double booked. *)
Theorem reactivation_skips_availability (w : Mem.World) (id : string)
    (b other : Booking.t) :
  Mem.lookup Booking.id id (Mem.bookings w) = Some b ->
  In other (Mem.bookings w) ->
  Booking.id other <> id ->
  isActiveBooking other = true ->
  Booking.hallId other = Booking.hallId b ->
  sameDate (Booking.eventDate other) (Booking.eventDate b) = true ->
  slotsOverlap (Booking.timeSlot other) (Booking.timeSlot b) = true ->
  (forall status, status = CONFIRMED \/ status = PENDING ->
     exists b' w',
       Bookings.updateBookingStatus id status w = (inl (Success b'), w')
       /\ ~ noDoubleBooking (Mem.bookings w'))
  /\ (forall paymentId,
        exists b' w',
          Bookings.updatePaymentStatus id PAID paymentId w
          = (inl (Success b'), w')
          /\ ~ noDoubleBooking (Mem.bookings w')).
Proof.
  intros Hb Hother Hne Hactive Hhall Hdate Hslot.
  assert (Hclash : forall patch w',
            isActiveBooking (Booking.apply patch b) = true ->
            Mem.bookings w'
            = Mem.updateRows Booking.id id (Booking.apply patch)
                (Mem.bookings w) ->
            ~ noDoubleBooking (Mem.bookings w')).
  { intros patch w' Hact Hrows Hfree. rewrite Hrows in Hfree.
    assert (Hpair : doubleBooked other (Booking.apply patch b) = true).
    { unfold doubleBooked.
      cbn [Booking.apply Booking.hallId Booking.eventDate Booking.timeSlot].
      rewrite Hhall, String.eqb_refl, Hactive, Hact, Hdate, Hslot.
      reflexivity. }
    destruct (ForallOrdPairs_In Hfree
                (In_updateRows_other Booking.id _ _ _ Hother Hne)
                (In_updateRows_same Booking.id _ _ _ Hb)) as [H | H].
    - intros Heq. apply Hne. rewrite Heq.
      apply (lookup_id Booking.id) in Hb. exact Hb.
    - congruence.
    - rewrite doubleBooked_sym in H. congruence. }
  split.
  - intros status Hstatus.
    destruct (booking_update_runs w id
                (Booking.mkPatch (Some status) None None None) Hb)
      as (w' & Hrun & Hrows & _).
    eexists. exists w'. unfold Bookings.updateBookingStatus, tryCatch.
    rewrite Hrun. split; [reflexivity | ].
    apply (Hclash (Booking.mkPatch (Some status) None None None) w');
      [ | exact Hrows].
    unfold isActiveBooking. cbn. now destruct Hstatus as [-> | ->].
  - intros paymentId.
    destruct (updatePaymentStatus_mem w id PAID paymentId Hb)
      as (w' & Hrun & Hrows & _).
    eexists. exists w'. split; [exact Hrun | ].
    apply (Hclash (Booking.mkPatch (Some CONFIRMED) (Some PAID) paymentId None)
             w'); [reflexivity | exact Hrows].
Qed.
End DoubleBooking.

Lemma createBooking_keeps_noDoubleBooking_witness :
  noDoubleBooking (rt := Sample.runtime)
    (Mem.bookings
       (snd (Bookings.createBooking (rt := Sample.runtime) "user-1"
               (Sample.request Evening 100)
               (Sample.bookedWorld CANCELLED PaymentPENDING)))).
Proof.
  apply (@createBooking_keeps_noDoubleBooking Sample.runtime
           (Sample.bookedWorld CANCELLED PaymentPENDING) _
           "user-1" (Sample.request Evening 100)
           (fst (Bookings.createBooking (rt := Sample.runtime) "user-1"
                   (Sample.request Evening 100)
                   (Sample.bookedWorld CANCELLED PaymentPENDING)))).
  - repeat constructor.
  - apply surjective_pairing.
Defined.

Lemma reactivation_skips_availability_witness :
  exists b' w',
    Bookings.updateBookingStatus "b-1" CONFIRMED
      (Mem.with_bookings
         [Sample.fullDayBooking CANCELLED PaymentPENDING;
          Booking.mk "b-2" "BK202611180043" "user-1" "hall-a" 1800037799999
            Morning 100 "Wedding" [Sample.paneer] None 50400 Sample.customer
            None PENDING PaymentPENDING None 1795000000001]
         Sample.world)
    = (inl (Success b'), w')
    /\ ~ noDoubleBooking (rt := Sample.runtime) (Mem.bookings w').
Proof.
  apply (proj1 (@reactivation_skips_availability Sample.runtime
                  (Mem.with_bookings
                     [Sample.fullDayBooking CANCELLED PaymentPENDING;
                      Booking.mk "b-2" "BK202611180043" "user-1" "hall-a"
                        1800037799999 Morning 100 "Wedding" [Sample.paneer]
                        None 50400 Sample.customer None PENDING
                        PaymentPENDING None 1795000000001]
                     Sample.world)
                  "b-1" (Sample.fullDayBooking CANCELLED PaymentPENDING)
                  (Booking.mk "b-2" "BK202611180043" "user-1" "hall-a"
                     1800037799999 Morning 100 "Wedding" [Sample.paneer]
                     None 50400 Sample.customer None PENDING
                     PaymentPENDING None 1795000000001)
                  eq_refl (or_intror (or_introl eq_refl))
                  ltac:(discriminate) eq_refl eq_refl eq_refl eq_refl)).
  now left.
Defined.

(** ** The life of a booking *)

Section Lifecycle.
Context {rt : Runtime}.

Lemma checkHallAvailability_mem (w : Mem.World) (hallId : string)
    (eventDate : Z) (timeSlot : string) :
  Halls.checkHallAvailability hallId eventDate timeSlot w
  = (inl (match find (Booking.matches
                        (Halls.availabilityQuery hallId eventDate timeSlot))
                     (Mem.bookings w) with
          | Some _ =>
              SuccessAvailability false
                "Hall is already booked for this date and time"
          | None => SuccessAvailability true "Hall is available"
          end), w).
Proof.
  unfold Halls.checkHallAvailability. run_action.
  now destruct (find _ (Mem.bookings w)).
Qed.

(** A successful [createBooking] on the reference store, in full. *)
Lemma createBooking_success (w w' : Mem.World) (userId : string)
    (input : Booking.Input) (booking : Booking.Joined) :
  Bookings.createBooking userId input w = (inl (Success booking), w') ->
  exists hall bookingNumber,
    Validations.bookingSchema input = []
    /\ Mem.lookup Hall.id (Booking.i_hallId input) (Mem.halls w) = Some hall
    /\ Booking.row booking
       = Booking.mk (Mem.freshId w) bookingNumber userId
           (Booking.i_hallId input)
           (JS.setHours tzOffset (Booking.i_eventDate input) 23 59 59 999)
           (Booking.i_timeSlot input) (Booking.i_guestCount input)
           (Booking.i_eventType input) (Booking.i_selectedFoods input)
           (Booking.i_selectedTheme input)
           (Bookings.calculateTotalAmount (Hall.basePrice hall)
              (Booking.i_selectedFoods input) (Booking.i_selectedTheme input))
           (Booking.i_customerDetails input)
           (Booking.i_specialRequests input)
           PENDING PaymentPENDING None (Mem.clock w)
    /\ Booking.hall booking = Some (Hall.select SelectAll hall)
    /\ Booking.user booking
       = option_map (User.select (SelectOnly ["id"; "name"; "email"]))
           (Mem.lookup User.id userId (Mem.users w))
    /\ Mem.bookings w' = (Mem.bookings w ++ [Booking.row booking])%list
    /\ Mem.halls w' = Mem.halls w
    /\ Mem.foodItems w' = Mem.foodItems w
    /\ Mem.themes w' = Mem.themes w
    /\ Mem.users w' = Mem.users w.
Proof.
  unfold Bookings.createBooking, Validations.parse.
  destruct (Validations.bookingSchema input) as [ | issue issues] eqn:Hvalid;
    run_action; [ | discriminate].
  unfold Bookings.availabilityQuery. lazy beta iota zeta.
  cbn [Booking.i_hallId Booking.i_eventDate Booking.i_timeSlot
       Booking.i_guestCount Booking.i_eventType Booking.i_selectedFoods
       Booking.i_selectedTheme Booking.i_customerDetails
       Booking.i_specialRequests Booking.set_eventDate].
  rewrite (setHours_after_setHours tzOffset _ 0 0 0 0 23 59 59 999
             startOfDay_time).
  destruct (find _ (Mem.bookings w)) as [b | ]; lazy beta iota zeta;
    [discriminate | ].
  destruct (Mem.lookup Hall.id (Booking.i_hallId input) (Mem.halls w))
    as [hall | ] eqn:Hhall; [ | discriminate].
  unfold Bookings.generateBookingNumber. run_action.
  destruct (Mem.randoms w) as [ | r rest] eqn:Hrandoms; lazy beta iota zeta;
    intros Hrun; injection Hrun as <- <-;
    exists hall; eexists; unfold Mem.join, Mem.newBooking; project;
    cbn [Booking.row Booking.hall Booking.user Booking.inc_hall
         Booking.inc_user Booking.hallId Booking.userId
         Booking.d_bookingNumber Booking.d_userId Booking.d_hallId
         Booking.d_eventDate Booking.d_timeSlot Booking.d_guestCount
         Booking.d_eventType Booking.d_selectedFoods Booking.d_selectedTheme
         Booking.d_totalAmount Booking.d_customerDetails
         Booking.d_specialRequests Booking.d_status Booking.d_paymentStatus
         Booking.i_hallId Booking.i_eventDate Booking.i_timeSlot
         Booking.i_guestCount Booking.i_eventType Booking.i_selectedFoods
         Booking.i_selectedTheme Booking.i_customerDetails
         Booking.i_specialRequests Booking.set_eventDate];
    rewrite Hhall; cbn [option_map]; repeat split; reflexivity.
Qed.

(** X6.  On the reference store, a booking just created blocks its slot:
    after a successful [createBooking], [checkHallAvailability] for the same
    hall and date reports the hall unavailable for every slot that overlaps
    the booked one, and a second [createBooking] with the same request is
    refused with the availability error. *)
Theorem created_booking_blocks_slot (w w' : Mem.World) (userId : string)
    (input : Booking.Input) (booking : Booking.Joined) :
  Bookings.createBooking userId input w = (inl (Success booking), w') ->
  (forall slot, slotsOverlap slot (Booking.i_timeSlot input) = true ->
     Halls.checkHallAvailability (Booking.i_hallId input)
       (Booking.i_eventDate input) (timeSlotName slot) w'
     = (inl (SuccessAvailability false
               "Hall is already booked for this date and time"), w'))
  /\ (forall userId',
        Bookings.createBooking userId' input w'
        = (inl (Failure "Hall is not available for selected date and time"),
           w')).
Proof.
  intros Hrun.
  destruct (createBooking_success w userId input Hrun)
    as (hall & bn & Hvalid & _ & Hrow & _ & _ & Hrows & _).
  assert (Hblocks : forall slot,
            slotsOverlap slot (Booking.i_timeSlot input) = true ->
            overlaps (Booking.i_hallId input) (Booking.i_eventDate input)
                     slot (Booking.row booking) = true).
  { intros slot Hslot. rewrite Hrow. unfold overlaps, isActiveBooking.
    cbn [Booking.hallId Booking.status Booking.eventDate Booking.timeSlot].
    rewrite String.eqb_refl, Hslot, sameDate_sym, sameDate_endOfDay.
    unfold sameDate. now rewrite Z.eqb_refl. }
  assert (Hin : In (Booking.row booking) (Mem.bookings w'))
    by (rewrite Hrows; apply in_or_app; right; now left).
  split.
  - intros slot Hslot. rewrite checkHallAvailability_mem.
    destruct (find _ (Mem.bookings w')) as [found | ] eqn:Hfind;
      [reflexivity | ].
    pose proof (find_none _ _ Hfind _ Hin) as Hnot.
    rewrite availabilityQuery_overlaps, (Hblocks slot Hslot) in Hnot.
    discriminate.
  - intros userId'.
    assert (Hself : slotsOverlap (Booking.i_timeSlot input)
                      (Booking.i_timeSlot input) = true)
      by now destruct (Booking.i_timeSlot input).
    pose proof (find_overlapping input _ _ Hin (Hblocks _ Hself)) as Hfound.
    destruct (createBooking_outcome w' userId' input); congruence.
Qed.

Lemma find_updateRows_none {A} (rowId : A -> string) (f : A -> A)
    (p : A -> bool) (id : string) (rows : list A) :
  (forall x, In x rows -> rowId x = id -> p (f x) = false) ->
  (forall x, In x rows -> rowId x <> id -> p x = false) ->
  find p (Mem.updateRows rowId id f rows) = None.
Proof.
  intros Hsame Hother.
  destruct (find p _) as [y | ] eqn:Hfind; [ | reflexivity].
  apply find_some in Hfind. destruct Hfind as [Hin Hp].
  unfold Mem.updateRows in Hin. apply in_map_iff in Hin.
  destruct Hin as (x & Hx & Hin).
  destruct (String.eqb_spec (rowId x) id) as [Hid | Hid]; subst y.
  - rewrite (Hsame x Hin Hid) in Hp. discriminate.
  - rewrite (Hother x Hin Hid) in Hp. discriminate.
Qed.

(** X7.  On the reference store, cancelling frees the slot: when the only
    active bookings that overlap a hall, date and slot carry the id [id],
    then after [cancelBooking id] succeeds [checkHallAvailability] reports
    the hall available for that date and slot. *)
Theorem cancelBooking_frees_slot (w : Mem.World) (id : string)
    (reason : option string) (b : Booking.t) (hallId : string)
    (eventDate : Z) (slot : TimeSlot) :
  Mem.lookup Booking.id id (Mem.bookings w) = Some b ->
  (forall x, In x (Mem.bookings w) ->
     overlaps hallId eventDate slot x = true -> Booking.id x = id) ->
  exists b' w',
    Bookings.cancelBooking id reason w = (inl (Success b'), w')
    /\ Halls.checkHallAvailability hallId eventDate (timeSlotName slot) w'
       = (inl (SuccessAvailability true "Hall is available"), w').
Proof.
  intros Hb Honly.
  destruct (booking_update_runs w id
              (Booking.mkPatch (Some CANCELLED) None None
                 (Some (Bookings.cancellationNote reason))) Hb)
    as (w' & Hrun & Hrows & _).
  eexists. exists w'. unfold Bookings.cancelBooking, tryCatch.
  rewrite Hrun. split; [reflexivity | ].
  rewrite checkHallAvailability_mem, Hrows.
  rewrite find_updateRows_none; [reflexivity | | ].
  - intros x _ _. rewrite availabilityQuery_overlaps.
    unfold overlaps, isActiveBooking. cbn.
    now rewrite andb_false_r.
  - intros x Hin Hne. rewrite availabilityQuery_overlaps.
    destruct (overlaps hallId eventDate slot x) eqn:Hover; [ | reflexivity].
    now apply Honly in Hover.
Qed.

(** X8.  On the reference store, the check and the creation agree on one
    state: for a request that passes the schema and names an existing hall,
    [createBooking] succeeds exactly when [checkHallAvailability], asked on
    the same state for the request's hall, date and slot, answers
    available. *)
Theorem check_then_create (w : Mem.World) (userId : string)
    (input : Booking.Input) (hall : Hall.t) :
  Validations.bookingSchema input = [] ->
  Mem.lookup Hall.id (Booking.i_hallId input) (Mem.halls w) = Some hall ->
  (exists booking w',
     Bookings.createBooking userId input w = (inl (Success booking), w'))
  <-> Halls.checkHallAvailability (Booking.i_hallId input)
        (Booking.i_eventDate input)
        (timeSlotName (Booking.i_timeSlot input)) w
      = (inl (SuccessAvailability true "Hall is available"), w).
Proof.
  intros Hvalid Hhall.
  rewrite checkHallAvailability_mem, <- createBooking_query.
  destruct (createBooking_outcome w userId input)
    as [issues Hissues Hne | b _ Hfind | _ _ Hmissing
        | hall' booking w' _ Hfind _ _];
    try congruence.
  - rewrite Hfind. split.
    + intros (booking & w' & Hrun). discriminate Hrun.
    + intros Hcheck. discriminate Hcheck.
  - rewrite Hfind. split; [reflexivity | ].
    intros _. now exists booking, w'.
Qed.

(** X9.  On the reference store, [createBooking] is all or nothing: when it
    returns a failure the store is unchanged; when it succeeds it has added
    exactly the returned booking, which is PENDING with payment PENDING and
    no payment id, carries the caller's user id and the request's fields,
    and no other table has changed. *)
Theorem createBooking_all_or_nothing (w w' : Mem.World) (userId : string)
    (input : Booking.Input) :
  (forall error,
     Bookings.createBooking userId input w = (inl (Failure error), w') ->
     w' = w)
  /\ (forall booking,
        Bookings.createBooking userId input w = (inl (Success booking), w') ->
        Mem.bookings w' = (Mem.bookings w ++ [Booking.row booking])%list
        /\ Booking.status (Booking.row booking) = PENDING
        /\ Booking.paymentStatus (Booking.row booking) = PaymentPENDING
        /\ Booking.paymentId (Booking.row booking) = None
        /\ Booking.userId (Booking.row booking) = userId
        /\ Booking.guestCount (Booking.row booking)
           = Booking.i_guestCount input
        /\ Booking.selectedFoods (Booking.row booking)
           = Booking.i_selectedFoods input
        /\ Booking.selectedTheme (Booking.row booking)
           = Booking.i_selectedTheme input
        /\ Booking.customerDetails (Booking.row booking)
           = Booking.i_customerDetails input
        /\ Booking.specialRequests (Booking.row booking)
           = Booking.i_specialRequests input
        /\ Mem.halls w' = Mem.halls w
        /\ Mem.foodItems w' = Mem.foodItems w
        /\ Mem.themes w' = Mem.themes w
        /\ Mem.users w' = Mem.users w).
Proof.
  split.
  - intros error Hrun.
    destruct (createBooking_outcome w userId input);
      try (now injection Hrun); discriminate Hrun.
  - intros booking Hrun.
    destruct (createBooking_success w userId input Hrun)
      as (hall & bn & _ & _ & Hrow & _ & _ & Hrows & Hhalls & Hfoods
          & Hthemes & Husers).
    rewrite Hrow at 2 3 4 5 6 7 8 9 10.
    repeat split; assumption.
Qed.
End Lifecycle.

Lemma created_booking_blocks_slot_witness :
  exists booking w',
    Bookings.createBooking (rt := Sample.runtime) "user-1"
      (Sample.request FullDay 100) Sample.world
    = (inl (Success booking), w')
    /\ Halls.checkHallAvailability (rt := Sample.runtime) "hall-a"
         Sample.dateD "Morning" w'
       = (inl (SuccessAvailability false
                 "Hall is already booked for this date and time"), w').
Proof.
  destruct (Bookings.createBooking (rt := Sample.runtime) "user-1"
              (Sample.request FullDay 100) Sample.world)
    as [[[booking | | | ] | ] w'] eqn:Hrun; try discriminate Hrun.
  exists booking, w'. split; [reflexivity | ].
  exact (proj1 (@created_booking_blocks_slot Sample.runtime Sample.world w'
                  "user-1" (Sample.request FullDay 100) booking Hrun)
           Morning eq_refl).
Defined.

Lemma cancelBooking_frees_slot_witness :
  exists b' w',
    Bookings.cancelBooking "b-1" None
      (Sample.bookedWorld PENDING PaymentPENDING)
    = (inl (Success b'), w')
    /\ Halls.checkHallAvailability (rt := Sample.runtime) "hall-a"
         Sample.dateD "Morning" w'
       = (inl (SuccessAvailability true "Hall is available"), w').
Proof.
  apply (@cancelBooking_frees_slot Sample.runtime
           (Sample.bookedWorld PENDING PaymentPENDING) "b-1" None
           (Sample.fullDayBooking PENDING PaymentPENDING)
           "hall-a" Sample.dateD Morning eq_refl).
  intros x [<- | []] _. reflexivity.
Defined.

Lemma check_then_create_witness :
  (exists booking w',
     Bookings.createBooking (rt := Sample.runtime) "user-1"
       (Sample.request Morning 100) Sample.world
     = (inl (Success booking), w'))
  <-> Halls.checkHallAvailability (rt := Sample.runtime) "hall-a"
        Sample.dateD "Morning" Sample.world
      = (inl (SuccessAvailability true "Hall is available"), Sample.world).
Proof.
  exact (@check_then_create Sample.runtime Sample.world "user-1"
           (Sample.request Morning 100) Sample.hallA eq_refl eq_refl).
Defined.

Lemma createBooking_all_or_nothing_witness :
  exists booking w',
    Bookings.createBooking (rt := Sample.runtime) "user-1"
      (Sample.request Morning 100) Sample.world
    = (inl (Success booking), w')
    /\ Mem.bookings w' = [Booking.row booking]
    /\ Booking.status (Booking.row booking) = PENDING
    /\ Booking.paymentId (Booking.row booking) = None.
Proof.
  destruct (Bookings.createBooking (rt := Sample.runtime) "user-1"
              (Sample.request Morning 100) Sample.world)
    as [[[booking | | | ] | ] w'] eqn:Hrun; try discriminate Hrun.
  exists booking, w'. split; [reflexivity | ].
  destruct (proj2 (@createBooking_all_or_nothing Sample.runtime Sample.world
                     w' "user-1" (Sample.request Morning 100)) booking Hrun)
    as (Hrows & Hstatus & _ & Hpayment & _).
  split; [exact Hrows | split; [exact Hstatus | exact Hpayment]].
Defined.

(** ** Reading a booking back *)

Section ReadBack.
Context {rt : Runtime}.

Lemma lookup_snoc_fresh {A} (rowId : A -> string) (rows : list A) (x : A) :
  Mem.lookup rowId (rowId x) rows = None ->
  Mem.lookup rowId (rowId x) (rows ++ [x]) = Some x.
Proof.
  unfold Mem.lookup. intros Hfresh.
  induction rows as [ | r rows IH]; cbn in *.
  - now rewrite String.eqb_refl.
  - destruct (String.eqb (rowId r) (rowId x)); [discriminate | now apply IH].
Qed.

(** X10.  On the reference store, a created booking can be read back: when
    the id the store draws is not yet used by a booking, [getBookingById]
    with the id of the booking returned by a successful [createBooking]
    returns the row that [createBooking] returned and the same whole row of
    its hall, with the name, email and phone of its user, where
    [createBooking] returned the user's id, name and email. *)
Theorem createBooking_then_getBookingById (w w' : Mem.World)
    (userId : string) (input : Booking.Input) (booking : Booking.Joined) :
  Mem.lookup Booking.id (Mem.freshId w) (Mem.bookings w) = None ->
  Bookings.createBooking userId input w = (inl (Success booking), w') ->
  exists found,
    Bookings.getBookingById (Booking.id (Booking.row booking)) w'
    = (inl (Success found), w')
    /\ Booking.row found = Booking.row booking
    /\ Booking.hall found = Booking.hall booking
    /\ Booking.user found
       = option_map (User.select (SelectOnly ["name"; "email"; "phone"]))
           (Mem.lookup User.id userId (Mem.users w))
    /\ Booking.user booking
       = option_map (User.select (SelectOnly ["id"; "name"; "email"]))
           (Mem.lookup User.id userId (Mem.users w)).
Proof.
  intros Hfresh Hrun.
  destruct (createBooking_success w userId input Hrun)
    as (hall & bn & _ & Hhall & Hrow & Hjoined & Huser & Hrows & Hhalls & _
        & _ & Husers).
  assert (Hid : Booking.id (Booking.row booking) = Mem.freshId w)
    by now rewrite Hrow.
  unfold Bookings.getBookingById. run_action.
  rewrite Hrows. rewrite <- Hid in Hfresh.
  rewrite (lookup_snoc_fresh Booking.id _ _ Hfresh).
  cbn [option_map]. eexists. split; [reflexivity | ].
  unfold Mem.join.
  cbn [Booking.row Booking.hall Booking.user Booking.inc_hall
       Booking.inc_user].
  rewrite Hhalls, Husers.
  split; [reflexivity | ].
  split; [ | split; [ | exact Huser]].
  - rewrite Hjoined, Hrow. cbn [Booking.hallId]. now rewrite Hhall.
  - rewrite Hrow. reflexivity.
Qed.

Lemma getBookingStats_mem (w : Mem.World) :
  Bookings.getBookingStats w
  = (inl (Success
            (Bookings.mkStats
               (Z.of_nat (List.length (Mem.bookings w)))
               (countStatus CONFIRMED (Mem.bookings w))
               (countStatus PENDING (Mem.bookings w))
               (paidRevenue (Mem.bookings w)))), w).
Proof.
  unfold Bookings.getBookingStats, promiseAll4, settle, ofSettled.
  run_action.
  now rewrite filter_anyRow, !count_by_status, sum_paid.
Qed.

(** X11.  On the reference store, a successful [createBooking] shows in the
    statistics as one more booking and one more PENDING booking; the number
    of CONFIRMED bookings and the revenue are as before. *)
Theorem createBooking_then_stats (w w' : Mem.World) (userId : string)
    (input : Booking.Input) (booking : Booking.Joined)
    (stats : Bookings.Stats) :
  Bookings.createBooking userId input w = (inl (Success booking), w') ->
  Bookings.getBookingStats w = (inl (Success stats), w) ->
  Bookings.getBookingStats w'
  = (inl (Success
            (Bookings.mkStats
               (Bookings.totalBookings stats + 1)
               (Bookings.confirmedBookings stats)
               (Bookings.pendingBookings stats + 1)
               (Bookings.totalRevenue stats))), w').
Proof.
  intros Hrun Hstats.
  destruct (createBooking_success w userId input Hrun)
    as (hall & bn & _ & _ & Hrow & _ & _ & Hrows & _).
  rewrite getBookingStats_mem in Hstats. injection Hstats as <-.
  rewrite getBookingStats_mem, Hrows.
  cbn [Bookings.totalBookings Bookings.confirmedBookings
       Bookings.pendingBookings Bookings.totalRevenue].
  unfold countStatus, paidRevenue, isPaid.
  rewrite !filter_app, !length_app, Hrow. cbn.
  rewrite !app_nil_r, !Nat.add_0_r.
  do 3 f_equal. f_equal; lia.
Qed.
End ReadBack.

Lemma createBooking_then_getBookingById_witness :
  exists booking w',
    Bookings.createBooking (rt := Sample.runtime) "user-1"
      (Sample.request Morning 100) Sample.world
    = (inl (Success booking), w')
    /\ exists found,
         Bookings.getBookingById "c1" w' = (inl (Success found), w')
         /\ Booking.row found = Booking.row booking
         /\ Booking.hall found = Booking.hall booking
         /\ Booking.user found
            = Some (User.mkView None (Some "Asha Rao")
                      (Some "asha@example.com") (Some "9876543210"))
         /\ Booking.user booking
            = Some (User.mkView (Some "user-1") (Some "Asha Rao")
                      (Some "asha@example.com") None).
Proof.
  destruct (Bookings.createBooking (rt := Sample.runtime) "user-1"
              (Sample.request Morning 100) Sample.world)
    as [[[booking | | | ] | ] w'] eqn:Hrun; try discriminate Hrun.
  exists booking, w'. split; [reflexivity | ].
  pose proof (@createBooking_then_getBookingById Sample.runtime Sample.world
                w' "user-1" (Sample.request Morning 100) booking eq_refl Hrun)
    as Hread.
  cbv in Hrun. injection Hrun as <- <-. exact Hread.
Defined.

Lemma createBooking_then_stats_witness :
  exists booking w',
    Bookings.createBooking (rt := Sample.runtime) "user-1"
      (Sample.request Evening 100) (Sample.bookedWorld CANCELLED PAID)
    = (inl (Success booking), w')
    /\ Bookings.getBookingStats w'
       = (inl (Success (Bookings.mkStats 2 0 1 53400)), w').
Proof.
  destruct (Bookings.createBooking (rt := Sample.runtime) "user-1"
              (Sample.request Evening 100) (Sample.bookedWorld CANCELLED PAID))
    as [[[booking | | | ] | ] w'] eqn:Hrun; try discriminate Hrun.
  exists booking, w'. split; [reflexivity | ].
  exact (@createBooking_then_stats Sample.runtime
           (Sample.bookedWorld CANCELLED PAID) w' "user-1"
           (Sample.request Evening 100) booking
           (Bookings.mkStats 1 0 0 53400) Hrun eq_refl).
Defined.

(** ** Listings *)

Section SortFacts.
Variables (A C : Type) (compareColumn : C -> A -> A -> comparison).

Lemma insertBy_Permutation (o : list (C * SortOrder)) (a : A) (rows : list A) :
  Permutation (Mem.insertBy compareColumn o a rows) (a :: rows).
Proof.
  induction rows as [ | b rows IH]; cbn; [reflexivity | ].
  destruct (Mem.compareBy compareColumn o a b); try reflexivity.
  rewrite IH. apply perm_swap.
Qed.

Lemma sortBy_Permutation (o : list (C * SortOrder)) (rows : list A) :
  Permutation (Mem.sortBy compareColumn o rows) rows.
Proof.
  induction rows as [ | a rows IH]; cbn; [reflexivity | ].
  rewrite insertBy_Permutation. now constructor.
Qed.

(** Sorting by one integer column, descending. *)
Variables (column : C) (key : A -> Z).
Hypothesis compareColumn_key :
  forall a b, compareColumn column a b = Z.compare (key a) (key b).

Lemma insertBy_newestFirst (a : A) (rows : list A) :
  newestFirst key rows ->
  newestFirst key (Mem.insertBy compareColumn [(column, desc)] a rows).
Proof.
  unfold newestFirst. intros Hsorted.
  induction Hsorted as [ | b rows Hrows IH Hb]; cbn.
  - repeat constructor.
  - rewrite compareColumn_key.
    destruct (Z.compare_spec (key b) (key a)) as [Heq | Hlt | Hgt].
    + constructor; [now constructor | ].
      constructor; [lia | ].
      eapply Forall_impl; [ | exact Hb]. cbn. intros c Hc. lia.
    + constructor; [now constructor | ].
      constructor; [lia | ].
      eapply Forall_impl; [ | exact Hb]. cbn. intros c Hc. lia.
    + constructor; [exact IH | ].
      eapply Permutation_Forall; [symmetry; apply insertBy_Permutation | ].
      constructor; [lia | exact Hb].
Qed.

Lemma sortBy_newestFirst (rows : list A) :
  newestFirst key (Mem.sortBy compareColumn [(column, desc)] rows).
Proof.
  induction rows as [ | a rows IH]; cbn.
  - constructor.
  - now apply insertBy_newestFirst.
Qed.
End SortFacts.

Lemma map_row_join (w : Mem.World) (inc : Booking.Include)
    (rows : list Booking.t) :
  map Booking.row (map (Mem.join w inc) rows) = rows.
Proof.
  induction rows as [ | b rows IH]; cbn; [reflexivity | now rewrite IH].
Qed.

(** X12.  On the reference store, [getMyBookings] returns exactly the
    bookings of the given user and [getAllBookings] every booking, each
    list with the latest created first. *)
Theorem booking_listings (w : Mem.World) :
  (forall userId,
     exists bookings,
       Bookings.getMyBookings userId w = (inl (Success bookings), w)
       /\ Permutation (map Booking.row bookings)
            (filter (fun b => String.eqb (Booking.userId b) userId)
                    (Mem.bookings w))
       /\ newestFirst Booking.createdAt (map Booking.row bookings))
  /\ (exists bookings,
        Bookings.getAllBookings w = (inl (Success bookings), w)
        /\ Permutation (map Booking.row bookings) (Mem.bookings w)
        /\ newestFirst Booking.createdAt (map Booking.row bookings)).
Proof.
  split.
  - intros userId. eexists. split; [reflexivity | ].
    rewrite map_row_join. split.
    + rewrite sortBy_Permutation.
      erewrite filter_ext; [reflexivity | ].
      intros b. unfold Booking.matches. cbn. now rewrite !andb_true_r.
    + now apply sortBy_newestFirst.
  - eexists. split; [reflexivity | ].
    rewrite map_row_join. split.
    + now rewrite sortBy_Permutation, filter_anyRow.
    + now apply sortBy_newestFirst.
Qed.

Lemma filter_all {A} (p : A -> bool) (rows : list A) :
  (forall x, p x = true) -> filter p rows = rows.
Proof.
  intros Hp. induction rows as [ | a rows IH]; cbn; [reflexivity | ].
  now rewrite Hp, IH.
Qed.

(** X13.  On the reference store, [getActiveHalls] returns exactly the
    halls whose [isActive] flag is set and [getAllHalls] of halls.ts every
    hall, each list with the latest created first; [getAllHalls] of test.ts
    returns the list of [getActiveHalls], inactive halls left out. *)
Theorem hall_listings (w : Mem.World) :
  (exists halls,
     Halls.getActiveHalls w = (inl (Success halls), w)
     /\ TestActions.getAllHalls w = (inl halls, w)
     /\ Permutation halls (filter Hall.isActive (Mem.halls w))
     /\ newestFirst Hall.createdAt halls)
  /\ (exists halls,
        Halls.getAllHalls w = (inl (Success halls), w)
        /\ Permutation halls (Mem.halls w)
        /\ newestFirst Hall.createdAt halls).
Proof.
  split.
  - eexists. split; [reflexivity | split; [reflexivity | split]].
    + rewrite sortBy_Permutation.
      erewrite filter_ext; [reflexivity | ].
      intros h. unfold Hall.matches. cbn. now destruct (Hall.isActive h).
    + now apply sortBy_newestFirst.
  - eexists. split; [reflexivity | split].
    + now rewrite sortBy_Permutation, filter_all.
    + now apply sortBy_newestFirst.
Qed.

(** X14.  On the reference store, the catalogue listings for customers
    return exactly the available rows: [getAvailableFoodItems] and
    [getAvailableThemes] the rows whose [isAvailable] flag is set,
    [getFoodItemsByCategory] the available food items of the category so
    named, which is the empty list for a string that names no category;
    [getAllFoodItems] and [getAllThemes] return every row. *)
Theorem catalogue_listings (w : Mem.World) :
  (exists items,
     FoodItems.getAvailableFoodItems w = (inl (Success items), w)
     /\ Permutation items (filter FoodItem.isAvailable (Mem.foodItems w)))
  /\ (exists items,
        FoodItems.getAllFoodItems w = (inl (Success items), w)
        /\ Permutation items (Mem.foodItems w))
  /\ (forall category,
        exists items,
          FoodItems.getFoodItemsByCategory category w
          = (inl (Success items), w)
          /\ Permutation items
               (filter (fun f =>
                          String.eqb (categoryName (FoodItem.category f))
                                     category
                          && FoodItem.isAvailable f)
                       (Mem.foodItems w))
          /\ ((forall c, categoryName c <> category) -> items = []))
  /\ (exists themes,
        Themes.getAvailableThemes w = (inl (Success themes), w)
        /\ Permutation themes (filter Theme.isAvailable (Mem.themes w)))
  /\ (exists themes,
        Themes.getAllThemes w = (inl (Success themes), w)
        /\ Permutation themes (Mem.themes w)).
Proof.
  repeat split.
  - eexists. split; [reflexivity | ].
    rewrite sortBy_Permutation. erewrite filter_ext; [reflexivity | ].
    intros f. unfold FoodItem.matches. cbn.
    now destruct (FoodItem.isAvailable f).
  - eexists. split; [reflexivity | ].
    now rewrite sortBy_Permutation, filter_all.
  - intros category. eexists. split; [reflexivity | ].
    assert (Hfilter :
              filter (FoodItem.matches
                        (FoodItem.mkWhere (Some category) (Some true)))
                     (Mem.foodItems w)
              = filter (fun f =>
                          String.eqb (categoryName (FoodItem.category f))
                                     category
                          && FoodItem.isAvailable f)
                       (Mem.foodItems w)).
    { apply filter_ext. intros f. unfold FoodItem.matches. cbn.
      now destruct (FoodItem.isAvailable f). }
    split.
    + now rewrite sortBy_Permutation, Hfilter.
    + intros Hnone. rewrite Hfilter.
      replace (filter _ (Mem.foodItems w)) with (@nil FoodItem.t);
        [reflexivity | ].
      symmetry. clear Hfilter.
      induction (Mem.foodItems w) as [ | f rows IH]; [reflexivity | ].
      cbn [filter].
      destruct (String.eqb_spec (categoryName (FoodItem.category f)) category)
        as [Heq | _]; [now apply Hnone in Heq | exact IH].
  - eexists. split; [reflexivity | ].
    rewrite sortBy_Permutation. erewrite filter_ext; [reflexivity | ].
    intros x. unfold Theme.matches. cbn. now destruct (Theme.isAvailable x).
  - eexists. split; [reflexivity | ].
    now rewrite sortBy_Permutation, filter_all.
Qed.

Lemma catalogue_listings_witness :
  exists items,
    FoodItems.getFoodItemsByCategory "Snack" Sample.catalogWorld
    = (inl (Success items), Sample.catalogWorld)
    /\ items = [].
Proof.
  destruct (proj1 (proj2 (proj2 (catalogue_listings Sample.catalogWorld)))
              "Snack")
    as (items & Hrun & _ & Hempty).
  exists items. split; [exact Hrun | ].
  apply Hempty. intros c. destruct c; discriminate.
Defined.

(** ** Validation *)

Section Validation.
Context {W : Type} {prisma : PrismaClient W} {host : Host W} {rt : Runtime}.

Lemma parse_rejects {A B} (schema : A -> list ZodIssue) (input : A)
    (k : A -> M W (Envelope B)) (msg : string) (w : W) :
  schema input <> [] ->
  tryCatch (bind (Validations.parse schema input) k) (failWithMessageOr msg) w
  = (inl (Failure (zodMessage (schema input))), w).
Proof.
  intros Hissues. unfold Validations.parse, tryCatch, bind.
  destruct (schema input) as [ | issue issues]; [contradiction | reflexivity].
Qed.

(** X15.  Whatever the store and the host do, an input that the schema
    rejects never reaches them: [createBooking], [createHall],
    [updateHall], [createFoodItem], [updateFoodItem], [createTheme] and
    [updateTheme] return a failure carrying the message of the validation
    error and leave the world as it was. *)
Theorem invalid_input_never_reaches_store (w : W) :
  (forall userId input,
     Validations.bookingSchema input <> [] ->
     Bookings.createBooking userId input w
     = (inl (Failure (zodMessage (Validations.bookingSchema input))), w))
  /\ (forall input,
        Validations.hallSchema input <> [] ->
        Halls.createHall input w
        = (inl (Failure (zodMessage (Validations.hallSchema input))), w))
  /\ (forall id input,
        Validations.hallSchema_partial input <> [] ->
        Halls.updateHall id input w
        = (inl (Failure (zodMessage (Validations.hallSchema_partial input))),
           w))
  /\ (forall input,
        Validations.foodItemSchema input <> [] ->
        FoodItems.createFoodItem input w
        = (inl (Failure (zodMessage (Validations.foodItemSchema input))), w))
  /\ (forall id input,
        Validations.foodItemSchema_partial input <> [] ->
        FoodItems.updateFoodItem id input w
        = (inl (Failure
                  (zodMessage (Validations.foodItemSchema_partial input))),
           w))
  /\ (forall input,
        Validations.themeSchema input <> [] ->
        Themes.createTheme input w
        = (inl (Failure (zodMessage (Validations.themeSchema input))), w))
  /\ (forall id input,
        Validations.themeSchema_partial input <> [] ->
        Themes.updateTheme id input w
        = (inl (Failure (zodMessage (Validations.themeSchema_partial input))),
           w)).
Proof.
  repeat split; intros; now apply parse_rejects.
Qed.

(** X16.  Whatever the store does, [createFoodItem] with a price below 1
    (such as 0) fails on validation: the issues include "Price must be
    positive" at [price], nothing is stored and the world is unchanged. *)
Theorem createFoodItem_rejects_nonpositive_price (w : W)
    (input : FoodItem.Input) :
  FoodItem.i_price input < 1 ->
  In (mkIssue ["price"] (Some "Price must be positive"))
     (Validations.foodItemSchema input)
  /\ FoodItems.createFoodItem input w
     = (inl (Failure (zodMessage (Validations.foodItemSchema input))), w).
Proof.
  intros Hprice.
  assert (Hin : In (mkIssue ["price"] (Some "Price must be positive"))
                   (Validations.foodItemSchema input)).
  { unfold Validations.foodItemSchema.
    apply in_or_app. right. apply in_or_app. left.
    unfold Validations.check.
    destruct (Z.leb_spec 1 (FoodItem.i_price input)); [lia | now left]. }
  split; [exact Hin | ].
  apply parse_rejects. intros Hnil. rewrite Hnil in Hin. destruct Hin.
Qed.

(** X17.  The actions that parse their input pass the message of a store
    error on to the caller.  Whatever the store, when the input passes the
    schema and the store's [create] or [update] throws an [Error],
    [createHall], [updateHall], [createFoodItem], [updateFoodItem],
    [createTheme] and [updateTheme] return a failure whose error is that
    error's message; a thrown value that is no [Error] gives the fixed
    message of the action. *)
Theorem store_error_message_passed_on (w w' : W) (thrown : JS.Thrown) :
  let reported (fallback : string) : string :=
    match thrown with
    | JS.ThrownError message => message
    | JS.ThrownOther => fallback
    end in
  (forall input,
     Validations.hallSchema input = [] ->
     hall_create input w = (inr thrown, w') ->
     Halls.createHall input w
     = (inl (Failure (reported "Failed to create hall")), w'))
  /\ (forall id input,
        Validations.hallSchema_partial input = [] ->
        hall_update id input w = (inr thrown, w') ->
        Halls.updateHall id input w
        = (inl (Failure (reported "Failed to update hall")), w'))
  /\ (forall input,
        Validations.foodItemSchema input = [] ->
        foodItem_create input w = (inr thrown, w') ->
        FoodItems.createFoodItem input w
        = (inl (Failure (reported "Failed to create food item")), w'))
  /\ (forall id input,
        Validations.foodItemSchema_partial input = [] ->
        foodItem_update id input w = (inr thrown, w') ->
        FoodItems.updateFoodItem id input w
        = (inl (Failure (reported "Failed to update food item")), w'))
  /\ (forall input,
        Validations.themeSchema input = [] ->
        theme_create input w = (inr thrown, w') ->
        Themes.createTheme input w
        = (inl (Failure (reported "Failed to create theme")), w'))
  /\ (forall id input,
        Validations.themeSchema_partial input = [] ->
        theme_update id input w = (inr thrown, w') ->
        Themes.updateTheme id input w
        = (inl (Failure (reported "Failed to update theme")), w')).
Proof.
  intros reported.
  repeat split; intros;
    match goal with
    | Hvalid : _ = [], Hthrow : _ = (inr thrown, w') |- ?action = _ =>
        let head := eval cbv delta
          [Halls.createHall Halls.updateHall FoodItems.createFoodItem
           FoodItems.updateFoodItem Themes.createTheme Themes.updateTheme]
          in action in
        change action with head;
        unfold Validations.parse, tryCatch, bind, failWithMessageOr, ret;
        rewrite Hvalid, Hthrow
    end;
    now destruct thrown.
Qed.
End Validation.

Lemma invalid_input_never_reaches_store_witness :
  Bookings.createBooking (prisma := Offline.prisma) (host := Offline.host)
    (rt := Sample.runtime) "user-1" (Sample.request Morning 5000) tt
  = (inl (Failure "Invalid input"), tt).
Proof.
  apply (proj1 (@invalid_input_never_reaches_store unit Offline.prisma
                  Offline.host Sample.runtime tt)).
  discriminate.
Defined.

Lemma createFoodItem_rejects_nonpositive_price_witness :
  FoodItems.createFoodItem (prisma := Offline.prisma) (host := Offline.host)
    (rt := Sample.runtime)
    (FoodItem.mkInput "Paneer" MainCourse 0 true None None true) tt
  = (inl (Failure "Price must be positive"), tt).
Proof.
  apply (@createFoodItem_rejects_nonpositive_price unit Offline.prisma
           Offline.host Sample.runtime tt
           (FoodItem.mkInput "Paneer" MainCourse 0 true None None true)).
  reflexivity.
Defined.

Lemma store_error_message_passed_on_witness :
  Halls.createHall (prisma := Offline.prisma) (host := Offline.host)
    (rt := Sample.runtime)
    (Hall.mkInput "Hall B" None 200 20000 ["https://example.com/b.jpg"] []
                  true) tt
  = (inl (Failure "Can't reach database server"), tt).
Proof.
  apply (proj1 (@store_error_message_passed_on unit Offline.prisma
                  Offline.host Sample.runtime tt tt Offline.unreachable)).
  - reflexivity.
  - reflexivity.
Defined.

(** ** The catalogue and the bookings *)

(** Follows an action on the reference store through each of its cases. *)
Ltac follow :=
  repeat (lazy beta iota zeta;
          match goal with
          | |- context [match ?x with _ => _ end] =>
              lazymatch x with
              | context [match _ with _ => _ end] => fail
              | _ => destruct x eqn:?
              end
          end);
  lazy beta iota zeta.

(** X19.  On the reference store, no action on the catalogue touches the
    bookings: whatever [createHall], [updateHall], [toggleHallStatus],
    [createFoodItem], [updateFoodItem], [deleteFoodItem],
    [toggleFoodItemAvailability], [createTheme], [updateTheme],
    [deleteTheme] and [toggleThemeAvailability] return, the table of
    bookings, with the prices and totals stored in it, is the same after
    the call. *)
Theorem catalogue_actions_keep_bookings {rt : Runtime} (w : Mem.World) :
  (forall input,
     Mem.bookings (snd (Halls.createHall input w)) = Mem.bookings w)
  /\ (forall id input,
        Mem.bookings (snd (Halls.updateHall id input w)) = Mem.bookings w)
  /\ (forall id,
        Mem.bookings (snd (Halls.toggleHallStatus id w)) = Mem.bookings w)
  /\ (forall input,
        Mem.bookings (snd (FoodItems.createFoodItem input w))
        = Mem.bookings w)
  /\ (forall id input,
        Mem.bookings (snd (FoodItems.updateFoodItem id input w))
        = Mem.bookings w)
  /\ (forall id,
        Mem.bookings (snd (FoodItems.deleteFoodItem id w)) = Mem.bookings w)
  /\ (forall id,
        Mem.bookings (snd (FoodItems.toggleFoodItemAvailability id w))
        = Mem.bookings w)
  /\ (forall input,
        Mem.bookings (snd (Themes.createTheme input w)) = Mem.bookings w)
  /\ (forall id input,
        Mem.bookings (snd (Themes.updateTheme id input w)) = Mem.bookings w)
  /\ (forall id,
        Mem.bookings (snd (Themes.deleteTheme id w)) = Mem.bookings w)
  /\ (forall id,
        Mem.bookings (snd (Themes.toggleThemeAvailability id w))
        = Mem.bookings w).
Proof.
  repeat split; intros;
    unfold Halls.createHall, Halls.updateHall, Halls.toggleHallStatus,
      FoodItems.createFoodItem, FoodItems.updateFoodItem,
      FoodItems.deleteFoodItem, FoodItems.toggleFoodItemAvailability,
      Themes.createTheme, Themes.updateTheme, Themes.deleteTheme,
      Themes.toggleThemeAvailability, Validations.parse, throw;
    run_action; follow; reflexivity.
Qed.

(** X20.  On the reference store, [deleteFoodItem] and [deleteTheme] have
    no guard: on an existing row they succeed, the row is no longer in the
    table, the other rows and the bookings (with their snapshots of foods
    and theme) are untouched; on an id that names no row they fail with
    their fixed message and change nothing. *)
Theorem delete_catalogue_row (w : Mem.World) (id : string) :
  (forall f, Mem.lookup FoodItem.id id (Mem.foodItems w) = Some f ->
     exists w',
       FoodItems.deleteFoodItem id w
       = (inl (SuccessMessage "Food item deleted successfully"), w')
       /\ Mem.lookup FoodItem.id id (Mem.foodItems w') = None
       /\ (forall k, k <> id ->
             Mem.lookup FoodItem.id k (Mem.foodItems w')
             = Mem.lookup FoodItem.id k (Mem.foodItems w))
       /\ Mem.bookings w' = Mem.bookings w)
  /\ (forall x, Mem.lookup Theme.id id (Mem.themes w) = Some x ->
        exists w',
          Themes.deleteTheme id w
          = (inl (SuccessMessage "Theme deleted successfully"), w')
          /\ Mem.lookup Theme.id id (Mem.themes w') = None
          /\ (forall k, k <> id ->
                Mem.lookup Theme.id k (Mem.themes w')
                = Mem.lookup Theme.id k (Mem.themes w))
          /\ Mem.bookings w' = Mem.bookings w)
  /\ (Mem.lookup FoodItem.id id (Mem.foodItems w) = None ->
      FoodItems.deleteFoodItem id w
      = (inl (Failure "Failed to delete food item"), w))
  /\ (Mem.lookup Theme.id id (Mem.themes w) = None ->
      Themes.deleteTheme id w = (inl (Failure "Failed to delete theme"), w)).
Proof.
  repeat split.
  - intros f Hf. unfold FoodItems.deleteFoodItem. run_action. resume Hf.
    eexists. split; [reflexivity | ]. project.
    split; [ | split; [ | reflexivity]].
    + now rewrite lookup_deleteRows, String.eqb_refl.
    + intros k Hk. rewrite lookup_deleteRows.
      destruct (String.eqb_spec k id); [contradiction | reflexivity].
  - intros x Hx. unfold Themes.deleteTheme. run_action. resume Hx.
    eexists. split; [reflexivity | ]. project.
    split; [ | split; [ | reflexivity]].
    + now rewrite lookup_deleteRows, String.eqb_refl.
    + intros k Hk. rewrite lookup_deleteRows.
      destruct (String.eqb_spec k id); [contradiction | reflexivity].
  - intros Hf. unfold FoodItems.deleteFoodItem. run_action. now resume Hf.
  - intros Hx. unfold Themes.deleteTheme. run_action. now resume Hx.
Qed.

Lemma delete_catalogue_row_witness :
  (exists w',
     FoodItems.deleteFoodItem "food-1" Sample.catalogWorld
     = (inl (SuccessMessage "Food item deleted successfully"), w')
     /\ Mem.lookup FoodItem.id "food-1" (Mem.foodItems w') = None)
  /\ Themes.deleteTheme "theme-9" Sample.catalogWorld
     = (inl (Failure "Failed to delete theme"), Sample.catalogWorld).
Proof.
  split.
  - destruct (proj1 (delete_catalogue_row Sample.catalogWorld "food-1")
                Sample.food1 eq_refl)
      as (w' & Hrun & Hgone & _).
    exists w'. split; assumption.
  - exact (proj2 (proj2 (proj2
             (delete_catalogue_row Sample.catalogWorld "theme-9"))) eq_refl).
Defined.

(** X21.  On the reference store, the actions that first look a row up
    report a missing row by name and change nothing: [toggleHallStatus] and
    [getHallById] return "Hall not found", [toggleFoodItemAvailability]
    "Food item not found", [toggleThemeAvailability] and [getThemeById]
    "Theme not found", [getBookingById] "Booking not found". *)
Theorem missing_row_not_found (w : Mem.World) (id : string) :
  (Mem.lookup Hall.id id (Mem.halls w) = None ->
   Halls.toggleHallStatus id w = (inl (Failure "Hall not found"), w)
   /\ Halls.getHallById id w = (inl (Failure "Hall not found"), w))
  /\ (Mem.lookup FoodItem.id id (Mem.foodItems w) = None ->
      FoodItems.toggleFoodItemAvailability id w
      = (inl (Failure "Food item not found"), w))
  /\ (Mem.lookup Theme.id id (Mem.themes w) = None ->
      Themes.toggleThemeAvailability id w
      = (inl (Failure "Theme not found"), w)
      /\ Themes.getThemeById id w = (inl (Failure "Theme not found"), w))
  /\ (Mem.lookup Booking.id id (Mem.bookings w) = None ->
      Bookings.getBookingById id w
      = (inl (Failure "Booking not found"), w)).
Proof.
  repeat split; intros;
    unfold Halls.toggleHallStatus, Halls.getHallById,
      FoodItems.toggleFoodItemAvailability, Themes.toggleThemeAvailability,
      Themes.getThemeById, Bookings.getBookingById;
    run_action;
    match goal with
    | Hmissing : Mem.lookup _ _ _ = None |- _ => now resume Hmissing
    end.
Qed.

Lemma missing_row_not_found_witness :
  Halls.toggleHallStatus "hall-z" Sample.world
  = (inl (Failure "Hall not found"), Sample.world)
  /\ Bookings.getBookingById "b-404" Sample.world
     = (inl (Failure "Booking not found"), Sample.world).
Proof.
  split.
  - exact (proj1 (proj1 (missing_row_not_found Sample.world "hall-z") eq_refl)).
  - exact (proj2 (proj2 (proj2 (missing_row_not_found Sample.world "b-404")))
             eq_refl).
Defined.

(** ** The total amount, further *)





(** ** Booking numbers *)

Lemma civilFromDays_bounds (days : Z) :
  let '(y, m, d) := JS.civilFromDays days in
  1 <= m <= 12 /\ 1 <= d <= 31.
Proof.
  unfold JS.civilFromDays.
  set (z := days + 719468).
  set (era := z / 146097).
  set (doe := z - era * 146097).
  set (yoe := (doe - doe / 1460 + doe / 36524 - doe / 146096) / 365).
  set (doy := doe - (365 * yoe + yoe / 4 - yoe / 100)).
  set (mp := (5 * doy + 2) / 153).
  assert (Hdoe : 0 <= doe <= 146096).
  { unfold doe, era. pose proof (Z.mod_pos_bound z 146097 eq_refl).
    pose proof (Z.div_mod z 146097 ltac:(lia)). lia. }
  assert (Hdoy : 0 <= doy <= 365)
    by (unfold doy, yoe; Z.to_euclidean_division_equations; lia).
  assert (Hmp : 0 <= mp <= 11)
    by (unfold mp; Z.to_euclidean_division_equations; lia).
  destruct (mp <? 10) eqn:Hlt.
  - apply Z.ltb_lt in Hlt. split; [lia | ].
    unfold mp in *. Z.to_euclidean_division_equations. lia.
  - apply Z.ltb_ge in Hlt. split; [lia | ].
    unfold mp in *. Z.to_euclidean_division_equations. lia.
Qed.

Lemma length_append (s1 s2 : string) :
  String.length (s1 ++ s2) = (String.length s1 + String.length s2)%nat.
Proof.
  induction s1 as [ | c s1 IH]; cbn; [reflexivity | now rewrite IH].
Qed.

Lemma length_repeatString (n : nat) :
  String.length (JS.repeatString "0" n) = n.
Proof.
  induction n as [ | n IH]; cbn; [reflexivity | now rewrite IH].
Qed.

Lemma length_padStart (s : string) (n : nat) :
  String.length (JS.padStart s n "0") = Nat.max n (String.length s).
Proof.
  unfold JS.padStart. rewrite length_append, length_repeatString. lia.
Qed.

(** A property checked on every integer below a bound. *)
Lemma checked_below (P : Z -> bool) (bound : Z) :
  forallb (fun k => P (Z.of_nat k)) (seq 0 (Z.to_nat bound)) = true ->
  forall z, 0 <= z < bound -> P z = true.
Proof.
  intros Hall z Hz. rewrite forallb_forall in Hall.
  rewrite <- (Z2Nat.id z) by lia. apply Hall.
  apply in_seq. lia.
Qed.

Lemma length_toString_2 (z : Z) :
  0 <= z < 100 -> (String.length (JS.toString z) <= 2)%nat.
Proof.
  intros Hz. apply Nat.leb_le.
  apply (checked_below
           (fun z => Nat.leb (String.length (JS.toString z)) 2) (bound := 100));
    [vm_compute; reflexivity | exact Hz].
Qed.

Lemma length_toString_4 (z : Z) :
  0 <= z < 10000 -> (String.length (JS.toString z) <= 4)%nat.
Proof.
  intros Hz. apply Nat.leb_le.
  apply (checked_below
           (fun z => Nat.leb (String.length (JS.toString z)) 4)
           (bound := 10000));
    [vm_compute; reflexivity | exact Hz].
Qed.

Lemma length_toString_year (z : Z) :
  1000 <= z <= 9999 -> String.length (JS.toString z) = 4%nat.
Proof.
  intros Hz. apply Nat.eqb_eq.
  assert (Hcheck : (z <? 1000)
                   || Nat.eqb (String.length (JS.toString z)) 4 = true).
  { apply (checked_below
             (fun z => (z <? 1000)
                       || Nat.eqb (String.length (JS.toString z)) 4)
             (bound := 10000));
      [vm_compute; reflexivity | lia]. }
  destruct (Z.ltb_spec z 1000); [lia | exact Hcheck].
Qed.

(** The digits written for a number read back as that number. *)
Definition readsAs (s : string) (z : Z) : bool :=
  match decimalValue s with
  | Some v => v =? z
  | None => false
  end.

Lemma readsAs_spec (s : string) (z : Z) :
  readsAs s z = true -> decimalValue s = Some z.
Proof.
  unfold readsAs. destruct (decimalValue s) as [v | ]; [ | discriminate].
  intros Heq. apply Z.eqb_eq in Heq. now subst v.
Qed.

Lemma decimalValue_toString (z : Z) :
  0 <= z < 10000 -> decimalValue (JS.toString z) = Some z.
Proof.
  intros Hz. apply readsAs_spec.
  apply (checked_below (fun z => readsAs (JS.toString z) z) (bound := 10000));
    [vm_compute; reflexivity | exact Hz].
Qed.

Lemma decimalValue_padStart_2 (z : Z) :
  0 <= z < 100 -> decimalValue (JS.padStart (JS.toString z) 2 "0") = Some z.
Proof.
  intros Hz. apply readsAs_spec.
  apply (checked_below
           (fun z => readsAs (JS.padStart (JS.toString z) 2 "0") z)
           (bound := 100));
    [vm_compute; reflexivity | exact Hz].
Qed.

Lemma decimalValue_padStart_4 (z : Z) :
  0 <= z < 10000 -> decimalValue (JS.padStart (JS.toString z) 4 "0") = Some z.
Proof.
  intros Hz. apply readsAs_spec.
  apply (checked_below
           (fun z => readsAs (JS.padStart (JS.toString z) 4 "0") z)
           (bound := 10000));
    [vm_compute; reflexivity | exact Hz].
Qed.

Section BookingNumber.
Context {W : Type} {host : Host W} {rt : Runtime}.

Lemma generateBookingNumber_runs (w w1 w2 : W) (date r : Z) :
  dateNow w = (inl date, w1) ->
  randomBelow 10000 w1 = (inl r, w2) ->
  Bookings.generateBookingNumber w
  = (inl ("BK"
          ++ JS.toString (JS.getFullYear tzOffset date)
          ++ JS.padStart (JS.toString (JS.getMonth tzOffset date + 1)) 2 "0"
          ++ JS.padStart (JS.toString (JS.getDate tzOffset date)) 2 "0"
          ++ JS.padStart (JS.toString r) 4 "0"), w2).
Proof.
  intros Hdate Hrandom. unfold Bookings.generateBookingNumber, bind, ret.
  now rewrite Hdate, Hrandom.
Qed.

(** X23.  Whatever the host, when the clock reads a date in the years 1000
    to 9999 and the random source gives an integer of [0, 10000),
    [generateBookingNumber] returns "BK" followed by exactly 12 decimal
    digits: 4 that read as the year of the local date of the clock, 2 that
    read as its month counted from 1, 2 that read as its day of the month,
    and 4 that read as the number drawn. *)
Theorem generateBookingNumber_format (w w1 w2 : W) (date r : Z) :
  dateNow w = (inl date, w1) ->
  randomBelow 10000 w1 = (inl r, w2) ->
  0 <= r < 10000 ->
  1000 <= JS.getFullYear tzOffset date <= 9999 ->
  exists year month day random,
    Bookings.generateBookingNumber w
    = (inl ("BK" ++ year ++ month ++ day ++ random), w2)
    /\ String.length year = 4%nat
    /\ decimalValue year = Some (JS.getFullYear tzOffset date)
    /\ String.length month = 2%nat
    /\ decimalValue month = Some (JS.getMonth tzOffset date + 1)
    /\ String.length day = 2%nat
    /\ decimalValue day = Some (JS.getDate tzOffset date)
    /\ String.length random = 4%nat
    /\ decimalValue random = Some r.
Proof.
  intros Hdate Hrandom Hr Hyear.
  do 4 eexists.
  split; [exact (generateBookingNumber_runs w Hdate Hrandom) | ].
  pose proof (civilFromDays_bounds (JS.Day (JS.LocalTime tzOffset date)))
    as Hcivil.
  unfold JS.getFullYear, JS.getMonth, JS.getDate in *.
  destruct (JS.civilFromDays (JS.Day (JS.LocalTime tzOffset date)))
    as [[y m] d].
  destruct Hcivil as [Hm Hd].
  rewrite !length_padStart.
  pose proof (length_toString_2 (z := m - 1 + 1) ltac:(lia)).
  pose proof (length_toString_2 (z := d) ltac:(lia)).
  pose proof (length_toString_4 Hr).
  split; [now apply length_toString_year | ].
  split; [apply decimalValue_toString; lia | ].
  split; [lia | ].
  split; [apply decimalValue_padStart_2; lia | ].
  split; [lia | ].
  split; [apply decimalValue_padStart_2; lia | ].
  split; [lia | ].
  now apply decimalValue_padStart_4.
Qed.

(** X24.  Booking numbers are not unique by construction: whatever the
    host, two calls of [generateBookingNumber] whose clocks read dates of
    the same local calendar day and whose random draws coincide return the
    same number. *)
Theorem generateBookingNumber_collides (w w1 w2 w' w1' w2' : W)
    (date date' r : Z) :
  dateNow w = (inl date, w1) ->
  randomBelow 10000 w1 = (inl r, w2) ->
  dateNow w' = (inl date', w1') ->
  randomBelow 10000 w1' = (inl r, w2') ->
  sameDate date date' = true ->
  fst (Bookings.generateBookingNumber w)
  = fst (Bookings.generateBookingNumber w').
Proof.
  intros Hdate Hrandom Hdate' Hrandom' Hsame.
  rewrite (generateBookingNumber_runs w Hdate Hrandom),
    (generateBookingNumber_runs w' Hdate' Hrandom').
  apply Z.eqb_eq in Hsame.
  unfold JS.getFullYear, JS.getMonth, JS.getDate. now rewrite Hsame.
Qed.
End BookingNumber.

Lemma generateBookingNumber_format_witness :
  exists year month day random,
    Bookings.generateBookingNumber (rt := Sample.runtime) Sample.world
    = (inl ("BK" ++ year ++ month ++ day ++ random),
       Mem.with_randoms [] Sample.world)
    /\ String.length year = 4%nat
    /\ decimalValue year = Some (JS.getFullYear 19800000 1795000000000)
    /\ String.length month = 2%nat
    /\ decimalValue month = Some (JS.getMonth 19800000 1795000000000 + 1)
    /\ String.length day = 2%nat
    /\ decimalValue day = Some (JS.getDate 19800000 1795000000000)
    /\ String.length random = 4%nat
    /\ decimalValue random = Some 4711.
Proof.
  apply (@generateBookingNumber_format Mem.World Mem.host Sample.runtime
           Sample.world Sample.world (Mem.with_randoms [] Sample.world)
           1795000000000 4711 eq_refl eq_refl).
  - lia.
  - vm_compute. split; discriminate.
Defined.

Lemma generateBookingNumber_collides_witness :
  fst (Bookings.generateBookingNumber (rt := Sample.runtime) Sample.world)
  = fst (Bookings.generateBookingNumber (rt := Sample.runtime)
           (Mem.mk [] [] [] [] [] 1795000001000 [4711] 7 [])).
Proof.
  apply (@generateBookingNumber_collides Mem.World Mem.host Sample.runtime
           Sample.world Sample.world (Mem.with_randoms [] Sample.world)
           (Mem.mk [] [] [] [] [] 1795000001000 [4711] 7 [])
           (Mem.mk [] [] [] [] [] 1795000001000 [4711] 7 [])
           (Mem.mk [] [] [] [] [] 1795000001000 [] 7 [])
           1795000000000 1795000001000 4711
           eq_refl eq_refl eq_refl eq_refl eq_refl).
Defined.

(** ** A slot name that is none *)

Lemma find_none_existsb {A} (p q : A -> bool) (rows : list A) :
  (forall x, p x = q x) ->
  find p rows = None <-> existsb q rows = false.
Proof.
  intros Hpq. induction rows as [ | r rows IH]; cbn; [tauto | ].
  rewrite <- Hpq. destruct (p r); cbn; [ | exact IH].
  split; discriminate.
Qed.

Section UnknownSlot.
Context {rt : Runtime}.

(** X25.  [checkHallAvailability] takes any string as time slot.  On the
    reference store, for a string that is none of "Morning", "Evening" and
    "Full Day", only an active "Full Day" booking of the hall on that day
    makes the hall unavailable: with one the answer is unavailable, and
    without one it is available, whatever "Morning" and "Evening" bookings
    there are. *)
Theorem checkHallAvailability_unknown_slot (w : Mem.World)
    (hallId : string) (eventDate : Z) (timeSlot : string) :
  isSlotName timeSlot = false ->
  let blocks (b : Booking.t) : bool :=
    overlaps hallId eventDate FullDay b
    && match Booking.timeSlot b with FullDay => true | _ => false end in
  Halls.checkHallAvailability hallId eventDate timeSlot w
  = (inl (if existsb blocks (Mem.bookings w)
          then SuccessAvailability false
                 "Hall is already booked for this date and time"
          else SuccessAvailability true "Hall is available"), w).
Proof.
  intros Hname blocks. rewrite checkHallAvailability_mem.
  assert (Hmatches :
            forall b,
              Booking.matches
                (Halls.availabilityQuery hallId eventDate timeSlot) b
              = blocks b).
  { intros b. unfold blocks.
    rewrite <- availabilityQuery_overlaps.
    unfold Booking.matches, Halls.availabilityQuery.
    cbn [Booking.w_hallId Booking.w_userId Booking.w_eventDate_gte
         Booking.w_eventDate_lte Booking.w_status Booking.w_paymentStatus
         Booking.w_OR holds Booking.statusMatches timeSlotName].
    unfold isSlotName in Hname. cbn in Hname.
    rewrite !orb_false_r in Hname.
    apply orb_false_iff in Hname. destruct Hname as [Hm Hrest].
    apply orb_false_iff in Hrest. destruct Hrest as [He Hf].
    rewrite Hf. rewrite !andb_true_r.
    destruct (Booking.timeSlot b); cbn [timeSlotName existsb app];
      rewrite ?(String.eqb_sym _ timeSlot), ?Hm, ?He, ?Hf; cbn;
      rewrite ?andb_false_r, ?andb_true_r, ?orb_false_r; reflexivity. }
  pose proof (find_none_existsb _ blocks (Mem.bookings w) Hmatches) as Hfind.
  destruct (find _ (Mem.bookings w)) as [found | ],
    (existsb blocks (Mem.bookings w));
    try reflexivity.
  - discriminate (proj2 Hfind eq_refl).
  - discriminate (proj1 Hfind eq_refl).
Qed.
End UnknownSlot.

Lemma checkHallAvailability_unknown_slot_witness :
  Halls.checkHallAvailability (rt := Sample.runtime) "hall-a" Sample.dateD
    "Afternoon"
    (Mem.with_bookings
       [Booking.mk "b-2" "BK202611180043" "user-1" "hall-a" 1800037799999
          Morning 100 "Wedding" [Sample.paneer] None 50400 Sample.customer
          None CONFIRMED PAID None 1795000000001]
       Sample.world)
  = (inl (SuccessAvailability true "Hall is available"),
     Mem.with_bookings
       [Booking.mk "b-2" "BK202611180043" "user-1" "hall-a" 1800037799999
          Morning 100 "Wedding" [Sample.paneer] None 50400 Sample.customer
          None CONFIRMED PAID None 1795000000001]
       Sample.world).
Proof.
  exact (@checkHallAvailability_unknown_slot Sample.runtime
           (Mem.with_bookings
              [Booking.mk "b-2" "BK202611180043" "user-1" "hall-a"
                 1800037799999 Morning 100 "Wedding" [Sample.paneer] None
                 50400 Sample.customer None CONFIRMED PAID None
                 1795000000001]
              Sample.world)
           "hall-a" Sample.dateD "Afternoon" eq_refl).
Defined.

(** ** Payments and revenue *)

Lemma paidRevenue_cons (b : Booking.t) (rows : list Booking.t) :
  paidRevenue (b :: rows)
  = (if isPaid b then Booking.totalAmount b else 0) + paidRevenue rows.
Proof.
  unfold paidRevenue. cbn [filter]. destruct (isPaid b); cbn; lia.
Qed.

Lemma updateRows_absent {A} (rowId : A -> string) (f : A -> A)
    (id : string) (rows : list A) :
  ~ In id (map rowId rows) -> Mem.updateRows rowId id f rows = rows.
Proof.
  unfold Mem.updateRows. induction rows as [ | r rows IH]; cbn;
    [reflexivity | ].
  intros Hnot. destruct (String.eqb_spec (rowId r) id) as [Heq | _].
  - exfalso. apply Hnot. now left.
  - rewrite IH; [reflexivity | ]. intros Hin. apply Hnot. now right.
Qed.

Lemma paidRevenue_after_payment (id : string) (paymentId : option string)
    (rows : list Booking.t) (b : Booking.t) :
  NoDup (map Booking.id rows) ->
  Mem.lookup Booking.id id rows = Some b ->
  isPaid b = false ->
  paidRevenue
    (Mem.updateRows Booking.id id
       (Booking.apply
          (Booking.mkPatch (Some CONFIRMED) (Some PAID) paymentId None))
       rows)
  = paidRevenue rows + Booking.totalAmount b.
Proof.
  intros Hnodup Hb Hunpaid.
  induction rows as [ | r rows IH]; [discriminate | ].
  inversion Hnodup as [ | k ks Hfresh Hrest]; subst.
  unfold Mem.lookup in Hb. cbn [find] in Hb.
  cbn [Mem.updateRows map].
  destruct (String.eqb_spec (Booking.id r) id) as [Heq | Hne].
  - injection Hb as ->. rewrite <- Heq in *.
    fold (Mem.updateRows Booking.id (Booking.id b)
            (Booking.apply
               (Booking.mkPatch (Some CONFIRMED) (Some PAID) paymentId None))
            rows).
    rewrite updateRows_absent by exact Hfresh.
    rewrite !paidRevenue_cons, Hunpaid. cbn. lia.
  - fold (Mem.updateRows Booking.id id
            (Booking.apply
               (Booking.mkPatch (Some CONFIRMED) (Some PAID) paymentId None))
            rows).
    rewrite !paidRevenue_cons, (IH Hrest Hb). lia.
Qed.

(** X26.  On the reference store with unique booking ids, marking a
    booking that is not yet PAID as PAID raises the revenue reported by
    [getBookingStats] by exactly the [totalAmount] of that booking and
    leaves the number of bookings as it was. *)
Theorem payment_shows_in_revenue (w : Mem.World) (id : string)
    (paymentId : option string) (b : Booking.t) (stats : Bookings.Stats) :
  NoDup (map Booking.id (Mem.bookings w)) ->
  Mem.lookup Booking.id id (Mem.bookings w) = Some b ->
  Booking.paymentStatus b <> PAID ->
  Bookings.getBookingStats w = (inl (Success stats), w) ->
  exists b' w' stats',
    Bookings.updatePaymentStatus id PAID paymentId w = (inl (Success b'), w')
    /\ Bookings.getBookingStats w' = (inl (Success stats'), w')
    /\ Bookings.totalRevenue stats'
       = Bookings.totalRevenue stats + Booking.totalAmount b
    /\ Bookings.totalBookings stats' = Bookings.totalBookings stats.
Proof.
  intros Hnodup Hb Hunpaid Hstats.
  destruct (updatePaymentStatus_mem w id PAID paymentId Hb)
    as (w' & Hrun & Hrows & _).
  rewrite getBookingStats_mem in Hstats. injection Hstats as <-.
  eexists. exists w'. eexists.
  split; [exact Hrun | split; [apply getBookingStats_mem | ]].
  cbn [Bookings.totalRevenue Bookings.totalBookings].
  rewrite Hrows. cbn [PaymentStatus_eqb]. split.
  - apply paidRevenue_after_payment; [exact Hnodup | exact Hb | ].
    unfold isPaid. destruct (Booking.paymentStatus b); try reflexivity.
    contradiction.
  - unfold Mem.updateRows. now rewrite length_map.
Qed.

Lemma payment_shows_in_revenue_witness :
  exists b' w' stats',
    Bookings.updatePaymentStatus "b-1" PAID (Some "pay_1")
      (Sample.bookedWorld PENDING PaymentPENDING)
    = (inl (Success b'), w')
    /\ Bookings.getBookingStats w' = (inl (Success stats'), w')
    /\ Bookings.totalRevenue stats' = 0 + 53400
    /\ Bookings.totalBookings stats' = 1.
Proof.
  apply (@payment_shows_in_revenue
           (Sample.bookedWorld PENDING PaymentPENDING) "b-1" (Some "pay_1")
           (Sample.fullDayBooking PENDING PaymentPENDING)
           (Bookings.mkStats 1 0 1 0)).
  - repeat constructor. intros [].
  - reflexivity.
  - discriminate.
  - reflexivity.
Defined.

(** ** Halls: creation and deactivation *)

Section HallState.
Context {rt : Runtime}.

(** X27.  On the reference store, [createHall] with an input that passes
    the schema stores a hall with the fields of the input; the hall is then
    in the list of [getAllHalls], and in the list of [getActiveHalls]
    exactly when its [isActive] flag is set. *)
Theorem createHall_then_listed (w : Mem.World) (input : Hall.Input) :
  Validations.hallSchema input = [] ->
  exists hall w' all active,
    Halls.createHall input w = (inl (Success hall), w')
    /\ Mem.halls w' = (Mem.halls w ++ [hall])%list
    /\ Hall.name hall = Hall.i_name input
    /\ Hall.capacity hall = Hall.i_capacity input
    /\ Hall.basePrice hall = Hall.i_basePrice input
    /\ Hall.images hall = Hall.i_images input
    /\ Hall.amenities hall = Hall.i_amenities input
    /\ Hall.isActive hall = Hall.i_isActive input
    /\ Halls.getAllHalls w' = (inl (Success all), w')
    /\ In hall all
    /\ Halls.getActiveHalls w' = (inl (Success active), w')
    /\ (In hall active <-> Hall.i_isActive input = true).
Proof.
  intros Hvalid.
  unfold Halls.createHall, Validations.parse. rewrite Hvalid. run_action.
  do 4 eexists.
  split; [reflexivity | ]. project.
  do 7 (split; [reflexivity | ]).
  split; [reflexivity | split].
  - eapply Permutation_in; [symmetry; apply sortBy_Permutation | ].
    rewrite filter_all by reflexivity. project.
    apply in_or_app. right. now left.
  - split; [reflexivity | ]. project.
    split.
    + intros Hin.
      eapply Permutation_in in Hin; [ | apply sortBy_Permutation].
      apply filter_In in Hin. destruct Hin as [_ Hmatch].
      unfold Hall.matches in Hmatch. cbn in Hmatch.
      now destruct (Hall.i_isActive input).
    + intros Hactive.
      eapply Permutation_in; [symmetry; apply sortBy_Permutation | ].
      apply filter_In. split.
      * apply in_or_app. right. now left.
      * unfold Hall.matches. cbn. now rewrite Hactive.
Qed.

(** X28.  [createBooking] does not read the [isActive] flag of the hall.
    On the reference store, after [toggleHallStatus] has deactivated an
    active hall, a request for that hall that passes the schema and
    overlaps no active booking still succeeds. *)
Theorem deactivated_hall_can_be_booked (w : Mem.World) (userId : string)
    (input : Booking.Input) (hall : Hall.t) :
  Mem.lookup Hall.id (Booking.i_hallId input) (Mem.halls w) = Some hall ->
  Hall.isActive hall = true ->
  Validations.bookingSchema input = [] ->
  (forall b, In b (Mem.bookings w) ->
     overlaps (Booking.i_hallId input) (Booking.i_eventDate input)
              (Booking.i_timeSlot input) b = false) ->
  exists hall' w1 booking w2,
    Halls.toggleHallStatus (Booking.i_hallId input) w
    = (inl (Success hall'), w1)
    /\ Hall.isActive hall' = false
    /\ Mem.lookup Hall.id (Booking.i_hallId input) (Mem.halls w1) = Some hall'
    /\ Bookings.createBooking userId input w1 = (inl (Success booking), w2)
    /\ Booking.hall booking = Some (Hall.select SelectAll hall').
Proof.
  intros Hhall Hactive Hvalid Hfree.
  assert (Htoggle :
            exists hall' w1,
              Halls.toggleHallStatus (Booking.i_hallId input) w
              = (inl (Success hall'), w1)
              /\ Hall.isActive hall' = false
              /\ Mem.lookup Hall.id (Booking.i_hallId input) (Mem.halls w1)
                 = Some hall'
              /\ Mem.bookings w1 = Mem.bookings w).
  { unfold Halls.toggleHallStatus. run_action. resume Hhall.
    do 2 eexists. split; [reflexivity | ]. project.
    split; [cbn; now rewrite Hactive | split; [ | reflexivity]].
    rewrite lookup_updateRows by apply Hall_apply_id.
    now rewrite String.eqb_refl, Hhall. }
  destruct Htoggle as (hall' & w1 & Hrun & Hflag & Hhall' & Hrows).
  exists hall', w1.
  rewrite <- Hrows in Hfree.
  pose proof (find_not_overlapping input _ Hfree) as Hnone.
  assert (Hcreated :
            exists booking w2,
              Bookings.createBooking userId input w1
              = (inl (Success booking), w2)).
  { destruct (createBooking_outcome w1 userId input)
      as [issues Hissues Hne | b _ Hfind | _ _ Hmissing
          | hall'' booking w2 _ _ Hfound];
      try congruence.
    now exists booking, w2. }
  destruct Hcreated as (booking & w2 & Hcreate).
  exists booking, w2.
  destruct (createBooking_success w1 userId input Hcreate)
    as (h & bn & _ & Hh & _ & Hjoined & _).
  repeat split; try assumption. congruence.
Qed.
End HallState.

Lemma createHall_then_listed_witness :
  exists hall w' all active,
    Halls.createHall (rt := Sample.runtime)
      (Hall.mkInput "Hall B" None 200 20000 ["https://example.com/b.jpg"] []
                    false) Sample.world
    = (inl (Success hall), w')
    /\ Halls.getAllHalls w' = (inl (Success all), w')
    /\ In hall all
    /\ Halls.getActiveHalls w' = (inl (Success active), w')
    /\ ~ In hall active.
Proof.
  destruct (@createHall_then_listed Sample.runtime Sample.world
              (Hall.mkInput "Hall B" None 200 20000
                 ["https://example.com/b.jpg"] [] false) eq_refl)
    as (hall & w' & all & active & Hrun & _ & _ & _ & _ & _ & _ & _ & Hlist
        & Hin & Hactive & Hiff).
  exists hall, w', all, active.
  repeat split; try assumption.
  intros Hlisted. apply Hiff in Hlisted. discriminate Hlisted.
Defined.

Lemma deactivated_hall_can_be_booked_witness :
  exists hall' w1 booking w2,
    Halls.toggleHallStatus "hall-a" Sample.world = (inl (Success hall'), w1)
    /\ Hall.isActive hall' = false
    /\ Mem.lookup Hall.id "hall-a" (Mem.halls w1) = Some hall'
    /\ Bookings.createBooking (rt := Sample.runtime) "user-1"
         (Sample.request Morning 100) w1
       = (inl (Success booking), w2)
    /\ Booking.hall booking = Some (Hall.select SelectAll hall').
Proof.
  apply (@deactivated_hall_can_be_booked Sample.runtime Sample.world "user-1"
           (Sample.request Morning 100) Sample.hallA eq_refl eq_refl eq_refl).
  intros b [].
Defined.
